(** * Line-by-line radial velocity engine: [lbl/science/general.py]

    A shallow embedding of the numerical core of [science.general] and the
    properties of it that the design document states.

    Numbers.  A numpy [float64] is modelled by [float]: an exact rational
    kept in lowest terms, or one of the IEEE special values (the two
    infinities and NaN).  Rounding, overflow and the sign of zero are not
    modelled; the special values follow IEEE 754 (a comparison with NaN is
    false, [x / 0] is an infinity for [x <> 0] and NaN for [x = 0]).  Where
    a statement depends on rounding, the function is also given in
    binary64 itself ([B64], on the IEEE 754 specification of the Standard
    Library).

    Arrays.  A one-dimensional numpy array is a [list]; a two-dimensional
    array is the list of its rows.  Python exceptions are [None]. *)

From Stdlib Require Import QArith Qabs Qround ZArith List Bool Lia String.
From Stdlib Require Import SpecFloat.
Import ListNotations.

Open Scope Z_scope.

(* ================================================================== *)
(** * float64, idealised *)
(* ================================================================== *)

Module Float.

Inductive float : Type :=
| Fin (q : Q)              (* a finite value *)
| Inf (negative : bool)    (* +inf (false) and -inf (true) *)
| NaN.

Definition of_Z (z : Z) : float := Fin (inject_Z z).

Definition zero : float := of_Z 0.
Definition one : float := of_Z 1.

Definition sign (x : float) : Z :=
  match x with
  | Fin q => Z.sgn (Qnum q)
  | Inf b => if b then -1 else 1
  | NaN => 0
  end.

(** The infinity of a given sign; a zero sign stands for an invalid
    operation ([0 * inf], [0 / 0]). *)
Definition inf_of_sign (s : Z) : float :=
  match s with
  | Z0 => NaN
  | Zpos _ => Inf false
  | Zneg _ => Inf true
  end.

Definition add (x y : float) : float :=
  match x, y with
  | NaN, _ | _, NaN => NaN
  | Fin a, Fin b => Fin (Qred (a + b))
  | Inf s, Fin _ => Inf s
  | Fin _, Inf s => Inf s
  | Inf s, Inf t => if Bool.eqb s t then Inf s else NaN
  end.

Definition opp (x : float) : float :=
  match x with
  | Fin a => Fin (Qred (- a))
  | Inf s => Inf (negb s)
  | NaN => NaN
  end.

Definition sub (x y : float) : float := add x (opp y).

Definition mul (x y : float) : float :=
  match x, y with
  | NaN, _ | _, NaN => NaN
  | Fin a, Fin b => Fin (Qred (a * b))
  | _, _ => inf_of_sign (sign x * sign y)
  end.

Definition div (x y : float) : float :=
  match x, y with
  | NaN, _ | _, NaN => NaN
  | Fin a, Fin b =>
      if Qeq_bool b 0 then inf_of_sign (sign x) else Fin (Qred (a / b))
  | Fin _, Inf _ => zero
  | Inf _, Inf _ => NaN
  | Inf _, Fin b =>
      inf_of_sign (sign x * (if Qeq_bool b 0 then 1 else sign y))
  end.

Definition abs (x : float) : float :=
  match x with
  | Fin a => Fin (Qred (Qabs a))
  | Inf _ => Inf false
  | NaN => NaN
  end.

(** [x ** 2] *)
Definition sqr (x : float) : float := mul x x.

(** [x < y]; false as soon as one side is NaN. *)
Definition ltb (x y : float) : bool :=
  match x, y with
  | NaN, _ | _, NaN => false
  | Fin a, Fin b => negb (Qle_bool b a)
  | Inf s, Inf t => s && negb t
  | Inf s, Fin _ => s
  | Fin _, Inf t => negb t
  end.

Definition gtb (x y : float) : bool := ltb y x.

(** [x == y] *)
Definition eqb (x y : float) : bool :=
  match x, y with
  | Fin a, Fin b => Qeq_bool a b
  | Inf s, Inf t => Bool.eqb s t
  | _, _ => false
  end.

Definition isfinite (x : float) : bool :=
  match x with Fin _ => true | _ => false end.

Definition isnan (x : float) : bool :=
  match x with NaN => true | _ => false end.

(** [np.floor] and [np.ceil] (a float again). *)
Definition floor (x : float) : float :=
  match x with Fin a => of_Z (Qfloor a) | _ => x end.

Definition ceil (x : float) : float :=
  match x with Fin a => of_Z (Qceiling a) | _ => x end.

(** Python's [int(x)]: truncation towards zero; NaN and the infinities
    raise. *)
Definition to_int (x : float) : option Z :=
  match x with
  | Fin a => Some (Z.quot (Qnum a) (Zpos (Qden a)))
  | _ => None
  end.

End Float.

Import Float.

Declare Scope float_scope.
Delimit Scope float_scope with float.
Bind Scope float_scope with float.
Infix "+" := Float.add : float_scope.
Infix "-" := Float.sub : float_scope.
Infix "*" := Float.mul : float_scope.
Infix "/" := Float.div : float_scope.
Infix "<?" := Float.ltb : float_scope.
Infix ">?" := Float.gtb : float_scope.

(* ================================================================== *)
(** * The numpy operations the module uses *)
(* ================================================================== *)

Module Np.

(** Element-wise binary operation on two arrays of one shape. *)
Fixpoint map2 {A B C} (f : A -> B -> C) (xs : list A) (ys : list B)
  : list C :=
  match xs, ys with
  | x :: xs', y :: ys' => f x y :: map2 f xs' ys'
  | _, _ => []
  end.

(** [a[mask]] for a boolean mask of the shape of [a]. *)
Fixpoint bool_index {A} (a : list A) (mask : list bool) : list A :=
  match a, mask with
  | x :: a', b :: mask' =>
      if b then x :: bool_index a' mask' else bool_index a' mask'
  | _, _ => []
  end.

(** [np.sum] of a boolean mask. *)
Definition count (mask : list bool) : Z :=
  Z.of_nat (List.length (filter (fun b => b) mask)).

(** [np.sum]: NaN and infinities propagate. *)
Definition sum (a : list float) : float := fold_left Float.add a zero.

(** [np.min] and [np.max]: NaN propagates, an empty array raises. *)
Definition min2 (x y : float) : float :=
  match x, y with
  | NaN, _ | _, NaN => NaN
  | _, _ => if Float.ltb y x then y else x
  end.

Definition max2 (x y : float) : float :=
  match x, y with
  | NaN, _ | _, NaN => NaN
  | _, _ => if Float.ltb x y then y else x
  end.

Definition min (a : list float) : option float :=
  match a with
  | [] => None
  | x :: a' => Some (fold_left min2 a' x)
  end.

Definition max (a : list float) : option float :=
  match a with
  | [] => None
  | x :: a' => Some (fold_left max2 a' x)
  end.

(** [np.arange(n)] as floats. *)
Definition arange (n : nat) : list float :=
  map (fun i => of_Z (Z.of_nat i)) (seq 0 n).

(** [np.repeat(v, n)]; a negative count raises. *)
Definition repeat {A} (v : A) (n : Z) : option (list A) :=
  if n <? 0 then None else Some (List.repeat v (Z.to_nat n)).

(** [np.full(n, v)] *)
Definition full {A} (n : nat) (v : A) : list A := List.repeat v n.

(** An element-wise binary operation with numpy's broadcasting of
    one-dimensional arrays: the two lengths agree, or one array has a
    single entry, which is paired with every entry of the other; any
    other pair of lengths raises. *)
Definition broadcast2 {A B C} (f : A -> B -> C) (xs : list A) (ys : list B)
  : option (list C) :=
  if (List.length xs =? List.length ys)%nat then Some (map2 f xs ys)
  else
    match xs, ys with
    | [x], _ => Some (map (f x) ys)
    | _, [y] => Some (map (fun x => f x y) xs)
    | _, _ => None
    end.

(** [a[i] = v] for a row [a[i]] of [width] entries and an array [v]: the
    row becomes [v] when [v] has [width] entries, a single entry of [v]
    fills the row, and any other length raises. *)
Definition assign_row {A} (width : nat) (v : list A) : option (list A) :=
  if (List.length v =? width)%nat then Some v
  else
    match v with
    | [x] => Some (List.repeat x width)
    | _ => None
    end.

End Np.

(* ================================================================== *)
(** * make_ref_dict: the reference line table *)
(* ================================================================== *)

(** The line mask as the instrument loads it: the columns [ll_mask_s]
    (line centres) and [w_mask] (weights) of one table. *)
Record MaskTable : Type := {
  ll_mask_s : list float;
  w_mask : list float
}.

(** The reference table: one entry per key of [ref_dict]. *)
Record RefDict : Type := {
  ORDER : list Z;
  WAVE_START : list float;
  WAVE_END : list float;
  WEIGHT_LINE : list float;
  XPIX : list float;
  RMSRATIO : list float;
  NPIXLINE : list Z;
  MEANXPIX : list float;
  MEANBLAZE : list float;
  AMP_CONTINUUM : list float;
  CHI2 : list float;
  CHI2_VALID_CDF : list float
}.

(** The five vectors the order loop of [make_ref_dict] accumulates. *)
Record RefVectors : Type := {
  v_order : list Z;
  v_wave_start : list float;
  v_wave_end : list float;
  v_weight_line : list float;
  v_xpix : list float
}.

Definition empty_vectors : RefVectors :=
  {| v_order := []; v_wave_start := []; v_wave_end := [];
     v_weight_line := []; v_xpix := [] |}.

(** [a += b] on the five vectors. *)
Definition extend (a b : RefVectors) : RefVectors :=
  {| v_order := v_order a ++ v_order b;
     v_wave_start := v_wave_start a ++ v_wave_start b;
     v_wave_end := v_wave_end a ++ v_wave_end b;
     v_weight_line := v_weight_line a ++ v_weight_line b;
     v_xpix := v_xpix a ++ v_xpix b |}.

(** A spline object: a callable from arrays to arrays. *)
Definition Spline : Type := list float -> list float.

Section MakeRefDict.

(** [mp.iuv_spline(x, y, k=, ext=)], from [lbl.core.math]: the
    interpolating spline through the points [(x, y)].  Building it can
    fail (too few points, abscissae not increasing). *)
Variable iuv_spline :
  list float -> list float -> option Z -> option Z -> option Spline.

(** The mask of the lines of the table that lie strictly inside
    [(min_wave, max_wave)]. *)
Definition good_mask (mask_table : MaskTable) (min_wave max_wave : float)
  : list bool :=
  let good := map (fun l => Float.gtb l min_wave) (ll_mask_s mask_table) in
  Np.map2 andb good
    (map (fun l => Float.ltb l max_wave) (ll_mask_s mask_table)).

(** What one pass of the order loop appends to the five vectors. *)
Definition order_lines (mask_table : MaskTable) (order_num : Z)
    (wave_ord : list float) : option RefVectors :=
  match Np.min wave_ord, Np.max wave_ord with
  | Some min_wave, Some max_wave =>
      let good := good_mask mask_table min_wave max_wave in
      if Np.count good >? 0 then
        match Np.repeat order_num (Np.count good - 1) with
        | Some orders =>
            let centres := Np.bool_index (ll_mask_s mask_table) good in
            let xgrid := Np.arange (List.length wave_ord) in
            match iuv_spline wave_ord xgrid None None with
            | Some xspline =>
                Some {| v_order := orders;
                        v_wave_start := removelast centres;
                        v_wave_end := tl centres;
                        v_weight_line :=
                          removelast
                            (Np.bool_index (w_mask mask_table) good);
                        v_xpix := xspline (removelast centres) |}
            | None => None
            end
        | None => None
        end
      else Some empty_vectors
  | _, _ => None
  end.

(** The loop over the orders of the wave grid. *)
Fixpoint order_loop (mask_table : MaskTable) (order_num : Z)
    (wavegrid : list (list float)) (acc : RefVectors)
  : option RefVectors :=
  match wavegrid with
  | [] => Some acc
  | wave_ord :: rest =>
      match order_lines mask_table order_num wave_ord with
      | Some lines =>
          order_loop mask_table (order_num + 1) rest (extend acc lines)
      | None => None
      end
  end.

Definition zeros_like {A B} (a : list A) (z : B) : list B :=
  map (fun _ => z) a.

(** [make_ref_dict].  [loaded] is the table read from [reftable_file]
    when it exists; [wavegrid] is the wave solution of the first
    science file. *)
Definition make_ref_dict (reftable_exists : bool) (loaded : RefDict)
    (wavegrid : list (list float)) (mask_table : MaskTable)
  : option RefDict :=
  if reftable_exists then Some loaded
  else
    match order_loop mask_table 0 wavegrid empty_vectors with
    | Some v =>
        let xpix := v_xpix v in
        Some {| ORDER := v_order v;
                WAVE_START := v_wave_start v;
                WAVE_END := v_wave_end v;
                WEIGHT_LINE := v_weight_line v;
                XPIX := xpix;
                RMSRATIO := zeros_like xpix zero;
                NPIXLINE := zeros_like xpix 0;
                MEANXPIX := zeros_like xpix zero;
                MEANBLAZE := zeros_like xpix zero;
                AMP_CONTINUUM := zeros_like xpix zero;
                CHI2 := zeros_like xpix zero;
                CHI2_VALID_CDF := zeros_like xpix zero |}
    | None => None
    end.

End MakeRefDict.

(* ================================================================== *)
(** * Python indexing and the missing-value statistics *)
(* ================================================================== *)

Module Py.

(** [a[i]]: a negative index counts from the end, an index out of range
    raises. *)
Definition norm_index (n i : Z) : option nat :=
  if (0 <=? i) && (i <? n) then Some (Z.to_nat i)
  else if (i <? 0) && (- n <=? i) then Some (Z.to_nat (n + i))
  else None.

Definition get_item {A} (a : list A) (i : Z) : option A :=
  match norm_index (Z.of_nat (List.length a)) i with
  | Some k => nth_error a k
  | None => None
  end.

(** The list [a] with position [k] replaced (nothing out of range). *)
Fixpoint update {A} (a : list A) (k : nat) (v : A) : list A :=
  match a, k with
  | [], _ => []
  | _ :: a', O => v :: a'
  | x :: a', S k' => x :: update a' k' v
  end.

(** [a[i] = v] *)
Definition set_item {A} (a : list A) (i : Z) (v : A) : option (list A) :=
  match norm_index (Z.of_nat (List.length a)) i with
  | Some k => Some (update a k v)
  | None => None
  end.

(** [a[start:stop]]: negative bounds count from the end, and both are
    clipped to the array. *)
Definition clip (n i : Z) : Z :=
  if i <? 0 then Z.max 0 (i + n) else Z.min i n.

Definition slice {A} (a : list A) (start stop : Z) : list A :=
  let n := Z.of_nat (List.length a) in
  let s := clip n start in
  let e := clip n stop in
  firstn (Z.to_nat (e - s)) (skipn (Z.to_nat s) a).

(** [needle in haystack] on strings. *)
Fixpoint contains (needle haystack : string) : bool :=
  if String.prefix needle haystack then true
  else match haystack with
       | EmptyString => false
       | String _ rest => contains needle rest
       end.

End Py.

(** Modelled from the spec: [mp.nansum], of [lbl.core.math], is not among
    the sources; the design document has every aggregate sum skip the
    missing values, which is numpy's [nansum]: NaN entries count as
    zero. *)
Definition nansum (a : list float) : float :=
  Np.sum (filter (fun x => negb (Float.isnan x)) a).

(** [constants.c.value], in m/s. *)
Definition speed_of_light_ms : float := of_Z 299792458.

(** The literal [0.99]: the binary64 number nearest to 99/100,
    [0x1.fae147ae147aep-1], which lies below it. *)
Definition literal_0_99 : float :=
  Fin (4458563631096791 # 4503599627370496).

(** The option monad carries a raised exception. *)
Notation "x <- c1 ;; c2" :=
  (match c1 with Some x => c2 | None => None end)
  (at level 61, c1 at next level, right associativity).

Notation "' pat <- c1 ;; c2" :=
  (match c1 with Some pat => c2 | None => None end)
  (at level 61, pat pattern, c1 at next level, right associativity).

(** [np.gradient] of a one-dimensional array with unit spacing: central
    differences inside, one-sided differences at both ends; fewer than
    two samples raise. *)
Fixpoint gradient_interior (a : list float) : list float :=
  match a with
  | x0 :: ((_ :: x2 :: _) as t) =>
      ((x2 - x0) / of_Z 2)%float :: gradient_interior t
  | _ => []
  end.

Definition gradient (a : list float) : option (list float) :=
  match a, rev a with
  | x0 :: x1 :: _, xn :: xm :: _ =>
      Some ((x1 - x0)%float :: gradient_interior a ++ [(xn - xm)%float])
  | _, _ => None
  end.

(** [np.arange(0, stop, step)] on integers; a zero step raises. *)
Definition arange_step (stop step : Z) : option (list Z) :=
  if step =? 0 then None
  else if (step <? 0) || (stop <=? 0) then Some []
  else Some (map (fun i => Z.of_nat i * step)
               (seq 0 (Z.to_nat ((stop + step - 1) / step)))).

(** The columns of a two-dimensional array, [a.shape[1]]. *)
Definition shape1 {A} (a : list (list A)) : Z :=
  Z.of_nat (List.length (hd [] a)).

Section Engine.

(** ** Collaborators

    Functions of [numpy], [scipy] and [lbl.core.math] that the module
    calls and that are not among the sources. *)

(** [np.sqrt] *)
Variable sqrt : float -> float.

(** [mp.nanmedian], [mp.nanstd] *)
Variable nanmedian : list float -> float.
Variable nanstd : list float -> float.

(** [mp.estimate_sigma]: a robust standard deviation. *)
Variable estimate_sigma : list float -> float.

(** [mp.odd_ratio_mean(value, error)]: the robust mean and its error. *)
Variable odd_ratio_mean : list float -> list float -> float * float.

(** [mp.doppler_shift(wave, velocity)] *)
Variable doppler_shift : list float -> float -> list float.

(** [mp.lowpassfilter(vector, width=)] *)
Variable lowpassfilter : list float -> Z -> list float.

(** [mp.iuv_spline(x, y, k=, ext=)]; building a spline can fail. *)
Variable iuv_spline :
  list float -> list float -> option Z -> option Z -> option Spline.

(** [stats.chi2.cdf(x, df)] *)
Variable chi2_cdf : float -> Z -> float.

(** ** get_velo_scale *)

Definition get_velo_scale (wave_vector : list float) (hp_width : float)
  : option Z :=
  dwave <- gradient wave_vector ;;
  let dvelo :=
    (one / nanmedian (map (fun x => x / speed_of_light_ms)
                        (Np.map2 Float.div wave_vector dwave)))%float in
  width <- Float.to_int (hp_width / dvelo) ;;
  Some (if width mod 2 =? 0 then width + 1 else width).

(** ** get_scaling_ratio *)

Definition finite_both (spectrum1 spectrum2 : list float) : list bool :=
  Np.map2 andb (map Float.isfinite spectrum1) (map Float.isfinite spectrum2).

(** One pass of the re-weighted fit: the amplitude after the pass. *)
Definition scaling_pass (spectrum1 spectrum2 spectrum1_2 spectrum2_2
    : list float) (amp : float) : float :=
  let residuals :=
    Np.map2 Float.sub spectrum1 (map (fun s => (amp * s)%float) spectrum2) in
  let sigma_res := estimate_sigma residuals in
  let good := finite_both spectrum1 spectrum2 in
  let good :=
    Np.map2 andb good
      (map (fun r => (Float.abs (r / sigma_res) <? of_Z 3)%float)
         residuals) in
  let part1 := nansum (Np.bool_index residuals good) in
  let part2 := nansum (Np.bool_index spectrum1_2 good) in
  let part3 := nansum (Np.bool_index spectrum2_2 good) in
  let scale := (part1 / sqrt (part2 * part3))%float in
  (amp / (one - scale))%float.

Definition get_scaling_ratio (spectrum1 spectrum2 : list float) : float :=
  let spectrum1_2 := map Float.sqr spectrum1 in
  let spectrum2_2 := map Float.sqr spectrum2 in
  let good := finite_both spectrum1 spectrum2 in
  let good :=
    Np.map2 andb good
      (map (fun s =>
              (Float.abs s <? estimate_sigma spectrum1 * of_Z 5)%float)
         spectrum1) in
  let good :=
    Np.map2 andb good
      (map (fun s =>
              (Float.abs s <? estimate_sigma spectrum2 * of_Z 5)%float)
         spectrum2) in
  let ratio :=
    (nansum (Np.bool_index spectrum1_2 good)
     / nansum (Np.bool_index spectrum2_2 good))%float in
  let amp := sqrt ratio in
  fold_left
    (fun amp (_ : nat) =>
       scaling_pass spectrum1 spectrum2 spectrum1_2 spectrum2_2 amp)
    (seq 0 5) amp.

(** ** estimate_noise_model *)

(** [sigma[sigma == 0] = np.nan] *)
Definition zero_to_nan (sigma : list float) : list float :=
  map (fun s => if Float.eqb s zero then NaN else s) sigma.

(** The body of the loop over the boxes of one order. *)
Definition box_sigma (npoints ncols : Z) (residuals : list float)
    (sigma : list float) (it : nat) (index : Z) : list float :=
  let istart := index - npoints in
  let iend := index + npoints in
  let istart := if istart <? 0 then 0 else istart in
  let iend := if iend >? ncols then ncols else iend in
  let sigma :=
    Py.update sigma it (estimate_sigma (Py.slice residuals istart iend)) in
  zero_to_nan sigma.

(** The [sigma] array of one order once the loop over its boxes is
    over. *)
Definition box_sigmas (npoints ncols : Z) (residuals : list float)
    (indices : list Z) : list float :=
  fold_left
    (fun sigma '(it, index) =>
       box_sigma npoints ncols residuals sigma it index)
    (combine (seq 0 (List.length indices)) indices)
    (map (fun _ => zero) indices).

(** The row of [rms] of one order.  [rms] is [np.zeros_like(spectrum)]:
    its rows have the width of the rows of the spectrum, and the
    subtraction and the assignment to the row raise on rows of other
    widths. *)
Definition noise_order (npoints ncols : Z)
    (spectrum_ord model_ord : list float) : option (list float) :=
  residuals <- Np.broadcast2 Float.sub spectrum_ord model_ord ;;
  indices <- arange_step ncols npoints ;;
  let sigma := box_sigmas npoints ncols residuals indices in
  let good := map Float.isfinite sigma in
  row <-
    (if Np.count good >? 2 then
       rms_spline <- iuv_spline (Np.bool_index (map of_Z indices) good)
                       (Np.bool_index sigma good) (Some 1) (Some 3) ;;
       Some (rms_spline (Np.arange (Z.to_nat ncols)))
     else
       Some (Np.full (Z.to_nat ncols) NaN)) ;;
  Np.assign_row (List.length spectrum_ord) row.

Fixpoint noise_orders (npoints ncols : Z)
    (spectrum model : list (list float)) : option (list (list float)) :=
  match spectrum, model with
  | [], _ => Some []
  | _ :: _, [] => None
  | spectrum_ord :: spectrum', model_ord :: model' =>
      row <- noise_order npoints ncols spectrum_ord model_ord ;;
      rows <- noise_orders npoints ncols spectrum' model' ;;
      Some (row :: rows)
  end.

(** [estimate_noise_model]; [spectrum] and [model] are arrays of one shape
    (the caller builds [model] with [np.zeros_like(sci_data)]). *)
Definition estimate_noise_model (spectrum model : list (list float))
    (npoints : Z) : option (list (list float)) :=
  noise_orders npoints (shape1 model) spectrum model.

(** ** bouchy_equation_line *)

Definition bouchy_equation_line (vector diff_vector : list float)
    (mean_rms : float) : float * float :=
  let rms_pix := map (fun v => (mean_rms / v)%float) vector in
  let rms_value :=
    (one / sqrt (Np.sum (map (fun p => one / Float.sqr p) rms_pix)))%float in
  let value :=
    (nansum (Np.map2 Float.mul diff_vector vector)
     / nansum (map Float.sqr vector))%float in
  (value, rms_value).

(** ** compute_rv *)

(** [rough_ccf_rv(inst, wavegrid, sci_data, wave_mask, weight_line)]: the
    coarse estimate of the systemic velocity and of the CCF e-width.  It
    ends in [scipy.optimize.curve_fit] and enters [compute_rv] as a
    function. *)
Variable rough_ccf_rv :
  list (list float) -> list (list float) -> list float -> list float
  -> float * float.

(** The entries of [inst.params] that [compute_rv] reads. *)
Record Params : Type := {
  USE_NOISE_MODEL : bool;
  HP_WIDTH : float;
  OBJECT_SCIENCE : string;
  COMPUTE_RV_N_ITERATIONS : nat;
  COMPUTE_LINE_MIN_PIX_WIDTH : Z;
  COMPUTE_LINE_NSIG_THRES : float;
  COMPUTE_RV_BULK_ERROR_CONVERGENCE : float;
  COMPUTE_RV_MAX_N_GOOD_ITERS : Z
}.

(** The dictionary of template splines. *)
Record Splines : Type := {
  spline0 : Spline;
  spline : Spline;
  dspline : Spline;
  ddspline : Spline;
  dddspline : Spline;
  spline_mask : Spline
}.

(** *** The high-pass of the science data (before the iteration loop) *)

Fixpoint highpass_orders (hp_width : float)
    (sci_data wavegrid : list (list float)) : option (list (list float)) :=
  match sci_data, wavegrid with
  | [], _ => Some []
  | _ :: _, [] => None
  | sci_ord :: sci_data', wave_ord :: wavegrid' =>
      width <- get_velo_scale wave_ord hp_width ;;
      rest <- highpass_orders hp_width sci_data' wavegrid' ;;
      Some (Np.map2 Float.sub sci_ord (lowpassfilter wave_ord width) :: rest)
  end.

(** *** The first estimate of the systemic velocity *)

(** [np.argmin]: the first index of the minimum; a NaN counts as the
    minimum; an empty array raises. *)
Definition improves (x best : float) : bool :=
  negb (Float.isnan best) && (Float.isnan x || (x <? best)%float).

Fixpoint argmin_from (a : list float) (i best_i : nat) (best : float)
  : nat :=
  match a with
  | [] => best_i
  | x :: a' =>
      if improves x best then argmin_from a' (S i) i x
      else argmin_from a' (S i) best_i best
  end.

Definition argmin (a : list float) : option Z :=
  match a with
  | [] => None
  | x :: a' => Some (Z.of_nat (argmin_from a' 1 0 x))
  end.

Definition initial_velocity (params : Params) (reset_rv : bool)
    (ccf_ewidth : option float) (wavegrid sci_data : list (list float))
    (ref_table : RefDict) (mjdate : float)
    (systemic_all mjdate_all : list float) : option (float * option float) :=
  if reset_rv then
    if negb (Py.contains "FP" (OBJECT_SCIENCE params)) then
      let '(sys_rv, ewidth) :=
        rough_ccf_rv wavegrid sci_data (WAVE_START ref_table)
          (WEIGHT_LINE ref_table) in
      Some (sys_rv,
            match ccf_ewidth with
            | None => Some ewidth
            | Some _ => ccf_ewidth
            end)
    else Some (zero, Some zero)
  else
    closest <- argmin (map (fun m => (mjdate - m)%float) mjdate_all) ;;
    sys_rv <- Py.get_item systemic_all closest ;;
    Some (sys_rv, ccf_ewidth).

(** *** The models of one iteration *)

Record Models : Type := {
  model : list (list float);
  dmodel : list (list float);
  ddmodel : list (list float);
  dddmodel : list (list float)
}.

Definition scaled (a blaze_ord : list float) (amp : float) : list float :=
  map (fun x => (x * amp)%float) (Np.map2 Float.mul a blaze_ord).

(** The four rows of one order.  ([model0] is written in the first
    iteration and never read; it is left out.) *)
Definition model_order (splines : Splines) (sys_rv : float)
    (wave_row blaze_ord sci_ord : list float)
  : list float * list float * list float * list float :=
  let wave_ord := doppler_shift wave_row (Float.opp sys_rv) in
  let model_mask := map (fun _ => one) sci_ord in
  let smask :=
    map (fun m => (m <? literal_0_99)%float)
      (spline_mask splines wave_ord) in
  let model_mask :=
    Np.map2 (fun m (s : bool) => if s then NaN else m) model_mask smask in
  let model_ord :=
    Np.map2 Float.mul (Np.map2 Float.mul (spline splines wave_ord) blaze_ord)
      model_mask in
  let amp := get_scaling_ratio sci_ord model_ord in
  let model_ord := map (fun m => (m * amp)%float) model_ord in
  (model_ord,
   scaled (dspline splines wave_ord) blaze_ord amp,
   scaled (ddspline splines wave_ord) blaze_ord amp,
   scaled (dddspline splines wave_ord) blaze_ord amp).

Fixpoint update_models (splines : Splines) (sys_rv : float)
    (sci_data wavegrid blaze : list (list float)) : option Models :=
  match sci_data, wavegrid, blaze with
  | [], _, _ =>
      Some {| model := []; dmodel := []; ddmodel := []; dddmodel := [] |}
  | sci_ord :: sci_data', wave_row :: wavegrid', blaze_ord :: blaze' =>
      let '(m, d, dd, ddd) :=
        model_order splines sys_rv wave_row blaze_ord sci_ord in
      rest <- update_models splines sys_rv sci_data' wavegrid' blaze' ;;
      Some {| model := m :: model rest; dmodel := d :: dmodel rest;
              ddmodel := dd :: ddmodel rest;
              dddmodel := ddd :: dddmodel rest |}
  | _, _, _ => None
  end.

(** [wave2pixlist]: one spline from shifted wavelength to pixel per
    order. *)
Fixpoint wave2pix_splines (nwavegrid : list (list float))
    (xpix : list float) : option (list Spline) :=
  match nwavegrid with
  | [] => Some []
  | nwave_ord :: rest =>
      wave2pix <- iuv_spline nwave_ord xpix None None ;;
      others <- wave2pix_splines rest xpix ;;
      Some (wave2pix :: others)
  end.

(** *** The loop over the lines *)

(** What the loop over the lines reads and writes: the keep mask, the
    shifted wave grid (its rows are handed out as views and written
    through), the per-line shifts and their errors, and the reference
    table.  [fit_log] is not a variable of the source: it records, for the
    statements below, each (iteration, line) that reached the Bouchy
    fit. *)
Record LineState : Type := {
  mask_keep : list bool;
  nwavegrid : list (list float);
  dv : list float;
  dvrms : list float;
  ddv : list float;
  ddvrms : list float;
  dddv : list float;
  dddvrms : list float;
  ref_table : RefDict;
  fit_log : list (nat * nat)
}.

Definition with_mask_keep (st : LineState) (mk : list bool) : LineState :=
  {| mask_keep := mk; nwavegrid := nwavegrid st;
     dv := dv st; dvrms := dvrms st; ddv := ddv st; ddvrms := ddvrms st;
     dddv := dddv st; dddvrms := dddvrms st;
     ref_table := ref_table st; fit_log := fit_log st |}.

Definition with_nwavegrid (st : LineState) (g : list (list float))
  : LineState :=
  {| mask_keep := mask_keep st; nwavegrid := g;
     dv := dv st; dvrms := dvrms st; ddv := ddv st; ddvrms := ddvrms st;
     dddv := dddv st; dddvrms := dddvrms st;
     ref_table := ref_table st; fit_log := fit_log st |}.

Definition with_diagnostics (rt : RefDict)
    (meanxpix meanblaze rmsratio chi2 : list float) (npixline : list Z)
  : RefDict :=
  {| ORDER := ORDER rt; WAVE_START := WAVE_START rt;
     WAVE_END := WAVE_END rt; WEIGHT_LINE := WEIGHT_LINE rt;
     XPIX := XPIX rt; RMSRATIO := rmsratio; NPIXLINE := npixline;
     MEANXPIX := meanxpix; MEANBLAZE := meanblaze;
     AMP_CONTINUUM := AMP_CONTINUUM rt; CHI2 := chi2;
     CHI2_VALID_CDF := CHI2_VALID_CDF rt |}.

(** [np.ones(n)]; a negative size raises. *)
Definition ones (n : Z) : option (list float) :=
  if n <? 0 then None else Some (List.repeat one (Z.to_nat n)).

(** The weights at the edge of the domain of a line.  Returns the weight
    mask and the row of the wave grid, which the block writes to: in
    [wavediff = ww_ord[x_start + 1] = ww_ord[x_start]] both targets
    receive [ww_ord[x_start]]. *)
Definition edge_weights (ww_ord : list float) (wave_start wave_end : float)
    (x_start x_end : Z) : option (list float * list float) :=
  weight_mask <- ones (x_end - x_start + 1) ;;
  w_first <- Py.get_item ww_ord x_start ;;
  '(weight_mask, ww_ord) <-
    (if (w_first <? wave_start)%float then
       w_next <- Py.get_item ww_ord (x_start + 1) ;;
       let refdiff := (w_next - wave_start)%float in
       let wavediff := w_first in
       ww_ord <- Py.set_item ww_ord (x_start + 1) w_first ;;
       weight_mask <- Py.set_item weight_mask 0 (refdiff / wavediff)%float ;;
       Some (weight_mask, ww_ord)
     else Some (weight_mask, ww_ord)) ;;
  w_after <- Py.get_item ww_ord (x_end + 1) ;;
  if (w_after >? wave_end)%float then
    w_last <- Py.get_item ww_ord x_end ;;
    let refdiff := (w_last - wave_end)%float in
    let wavediff := (w_after - w_last)%float in
    weight_mask <-
      Py.set_item weight_mask 0 (one - refdiff / wavediff)%float ;;
    Some (weight_mask, ww_ord)
  else Some (weight_mask, ww_ord).

(** The test at the head of the loop body,
    [(iteration != 1) and not (mask_keep[line_it])]: the line is
    skipped. *)
Definition skip_flagged (iteration : nat) (mask_keep : list bool)
    (line_it : nat) : option bool :=
  if negb (iteration =? 1)%nat then
    keep <- nth_error mask_keep line_it ;;
    Some (negb keep)
  else Some false.

(** The rows of one order that the body of the loop reads. *)
Record OrderRows : Type := {
  sci_ord : list float;
  rms_ord : list float;
  model_ord : list float;
  dmodel_ord : list float;
  ddmodel_ord : list float;
  dddmodel_ord : list float;
  blaze_ord : list float
}.

Definition order_rows (sci_data : list (list float)) (models : Models)
    (rms blaze : list (list float)) (order_num : Z) : option OrderRows :=
  s <- Py.get_item sci_data order_num ;;
  r <- Py.get_item rms order_num ;;
  m <- Py.get_item (model models) order_num ;;
  d <- Py.get_item (dmodel models) order_num ;;
  dd <- Py.get_item (ddmodel models) order_num ;;
  ddd <- Py.get_item (dddmodel models) order_num ;;
  b <- Py.get_item blaze order_num ;;
  Some {| sci_ord := s; rms_ord := r; model_ord := m; dmodel_ord := d;
          ddmodel_ord := dd; dddmodel_ord := ddd; blaze_ord := b |}.

(** The fit of one line whose pixel window [x_start .. x_end] passed the
    boundary conditions. *)
Definition fit_window (iteration line_it : nat) (order_num : Z)
    (ww_ord : list float) (rows : OrderRows) (wave_start wave_end : float)
    (x_start x_end : Z) (st : LineState) : option LineState :=
  let line := Z.of_nat line_it in
  '(weight_mask, ww_ord) <-
    edge_weights ww_ord wave_start wave_end x_start x_end ;;
  nwavegrid' <- Py.set_item (nwavegrid st) order_num ww_ord ;;
  let xpix :=
    map (fun i => of_Z (x_start + Z.of_nat i))
      (seq 0 (List.length weight_mask)) in
  let mean_xpix :=
    (nansum (Np.map2 Float.mul weight_mask xpix) / nansum weight_mask)%float
  in
  mean_blaze <- Py.get_item (blaze_ord rows) ((x_start + x_end) / 2) ;;
  let rt := ref_table st in
  meanxpix <- Py.set_item (MEANXPIX rt) line mean_xpix ;;
  meanblaze <- Py.set_item (MEANBLAZE rt) line mean_blaze ;;
  let segment (a : list float) := Py.slice a x_start (x_end + 1) in
  let d_seg := Np.map2 Float.mul (segment (dmodel_ord rows)) weight_mask in
  let dd_seg := Np.map2 Float.mul (segment (ddmodel_ord rows)) weight_mask in
  let ddd_seg :=
    Np.map2 Float.mul (segment (dddmodel_ord rows)) weight_mask in
  let sci_seg := segment (sci_ord rows) in
  let model_seg := segment (model_ord rows) in
  let diff_seg :=
    Np.map2 Float.mul (Np.map2 Float.sub sci_seg model_seg) weight_mask in
  let sum_weight_mask := nansum weight_mask in
  let sum_rms :=
    nansum (Np.map2 Float.mul (segment (rms_ord rows)) weight_mask) in
  let mean_rms := (sum_rms / sum_weight_mask)%float in
  let bout := bouchy_equation_line d_seg diff_seg mean_rms in
  dv' <- Py.set_item (dv st) line (fst bout) ;;
  dvrms' <- Py.set_item (dvrms st) line (snd bout) ;;
  let bout := bouchy_equation_line dd_seg diff_seg mean_rms in
  ddv' <- Py.set_item (ddv st) line (fst bout) ;;
  ddvrms' <- Py.set_item (ddvrms st) line (snd bout) ;;
  let bout := bouchy_equation_line ddd_seg diff_seg mean_rms in
  ddv' <- Py.set_item ddv' line (fst bout) ;;
  ddvrms' <- Py.set_item ddvrms' line (snd bout) ;;
  rmsratio <-
    Py.set_item (RMSRATIO rt) line (nanstd diff_seg / mean_rms)%float ;;
  npixline <-
    Py.set_item (NPIXLINE rt) line (Z.of_nat (List.length diff_seg)) ;;
  chi2 <-
    Py.set_item (CHI2 rt) line
      (nansum (map (fun d => Float.sqr (d / mean_rms)) diff_seg)) ;;
  Some {| mask_keep := mask_keep st; nwavegrid := nwavegrid';
          dv := dv'; dvrms := dvrms'; ddv := ddv'; ddvrms := ddvrms';
          dddv := dddv st; dddvrms := dddvrms st;
          ref_table := with_diagnostics rt meanxpix meanblaze rmsratio chi2
                         npixline;
          fit_log := fit_log st ++ [(iteration, line_it)] |}.

(** The body of the loop over the lines. *)
Definition fit_line (params : Params) (iteration : nat)
    (sci_data : list (list float)) (models : Models)
    (rms blaze : list (list float)) (wave2pixlist : list Spline)
    (st : LineState) (line_it : nat) : option LineState :=
  let min_line_width := COMPUTE_LINE_MIN_PIX_WIDTH params in
  order_num <- nth_error (ORDER (ref_table st)) line_it ;;
  skip <- skip_flagged iteration (mask_keep st) line_it ;;
  if skip then Some st
  else
    ww_ord <- Py.get_item (nwavegrid st) order_num ;;
    wave2pix <- Py.get_item wave2pixlist order_num ;;
    rows <- order_rows sci_data models rms blaze order_num ;;
    wave_start <- nth_error (WAVE_START (ref_table st)) line_it ;;
    wave_end <- nth_error (WAVE_END (ref_table st)) line_it ;;
    match wave2pix [wave_start; wave_end] with
    | [x_start; x_end] =>
        x_start <- Float.to_int (Float.floor x_start) ;;
        x_end <- Float.to_int (Float.ceil x_end) ;;
        st <- (if x_end - x_start <? min_line_width then
                 mk <- Py.set_item (mask_keep st) (Z.of_nat line_it) false ;;
                 Some (with_mask_keep st mk)
               else Some st) ;;
        if x_start <? 0 then Some st
        else if x_end >? Z.of_nat (List.length ww_ord) - 2 then Some st
        else
          fit_window iteration line_it order_num ww_ord rows wave_start
            wave_end x_start x_end st
    | _ => None
    end.

Fixpoint line_loop (params : Params) (iteration : nat)
    (sci_data : list (list float)) (models : Models)
    (rms blaze : list (list float)) (wave2pixlist : list Spline)
    (lines : list nat) (st : LineState) : option LineState :=
  match lines with
  | [] => Some st
  | line_it :: rest =>
      st' <- fit_line params iteration sci_data models rms blaze
               wave2pixlist st line_it ;;
      line_loop params iteration sci_data models rms blaze wave2pixlist
        rest st'
  end.

(** *** The velocity update *)

(** From the shifts of the lines to the update of the velocity: the
    ratio of measured to predicted scatter [stddev_nsig], the robust mean
    [rv_mean] and its [bulk_error], the final velocities per line and the
    new systemic velocity. *)
Definition velocity_update (params : Params) (dv dvrms : list float)
    (sys_rv berv : float)
  : float * float * float * list float * float :=
  let nsig_threshold := COMPUTE_LINE_NSIG_THRES params in
  let nsig := Np.map2 Float.div dv dvrms in
  let nsig := filter Float.isfinite nsig in
  let nsig :=
    filter (fun n => (Float.abs n <? nsig_threshold)%float) nsig in
  let stddev_nsig := estimate_sigma nsig in
  let '(rv_mean, bulk_error) := odd_ratio_mean dv dvrms in
  let rv_final := map (fun d => (d + sys_rv - berv)%float) dv in
  let sys_rv := (sys_rv + rv_mean)%float in
  (stddev_nsig, rv_mean, bulk_error, rv_final, sys_rv).

(** *** The iteration loop *)

Record IterState : Type := {
  sys_rv : float;
  num_to_converge : Z;
  lines : LineState;
  rv_final : list float;
  stddev_nsig : float;
  rv_mean : float;
  bulk_error : float
}.

(** The convergence check at the end of an iteration. *)
Definition converged (params : Params) (st : IterState) : bool :=
  (Float.abs (rv_mean st)
   <? COMPUTE_RV_BULK_ERROR_CONVERGENCE params * bulk_error st)%float.

Definition iteration_body (params : Params) (splines : Splines)
    (sci_data wavegrid blaze : list (list float)) (berv : float)
    (iteration : nat) (st : IterState) : option IterState :=
  let num := num_to_converge st + 1 in
  models <- update_models splines (sys_rv st) sci_data wavegrid blaze ;;
  rms <- (if negb (USE_NOISE_MODEL params) then
            estimate_noise_model sci_data (model models) 100
          else Some (map (map (fun _ => zero)) sci_data)) ;;
  let shifted :=
    map (fun w => doppler_shift w (Float.opp (sys_rv st))) wavegrid in
  let xpix := Np.arange (Z.to_nat (shape1 (model models))) in
  wave2pixlist <- wave2pix_splines shifted xpix ;;
  let orders := ORDER (ref_table (lines st)) in
  ls <- line_loop params iteration sci_data models rms blaze wave2pixlist
          (seq 0 (List.length orders)) (with_nwavegrid (lines st) shifted) ;;
  let '(sd, mean, err, final, new_rv) :=
    velocity_update params (dv ls) (dvrms ls) (sys_rv st) berv in
  Some {| sys_rv := new_rv; num_to_converge := num; lines := ls;
          rv_final := final; stddev_nsig := sd; rv_mean := mean;
          bulk_error := err |}.

(** [for iteration in range(compute_rv_n_iters)], with its [break]. *)
Fixpoint iterate (params : Params) (splines : Splines)
    (sci_data wavegrid blaze : list (list float)) (berv : float)
    (iterations : list nat) (st : IterState) : option IterState :=
  match iterations with
  | [] => Some st
  | iteration :: rest =>
      st' <- iteration_body params splines sci_data wavegrid blaze berv
               iteration st ;;
      if converged params st' then Some st'
      else iterate params splines sci_data wavegrid blaze berv rest st'
  end.

(** *** The outputs *)

(** The reference table as [compute_rv] returns it: the table it was
    given and the columns it adds. *)
Record RefTable : Type := {
  columns : RefDict;
  RV : list float;
  DVRMS : list float;
  DDV : list float;
  DDVRMS : list float;
  DDDV : list float;
  DDDVRMS : list float
}.

(** The output dictionary (the total duration left out). *)
Record Outputs : Type := {
  SYSTEMIC_ALL : list float;
  MJDATE_ALL : list float;
  RESET_RV : bool;
  NUM_ITERATIONS : Z;
  SYSTEMIC_VELOCITY : float;
  OUT_RMSRATIO : float;
  CCF_EW : option float;
  OUT_HP_WIDTH : float
}.

Definition with_chi2_valid_cdf (rt : RefDict) (cdf : list float) : RefDict :=
  {| ORDER := ORDER rt; WAVE_START := WAVE_START rt;
     WAVE_END := WAVE_END rt; WEIGHT_LINE := WEIGHT_LINE rt;
     XPIX := XPIX rt; RMSRATIO := RMSRATIO rt; NPIXLINE := NPIXLINE rt;
     MEANXPIX := MEANXPIX rt; MEANBLAZE := MEANBLAZE rt;
     AMP_CONTINUUM := AMP_CONTINUUM rt; CHI2 := CHI2 rt;
     CHI2_VALID_CDF := cdf |}.

(** The flag that makes the next exposure take a new CCF measurement. *)
Definition needs_reset (params : Params) (num_to_converge : Z) : bool :=
  num_to_converge >=? COMPUTE_RV_MAX_N_GOOD_ITERS params.

(** The first part of [compute_rv], up to the end of the iteration
    loop: the state the loop leaves, the CCF e-width and the high-pass
    width.  [mjdate] and [berv] are what the header gives (mid exposure
    time, barycentric correction), [wavegrid] is the wave solution of the
    instrument for this exposure. *)
Definition fit_exposure (params : Params) (sci_data : list (list float))
    (mjdate berv : float) (wavegrid : list (list float))
    (splines : Splines) (ref_table0 : RefDict) (blaze : list (list float))
    (systemic_all mjdate_all : list float) (ccf_ewidth : option float)
    (reset_rv : bool) : option (IterState * option float * float) :=
  let hp_width := (HP_WIDTH params * of_Z 1000)%float in
  sci_data <- highpass_orders hp_width sci_data wavegrid ;;
  '(first_rv, ccf_ewidth) <-
    initial_velocity params reset_rv ccf_ewidth wavegrid sci_data ref_table0
      mjdate systemic_all mjdate_all ;;
  let nan_lines := Np.full (List.length (WAVE_START ref_table0)) NaN in
  let st0 :=
    {| sys_rv := first_rv; num_to_converge := 0;
       lines :=
         {| mask_keep := map (fun _ => true) (ORDER ref_table0);
            nwavegrid := [];
            dv := nan_lines; dvrms := nan_lines; ddv := nan_lines;
            ddvrms := nan_lines; dddv := nan_lines; dddvrms := nan_lines;
            ref_table := ref_table0; fit_log := [] |};
       rv_final := nan_lines; stddev_nsig := NaN;
       rv_mean := NaN; bulk_error := NaN |} in
  st <- iterate params splines sci_data wavegrid blaze berv
          (seq 0 (COMPUTE_RV_N_ITERATIONS params)) st0 ;;
  Some (st, ccf_ewidth, hp_width).

(** [compute_rv]: the reference table and the output dictionary. *)
Definition compute_rv (params : Params) (sci_iteration : Z)
    (sci_data : list (list float)) (mjdate berv : float)
    (wavegrid : list (list float)) (splines : Splines)
    (ref_table0 : RefDict) (blaze : list (list float))
    (systemic_all mjdate_all : list float) (ccf_ewidth : option float)
    (reset_rv : bool) : option (RefTable * Outputs) :=
  '(st, ccf_ewidth, hp_width) <-
    fit_exposure params sci_data mjdate berv wavegrid splines ref_table0
      blaze systemic_all mjdate_all ccf_ewidth reset_rv ;;
  let ls := lines st in
  let rt := ref_table ls in
  let chi2_valid :=
    Np.map2 (fun c n => (one - chi2_cdf c n)%float) (CHI2 rt) (NPIXLINE rt)
  in
  systemic_all <-
    Py.set_item systemic_all sci_iteration (sys_rv st - berv)%float ;;
  mjdate_all <- Py.set_item mjdate_all sci_iteration mjdate ;;
  Some ({| columns := with_chi2_valid_cdf rt chi2_valid;
           RV := map Float.opp (rv_final st);
           DVRMS := dvrms ls;
           DDV := ddv ls;
           DDVRMS := ddvrms ls;
           DDDV := dddv ls;
           DDDVRMS := dddvrms ls |},
        {| SYSTEMIC_ALL := systemic_all;
           MJDATE_ALL := mjdate_all;
           RESET_RV := needs_reset params (num_to_converge st);
           NUM_ITERATIONS := num_to_converge st;
           SYSTEMIC_VELOCITY := sys_rv st;
           OUT_RMSRATIO := stddev_nsig st;
           CCF_EW := ccf_ewidth;
           OUT_HP_WIDTH := hp_width |}).

End Engine.

(* ================================================================== *)
(** * The statements of the design document, in its own words *)
(* ================================================================== *)

(** A reference line as the document describes it: order, wavelength
    start and end, weight. *)
Definition ReferenceLine : Type := (Z * float * float * float)%type.

(** A mask entry (centre, weight) that falls strictly inside the range of
    an order. *)
Definition strictly_inside (min_wave max_wave : float)
    (entry : float * float) : bool :=
  Float.gtb (fst entry) min_wave && Float.ltb (fst entry) max_wave.

Definition surviving (mask_table : MaskTable) (wave_ord : list float)
  : list (float * float) :=
  match Np.min wave_ord, Np.max wave_ord with
  | Some min_wave, Some max_wave =>
      filter (strictly_inside min_wave max_wave)
        (combine (ll_mask_s mask_table) (w_mask mask_table))
  | _, _ => []
  end.

(** One line per pair of consecutive surviving entries, with the weight
    of the first entry of the pair. *)
Fixpoint consecutive_pairs (order_num : Z) (entries : list (float * float))
  : list ReferenceLine :=
  match entries with
  | (c1, w1) :: (((c2, _) :: _) as rest) =>
      (order_num, c1, c2, w1) :: consecutive_pairs order_num rest
  | _ => []
  end.

(** The lines of every order of a wave grid, from order [order_num] on. *)
Fixpoint lines_from (mask_table : MaskTable) (order_num : Z)
    (wavegrid : list (list float)) : list ReferenceLine :=
  match wavegrid with
  | [] => []
  | wave_ord :: rest =>
      consecutive_pairs order_num (surviving mask_table wave_ord)
      ++ lines_from mask_table (order_num + 1) rest
  end.

(** The lines that four columns of a table hold. *)
Fixpoint zip_lines (orders : list Z) (starts ends weights : list float)
  : list ReferenceLine :=
  match orders, starts, ends, weights with
  | o :: orders', s :: starts', e :: ends', w :: weights' =>
      (o, s, e, w) :: zip_lines orders' starts' ends' weights'
  | _, _, _, _ => []
  end.

Definition table_lines (rd : RefDict) : list ReferenceLine :=
  zip_lines (ORDER rd) (WAVE_START rd) (WAVE_END rd) (WEIGHT_LINE rd).

(** The sigma of the box centred on [index], a zero counting as
    missing. *)
Definition window_sigma (estimate_sigma : list float -> float)
    (npoints ncols : Z) (residuals : list float) (index : Z) : float :=
  let s :=
    estimate_sigma
      (Py.slice residuals (Z.max 0 (index - npoints))
         (Z.min ncols (index + npoints))) in
  if Float.eqb s zero then NaN else s.

(** The number of boxes of an order with a valid sigma. *)
Definition valid_windows (estimate_sigma : list float -> float)
    (npoints ncols : Z) (spectrum_ord model_ord : list float) : Z :=
  match arange_step ncols npoints with
  | Some indices =>
      Np.count
        (map (fun index =>
                Float.isfinite
                  (window_sigma estimate_sigma npoints ncols
                     (Np.map2 Float.sub spectrum_ord model_ord) index))
           indices)
  | None => 0
  end.


(** The four vectors of one accumulator have one length. *)
Definition aligned (v : RefVectors) : Prop :=
  List.length (v_wave_start v) = List.length (v_order v)
  /\ List.length (v_wave_end v) = List.length (v_order v)
  /\ List.length (v_weight_line v) = List.length (v_order v).

Definition vector_lines (v : RefVectors) : list ReferenceLine :=
  zip_lines (v_order v) (v_wave_start v) (v_wave_end v) (v_weight_line v).


(** A sigma, a zero counting as missing. *)
Definition nan_if_zero (s : float) : float :=
  if Float.eqb s zero then NaN else s.

(** The lines that enter the aggregate of the document: those whose
    ratio of shift to uncertainty is finite and below the threshold. *)
Definition passes (threshold : float) (line : float * float) : bool :=
  Float.isfinite (fst line / snd line)
  && (Float.abs (fst line / snd line) <? threshold)%float.

Definition passing_lines (threshold : float) (dv dvrms : list float)
  : list (float * float) :=
  filter (passes threshold) (combine dv dvrms).

(** The edge weights as the document describes them: one inside, the
    overlap fraction of the first pixel in the first entry and of the last
    pixel in the last entry; the wave grid is only read. *)
Definition overlap_weights (ww_ord : list float)
    (wave_start wave_end : float) (x_start x_end : Z)
  : option (list float) :=
  weight_mask <- ones (x_end - x_start + 1) ;;
  w_first <- Py.get_item ww_ord x_start ;;
  w_next <- Py.get_item ww_ord (x_start + 1) ;;
  w_last <- Py.get_item ww_ord x_end ;;
  w_after <- Py.get_item ww_ord (x_end + 1) ;;
  weight_mask <-
    (if (w_first <? wave_start)%float then
       Py.set_item weight_mask 0
         ((w_next - wave_start) / (w_next - w_first))%float
     else Some weight_mask) ;;
  if (w_after >? wave_end)%float then
    Py.set_item weight_mask (-1)
      (one - (w_last - wave_end) / (w_after - w_last))%float
  else Some weight_mask.

(** The velocity update in what [velocity_update] returns. *)
Definition rv_mean_of (u : float * float * float * list float * float)
  : float :=
  let '(_, mean, _, _, _) := u in mean.

(** The rows of an order with another second derivative of the model. *)
Definition with_second (rows : OrderRows) (dd : list float) : OrderRows :=
  {| sci_ord := sci_ord rows; rms_ord := rms_ord rows;
     model_ord := model_ord rows; dmodel_ord := dmodel_ord rows;
     ddmodel_ord := dd; dddmodel_ord := dddmodel_ord rows;
     blaze_ord := blaze_ord rows |}.

(* ================================================================== *)
(** * Collaborators to run the engine with *)
(* ================================================================== *)

(** The functions of [lbl.core.math] are not among the sources.  To run
    the engine on data, each of them is given here in the form the design
    document describes; the general statements below hold for every
    choice of them. *)
Module Collab.

(** [np.sqrt], to six decimals. *)
Definition sqrt (x : float) : float :=
  match x with
  | Fin q =>
      if Qle_bool 0 q then
        Fin (Qred (Z.sqrt (Qnum q * 10 ^ 12 / Zpos (Qden q)) # 1000000))
      else NaN
  | Inf false => Inf false
  | _ => NaN
  end.

Definition not_nan (a : list float) : list float :=
  filter (fun x => negb (Float.isnan x)) a.

Fixpoint insert (x : float) (sorted : list float) : list float :=
  match sorted with
  | [] => [x]
  | y :: rest =>
      if Float.ltb y x then y :: insert x rest else x :: sorted
  end.

Definition sort (a : list float) : list float := fold_right insert [] a.

(** Modelled from the spec: [mp.nanmedian] is missing from the sources;
    the median of the values that are not NaN. *)
Definition nanmedian (a : list float) : float :=
  let s := sort (not_nan a) in
  let n := List.length s in
  if (n =? 0)%nat then NaN
  else if Nat.odd n then nth (n / 2) s NaN
  else ((nth (n / 2 - 1) s NaN + nth (n / 2) s NaN) / of_Z 2)%float.

Definition nanmean (a : list float) : float :=
  let s := not_nan a in
  (Np.sum s / of_Z (Z.of_nat (List.length s)))%float.

(** Modelled from the spec: [mp.nanstd] is missing from the sources; the
    standard deviation of the values that are not NaN. *)
Definition nanstd (a : list float) : float :=
  let m := nanmean a in
  sqrt (nanmean (map (fun x => Float.sqr (x - m)) a)).

(** Modelled from the spec: [mp.estimate_sigma] is missing from the
    sources; the document asks for a robust sigma and names the median
    absolute deviation, scaled here to the sigma of a normal law. *)
Definition estimate_sigma (a : list float) : float :=
  let m := nanmedian a in
  (nanmedian (map (fun x => Float.abs (x - m)) a) * Fin (14826 # 10000))%float.

(** Modelled from the spec: [mp.odd_ratio_mean] is missing from the
    sources; the document asks for a robust (outlier-resistant, weighted)
    mean of the shifts with its bulk uncertainty.  Of the lines whose
    shift and error are both finite, those further than five times their
    error from the median of the shifts are set aside as outliers; the
    mean of the others, weighted by the inverse variances, is returned
    with its error. *)
Definition odd_ratio_mean (value error : list float) : float * float :=
  let keep :=
    Np.map2 andb (map Float.isfinite value) (map Float.isfinite error) in
  if Np.count keep =? 0 then (NaN, NaN)
  else
    let value := Np.bool_index value keep in
    let error := Np.bool_index error keep in
    let guess := nanmedian value in
    let near :=
      Np.map2 (fun v e => (Float.abs (v - guess) <? of_Z 5 * e)%float)
        value error in
    let value := Np.bool_index value near in
    let error := Np.bool_index error near in
    let w := map (fun e => (one / Float.sqr e)%float) error in
    ((nansum (Np.map2 Float.mul value w) / nansum w)%float,
     sqrt (one / nansum w)%float).

(** Modelled from the spec: [mp.doppler_shift] is missing from the
    sources; the document gives [wave * (1 + v / c)]. *)
Definition doppler_shift (wave : list float) (velocity : float) : list float :=
  map (fun w => (w * (one + velocity / speed_of_light_ms))%float) wave.

(** Modelled from the spec: [mp.lowpassfilter] is missing from the
    sources; a boxcar of the given pixel width (the mean over the window
    centred on each pixel, clipped at both ends). *)
Definition lowpassfilter (vector : list float) (width : Z) : list float :=
  map (fun i =>
         let centre := Z.of_nat i in
         nanmean (Py.slice vector (Z.max 0 (centre - width / 2))
                    (centre + width / 2 + 1)))
    (seq 0 (List.length vector)).

(** The piecewise linear function through a list of points, continued
    along its first and last segments. *)
Fixpoint interpolate (points : list (float * float)) (q : float) : float :=
  match points with
  | (x0, y0) :: (((x1, y1) :: rest) as tail) =>
      if (q <? x1)%float || match rest with [] => true | _ => false end
      then (y0 + (q - x0) * ((y1 - y0) / (x1 - x0)))%float
      else interpolate tail q
  | _ => NaN
  end.

Fixpoint increasing (x : list float) : bool :=
  match x with
  | x0 :: ((x1 :: _) as tail) => (x0 <? x1)%float && increasing tail
  | _ => true
  end.

(** Modelled from the spec: [mp.iuv_spline] is missing from the sources;
    an interpolant through the points, here of degree one whatever [k].
    Outside the points [ext] decides: 1 gives zero, 3 the boundary value,
    otherwise the interpolant is continued.  Fewer than two points, or
    abscissae that do not increase, raise. *)
Definition iuv_spline (x y : list float) (k ext : option Z)
  : option Spline :=
  if (2 <=? List.length x)%nat && (List.length x =? List.length y)%nat
     && increasing x
  then
    let first := hd NaN x in
    let last := List.last x NaN in
    Some (map (fun q =>
                 if (q <? first)%float || (last <? q)%float then
                   match ext with
                   | Some 1 => zero
                   | Some 3 =>
                       if (q <? first)%float then hd NaN y
                       else List.last y NaN
                   | _ => interpolate (combine x y) q
                   end
                 else interpolate (combine x y) q))
  else None.

End Collab.

(* ================================================================== *)
(** * One order of ten pixels *)
(* ================================================================== *)

Module Example.

Definition q (n d : Z) : float := Fin (Qred (n # Z.to_pos d)).

(** A wave grid of one order: 5000 to 5009, one unit per pixel. *)
Definition wave_ord : list float :=
  map (fun i => of_Z (5000 + Z.of_nat i)) (seq 0 10).

Definition wavegrid : list (list float) := [wave_ord].

(** A mask of three lines inside the order and one beyond it. *)
Definition mask_table : MaskTable :=
  {| ll_mask_s := [q 500225 100; q 500275 100; q 50075 10; of_Z 6000];
     w_mask := [q 1 2; q 1 4; of_Z 1; of_Z 1] |}.

(** The two lines of the reference table built from the mask: a narrow
    one, from 5002.25 to 5002.75, and a wide one, up to 5007.5. *)
Definition table : RefDict :=
  {| ORDER := [0; 0];
     WAVE_START := [q 500225 100; q 500275 100];
     WAVE_END := [q 500275 100; q 50075 10];
     WEIGHT_LINE := [q 1 2; q 1 4];
     XPIX := [q 225 100; q 275 100];
     RMSRATIO := [zero; zero];
     NPIXLINE := [0; 0];
     MEANXPIX := [zero; zero];
     MEANBLAZE := [zero; zero];
     AMP_CONTINUUM := [zero; zero];
     CHI2 := [zero; zero];
     CHI2_VALID_CDF := [zero; zero] |}.

Definition params : Params :=
  {| USE_NOISE_MODEL := false;
     HP_WIDTH := of_Z 223;
     OBJECT_SCIENCE := "PROXIMA";
     COMPUTE_RV_N_ITERATIONS := 10;
     COMPUTE_LINE_MIN_PIX_WIDTH := 3;
     COMPUTE_LINE_NSIG_THRES := of_Z 8;
     COMPUTE_RV_BULK_ERROR_CONVERGENCE := q 1 10;
     COMPUTE_RV_MAX_N_GOOD_ITERS := 8 |}.

(** The science flux of the order and the arrays of one iteration. *)
Definition flux : list float :=
  map of_Z [10; 12; 11; 13; 12; 9; 11; 14; 12; 10].

Definition models : Models :=
  {| model := [map of_Z [10; 11; 12; 12; 11; 10; 11; 13; 12; 11]];
     dmodel := [map of_Z [1; 1; 2; -1; -1; -2; 1; 2; -1; -1]];
     ddmodel := [map of_Z [0; 1; -3; 0; -1; 3; 1; -3; 0; 1]];
     dddmodel := [map of_Z [1; -4; 3; -1; 4; -2; -4; 3; 1; 0]] |}.

Definition rms : list (list float) := [map (fun _ => one) wave_ord].
Definition blaze : list (list float) := [map (fun _ => one) wave_ord].

(** The state of the lines when the first iteration starts. *)
Definition start : LineState :=
  {| mask_keep := [true; true];
     nwavegrid := wavegrid;
     dv := [NaN; NaN]; dvrms := [NaN; NaN];
     ddv := [NaN; NaN]; ddvrms := [NaN; NaN];
     dddv := [NaN; NaN]; dddvrms := [NaN; NaN];
     ref_table := table;
     fit_log := [] |}.

(** The same arrays with the second derivative of the model set to
    zero, and with the third derivative in the place of the first. *)
Definition without_second : Models :=
  {| model := model models; dmodel := dmodel models;
     ddmodel := [map (fun _ => zero) wave_ord];
     dddmodel := dddmodel models |}.

Definition third_as_first : Models :=
  {| model := model models; dmodel := dddmodel models;
     ddmodel := ddmodel models; dddmodel := dddmodel models |}.

(** The loop over the lines of iteration [iteration] with the arrays
    [m], on a wave grid freshly shifted (here by a zero velocity). *)
Definition lines_of_iteration (m : Models) (iteration : nat)
    (st : LineState) : option LineState :=
  wave2pixlist <-
    wave2pix_splines Collab.iuv_spline wavegrid (Np.arange 10) ;;
  line_loop Collab.sqrt Collab.nanstd params iteration [flux] m rms
    blaze wave2pixlist [0; 1]%nat (with_nwavegrid st wavegrid).

(** Two sets of shifts of three lines that agree with one another, all
    of them far beyond the threshold of 8 sigma. *)
Definition shifts : list float := [of_Z 100; of_Z 100; of_Z 100].
Definition shifts' : list float := [of_Z 200; of_Z 200; of_Z 200].
Definition shift_errors : list float := [of_Z 1; of_Z 1; of_Z 1].

(** The archive of three exposures, the last one not yet filled. *)
Definition mjdate : float := q 590005 10.
Definition mjdate_all : list float := [of_Z 59000; of_Z 59010; zero].
Definition systemic_all : list float := [of_Z 100; of_Z 200; zero].

End Example.

(* ================================================================== *)
(** * bouchy_equation_line in binary64 *)
(* ================================================================== *)

(** The arithmetic of the code itself: IEEE 754 binary64 (53 bits of
    mantissa, exponents up to 1024), every operation rounded to nearest,
    ties to even. *)
Module B64.

Definition float64 : Type := spec_float.

(** The binary64 number nearest to [mantissa * 2 ^ exponent]. *)
Definition of_parts (mantissa exponent : Z) : float64 :=
  binary_normalize 53 1024 mantissa exponent false.

Definition of_Z (z : Z) : float64 := of_parts z 0.

Definition add : float64 -> float64 -> float64 := SFadd 53 1024.
Definition mul : float64 -> float64 -> float64 := SFmul 53 1024.
Definition div : float64 -> float64 -> float64 := SFdiv 53 1024.

Definition isnan (x : float64) : bool :=
  match x with S754_nan => true | _ => false end.


(** Modelled from the spec: [mp.nansum], as [nansum] above: the entries
    that are not NaN, added from left to right.  The order of the
    additions plays no part below, where the sums have one or two terms
    or are sums of integers. *)
Definition nansum (a : list float64) : float64 :=
  fold_left add (filter (fun x => negb (isnan x)) a) (S754_zero false).



End B64.





(** A spectrum and a model of one shape: as many orders, and in every
    order as many pixels as [model.shape[1]]. *)
Definition one_shape (spectrum model : list (list float)) : Prop :=
  Forall2 (fun s m : list float =>
             List.length s = Z.to_nat (shape1 model)
             /\ List.length m = Z.to_nat (shape1 model))
    spectrum model.

(* ================================================================== *)
(** * spline_template and rough_ccf_rv *)
(* ================================================================== *)

(** The points through which [spline_template] draws its six splines:
    the shifted wave grid and, on it, the flux as loaded, the high-passed
    flux, its three derivatives and the mask of valid points. *)
Record TemplatePoints : Type := {
  t_wave : list float;
  t_flux0 : list float;
  t_flux : list float;
  t_dflux : list float;
  t_ddflux : list float;
  t_dddflux : list float;
  t_mask : list float
}.

(** The entries of [inst.params] that [rough_ccf_rv] reads. *)
Record CcfParams : Type := {
  ROUGH_CCF_MIN_RV : float;
  ROUGH_CCF_MAX_RV : float;
  ROUGH_CCF_RV_STEP : float;
  ROUGH_CCF_EWIDTH_GUESS : float
}.

(** [np.arange(start, stop, step)] on floats: [ceil((stop - start) / step)]
    values [start + i * step]; a zero step and bounds that are not finite
    raise. *)
Definition arange_float (start stop step : float) : option (list float) :=
  match start, stop, step with
  | Fin a, Fin b, Fin s =>
      if Qeq_bool s 0 then None
      else
        Some (map (fun i => Fin (Qred (a + inject_Z (Z.of_nat i) * s)))
                (seq 0 (Z.to_nat (Qceiling ((b - a) / s)))))
  | _, _, _ => None
  end.

(** [np.argmax]: the first index of the maximum; a NaN counts as the
    maximum; an empty array raises. *)
Definition exceeds (x best : float) : bool :=
  negb (Float.isnan best) && (Float.isnan x || (best <? x)%float).

Fixpoint argmax_from (a : list float) (i best_i : nat) (best : float)
  : nat :=
  match a with
  | [] => best_i
  | x :: a' =>
      if exceeds x best then argmax_from a' (S i) i x
      else argmax_from a' (S i) best_i best
  end.

Definition argmax (a : list float) : option Z :=
  match a with
  | [] => None
  | x :: a' => Some (Z.of_nat (argmax_from a' 1 0 x))
  end.

(** The first loop over the orders of [rough_ccf_rv]: the mask of order
    [k >= 1] loses the pixels whose wavelength does not exceed that of
    the previous order read backwards ([wavegrid[k - 1, ::-1]]). *)
Fixpoint mask_previous (previous : list float) (rows : list (list float))
    (mask : list (list bool)) : list (list bool) :=
  match rows, mask with
  | row :: rows', m :: mask' =>
      Np.map2 andb m (Np.map2 Float.gtb row (rev previous))
      :: mask_previous row rows' mask'
  | _, _ => mask
  end.

Definition not_in_previous (wavegrid : list (list float))
    (mask : list (list bool)) : list (list bool) :=
  match wavegrid, mask with
  | first :: rows, m :: mask' => m :: mask_previous first rows mask'
  | _, _ => mask
  end.

(** The second loop: the mask of every order but the last loses the
    pixels whose wavelength is not below that of the next order read
    backwards. *)
Fixpoint not_in_next (rows : list (list float)) (mask : list (list bool))
  : list (list bool) :=
  match rows, mask with
  | row :: ((next :: _) as rows'), m :: mask' =>
      Np.map2 andb m (Np.map2 Float.ltb row (rev next))
      :: not_in_next rows' mask'
  | _, _ => mask
  end.

(** The mask of the samples that enter the spline of the science data. *)
Definition ccf_mask (wavegrid sci_data : list (list float))
  : list (list bool) :=
  if (1 <? List.length wavegrid)%nat then
    let mask := map (map (fun _ : float => true)) wavegrid in
    let mask := not_in_previous wavegrid mask in
    let mask := not_in_next wavegrid mask in
    Np.map2 (Np.map2 andb) mask (map (map Float.isfinite) sci_data)
  else map (map Float.isfinite) sci_data.

(** [a[mask]] for a two-dimensional array and a mask of its shape: the
    selected values, row after row. *)
Definition bool_index2 (a : list (list float)) (mask : list (list bool))
  : list float :=
  List.concat (Np.map2 (fun row m => Np.bool_index row m) a mask).

(** [wavegrid2] and [sci_data2]. *)
Definition ccf_samples (wavegrid sci_data : list (list float))
  : list float * list float :=
  let mask := ccf_mask wavegrid sci_data in
  (bool_index2 wavegrid mask, bool_index2 sci_data mask).

Section OtherFunctions.

(** [np.log] *)
Variable log : float -> float.

Variable nanmedian : list float -> float.
Variable doppler_shift : list float -> float -> list float.
Variable lowpassfilter : list float -> Z -> list float.
Variable iuv_spline :
  list float -> list float -> option Z -> option Z -> option Spline.

(** [curve_fit(mp.gauss_fit_s, dvgrid, ccf_vector, p0=guess)], of
    [scipy.optimize]: the fitted coefficients; the fit can fail. *)
Variable curve_fit :
  list float -> list float -> list float -> option (list float).

(** ** spline_template *)

(** [np.gradient(flux) / grad_log_wave / speed_of_light_ms] *)
Definition log_derivative (flux grad_log_wave : list float)
  : option (list float) :=
  g <- gradient flux ;;
  Some (map (fun x => (x / speed_of_light_ms)%float)
          (Np.map2 Float.div g grad_log_wave)).

(** [twave] and [flux] are the columns [wavelength] and [flux] of the
    template table. *)
Definition template_points (hp_width : float) (twave flux : list float)
    (systemic_vel : float) : option TemplatePoints :=
  let tflux0 := flux in
  width <- get_velo_scale nanmedian twave hp_width ;;
  let tflux := Np.map2 Float.sub flux (lowpassfilter flux width) in
  grad_log_wave <- gradient (map log twave) ;;
  dflux <- log_derivative tflux grad_log_wave ;;
  ddflux <- log_derivative dflux grad_log_wave ;;
  dddflux <- log_derivative ddflux grad_log_wave ;;
  let valid :=
    Np.map2 andb (map Float.isfinite tflux) (map Float.isfinite dflux) in
  let valid :=
    Np.map2 andb valid
      (Np.map2 andb (map Float.isfinite ddflux)
         (map Float.isfinite dddflux)) in
  let ntwave :=
    doppler_shift (Np.bool_index twave valid) (Float.opp systemic_vel) in
  let tmask :=
    map (fun x => if Float.isfinite x then one else zero) tflux in
  Some {| t_wave := ntwave;
          t_flux0 := Np.bool_index tflux0 valid;
          t_flux := Np.bool_index tflux valid;
          t_dflux := Np.bool_index dflux valid;
          t_ddflux := Np.bool_index ddflux valid;
          t_dddflux := Np.bool_index dddflux valid;
          t_mask := Np.bool_index tmask valid |}.

Definition spline_template (hp_width_param : float)
    (twave flux : list float) (systemic_vel : float) : option Splines :=
  let hp_width := (hp_width_param * of_Z 1000)%float in
  points <- template_points hp_width twave flux systemic_vel ;;
  let k_order := Some 5 in
  s0 <- iuv_spline (t_wave points) (t_flux0 points) k_order (Some 1) ;;
  s <- iuv_spline (t_wave points) (t_flux points) k_order (Some 1) ;;
  d <- iuv_spline (t_wave points) (t_dflux points) k_order (Some 1) ;;
  dd <- iuv_spline (t_wave points) (t_ddflux points) k_order (Some 1) ;;
  ddd <- iuv_spline (t_wave points) (t_dddflux points) k_order (Some 1) ;;
  m <- iuv_spline (t_wave points) (t_mask points) (Some 1) (Some 1) ;;
  Some {| spline0 := s0; spline := s; dspline := d; ddspline := dd;
          dddspline := ddd; spline_mask := m |}.

(** ** rough_ccf_rv *)

(** The CCF on the grid of velocities: for each velocity, the weighted
    sum of the science spline at the shifted line centres. *)
Definition ccf (spline_sp : Spline) (wave_mask weight_line dvgrid : list float)
  : list float :=
  map (fun dv =>
         nansum (Np.map2 Float.mul weight_line
                   (spline_sp (doppler_shift wave_mask dv))))
    dvgrid.

(** The first guess of the fit: mean, e-width, amplitude, dc level and
    slope. *)
Definition ccf_guess (params : CcfParams) (dvgrid ccf_vector : list float)
  : option (list float) :=
  ccfmax <- argmax ccf_vector ;;
  let ccf_dc := nanmedian ccf_vector in
  peak <- Py.get_item ccf_vector ccfmax ;;
  let ccf_amp := (peak - ccf_dc)%float in
  dv_peak <- Py.get_item dvgrid ccfmax ;;
  Some [dv_peak; ROUGH_CCF_EWIDTH_GUESS params; ccf_amp; ccf_dc; zero].

Definition rough_ccf_rv (params : CcfParams)
    (wavegrid sci_data : list (list float))
    (wave_mask weight_line : list float) : option (float * float) :=
  let '(wavegrid2, sci_data2) := ccf_samples wavegrid sci_data in
  spline_sp <- iuv_spline wavegrid2 sci_data2 (Some 1) (Some 1) ;;
  dvgrid <-
    arange_float (ROUGH_CCF_MIN_RV params) (ROUGH_CCF_MAX_RV params)
      (ROUGH_CCF_RV_STEP params) ;;
  let ccf_vector := ccf spline_sp wave_mask weight_line dvgrid in
  guess <- ccf_guess params dvgrid ccf_vector ;;
  gcoeffs <- curve_fit dvgrid ccf_vector guess ;;
  systemic_velocity <- Py.get_item gcoeffs 0 ;;
  ccf_ewidth <- Py.get_item gcoeffs 1 ;;
  Some (systemic_velocity, ccf_ewidth).

End OtherFunctions.

(** A strictly increasing array. *)
Fixpoint ascending (a : list float) : bool :=
  match a with
  | x :: ((y :: _) as rest) => (x <? y)%float && ascending rest
  | _ => true
  end.

(** The geometry of a reference table: the columns that describe the
    lines, as opposed to the diagnostics of a fit. *)
Definition geometry (rt : RefDict)
  : list Z * list float * list float * list float * list float :=
  (ORDER rt, WAVE_START rt, WAVE_END rt, WEIGHT_LINE rt, XPIX rt).

(** A line of a table lies in an order of the wave grid, strictly inside
    its range of wavelengths. *)
Definition line_in_range (wavegrid : list (list float))
    (line : ReferenceLine) : Prop :=
  let '(order_num, wave_start, wave_end, _) := line in
  0 <= order_num
  /\ exists wave_ord min_wave max_wave,
       nth_error wavegrid (Z.to_nat order_num) = Some wave_ord
       /\ Np.min wave_ord = Some min_wave
       /\ Np.max wave_ord = Some max_wave
       /\ (min_wave <? wave_start)%float = true
       /\ (wave_start <? max_wave)%float = true
       /\ (min_wave <? wave_end)%float = true
       /\ (wave_end <? max_wave)%float = true.

(** Every wavelength of one order is below every wavelength of the
    next. *)
Fixpoint separated (wavegrid : list (list float)) : Prop :=
  match wavegrid with
  | row :: ((next :: _) as rest) =>
      (forall x y, In x row -> In y next -> (x <? y)%float = true)
      /\ separated rest
  | _ => True
  end.

(** Every entry of a list of mask entries is below all the entries after
    it. *)
Fixpoint below_rest (entries : list (float * float)) : Prop :=
  match entries with
  | [] => True
  | e :: rest =>
      (forall e', In e' rest -> (fst e <? fst e')%float = true)
      /\ below_rest rest
  end.

(** Every row of the mask selects finite fluxes only. *)
Definition selects_finite (sci_data : list (list float))
    (mask : list (list bool)) : Prop :=
  forall k m, nth_error mask k = Some m ->
    exists s, nth_error sci_data k = Some s
      /\ forall i, nth_error m i = Some true ->
           exists x, nth_error s i = Some x /\ Float.isfinite x = true.

(** [np.ones_like(wavegrid, dtype=bool)] *)
Definition all_true (rows : list (list float)) : list (list bool) :=
  map (map (fun _ : float => true)) rows.

(** What the loop over the lines holds for line [j]: its flag, its
    shifts and their errors, and its diagnostics in the table. *)
Definition line_arrays (st : LineState) (j : nat) :=
  (nth_error (mask_keep st) j, nth_error (dv st) j, nth_error (dvrms st) j,
   nth_error (ddv st) j, nth_error (ddvrms st) j,
   nth_error (dddv st) j, nth_error (dddvrms st) j,
   nth_error (MEANXPIX (ref_table st)) j,
   nth_error (MEANBLAZE (ref_table st)) j,
   nth_error (RMSRATIO (ref_table st)) j,
   nth_error (NPIXLINE (ref_table st)) j,
   nth_error (CHI2 (ref_table st)) j).

(** What the loop over the lines must leave alone: the geometry of the
    table, the two columns it does not compute, and the sizes of all the
    arrays with one entry per line. *)
Definition layout (st : LineState) :=
  (geometry (ref_table st), AMP_CONTINUUM (ref_table st),
   CHI2_VALID_CDF (ref_table st),
   (List.length (mask_keep st), List.length (dv st), List.length (dvrms st),
    List.length (ddv st), List.length (ddvrms st), List.length (dddv st),
    List.length (dddvrms st)),
   (List.length (MEANXPIX (ref_table st)),
    List.length (MEANBLAZE (ref_table st)),
    List.length (RMSRATIO (ref_table st)),
    List.length (NPIXLINE (ref_table st)),
    List.length (CHI2 (ref_table st)))).

(** The lines flagged in [st] are flagged in [st']. *)
Definition flags_kept (st st' : LineState) : Prop :=
  forall j, nth_error (mask_keep st) j = Some false ->
            nth_error (mask_keep st') j = Some false.

(** More collaborators, and data for them. *)
Module Cases.

(** [np.log], to about four decimals: the argument is brought between 1
    and 2 by powers of two, and the series of the inverse hyperbolic
    tangent is cut after three terms. *)
Definition ln2 : Q := 693147 # 1000000.

Definition log_mantissa (m : Q) : Q :=
  let z := ((m - 1) / (m + 1))%Q in
  (2 * (z + z * z * z / 3 + z * z * z * z * z / 5))%Q.

Definition log_above_one (x : Q) : Q :=
  let k := Z.log2 (Qfloor x) in
  (inject_Z k * ln2 + log_mantissa (x / inject_Z (2 ^ k)))%Q.

Definition log (x : float) : float :=
  match x with
  | Fin a =>
      if Qle_bool 1 a then Fin (Qred (log_above_one a))
      else if Qle_bool a 0 then
        (if Qeq_bool a 0 then Inf true else NaN)
      else Fin (Qred (- log_above_one (/ a)))
  | Inf false => Inf false
  | _ => NaN
  end.

(** [curve_fit] is not computed here: the fit is left at its first
    guess. *)
Definition curve_fit (dvgrid ccf_vector guess : list float)
  : option (list float) := Some guess.

(** A template of twelve samples, one of them missing. *)
Definition twave : list float :=
  map (fun i => of_Z (5000 + Z.of_nat i)) (seq 0 12).
Definition tflux : list float :=
  map of_Z [10; 12; 9; 13; 11] ++ NaN :: map of_Z [12; 10; 9; 11; 13; 10].

(** Two orders of five pixels that do not overlap, with one missing
    flux. *)
Definition two_orders : list (list float) :=
  [map of_Z [5000; 5001; 5002; 5003; 5004];
   map of_Z [5010; 5011; 5012; 5013; 5014]].
Definition two_fluxes : list (list float) :=
  [map of_Z [3; 4; 5; 4; 3]; [of_Z 2; NaN; of_Z 1; of_Z 2; of_Z 3]].

(** A velocity range that is empty. *)
Definition empty_range : CcfParams :=
  {| ROUGH_CCF_MIN_RV := of_Z 1000;
     ROUGH_CCF_MAX_RV := of_Z 1000;
     ROUGH_CCF_RV_STEP := of_Z 500;
     ROUGH_CCF_EWIDTH_GUESS := of_Z 5000 |}.

(** The ten pixel order with a flux and a template of zero mean, and a
    single iteration. *)
Definition flux : list float :=
  map of_Z [-1; 1; 0; 2; 1; -2; 0; 3; 1; -1].

Definition parabola (l : float) : float :=
  (of_Z 2 - Float.sqr (l - of_Z 5005) / of_Z 5)%float.

Definition splines : Splines :=
  {| spline0 := map parabola;
     spline := map parabola;
     dspline :=
       map (fun l => (l * (of_Z 5005 - l) * Example.q 2 5
                      / speed_of_light_ms)%float);
     ddspline := map (fun l => (l / speed_of_light_ms)%float);
     dddspline := map (fun l => (of_Z 5005 - l)%float);
     spline_mask :=
       map (fun l => if (l <? of_Z 5008)%float then one else zero) |}.

Definition first_state : IterState :=
  {| sys_rv := zero; num_to_converge := 0;
     lines := Example.start;
     rv_final := [NaN; NaN]; stddev_nsig := NaN;
     rv_mean := NaN; bulk_error := NaN |}.

(** One iteration of the loop of [compute_rv] on that order. *)
Definition one_iteration : option IterState :=
  iterate Collab.sqrt Collab.nanstd Collab.estimate_sigma
    Collab.odd_ratio_mean Collab.doppler_shift Collab.iuv_spline
    Example.params splines [flux] Example.wavegrid Example.blaze zero
    [0%nat] first_state.

(** The rows of the order that the fit of a line reads. *)
Definition rows : OrderRows :=
  {| sci_ord := Example.flux;
     rms_ord := map (fun _ => one) Example.wave_ord;
     model_ord := hd [] (model Example.models);
     dmodel_ord := hd [] (dmodel Example.models);
     ddmodel_ord := hd [] (ddmodel Example.models);
     dddmodel_ord := hd [] (dddmodel Example.models);
     blaze_ord := map (fun _ => one) Example.wave_ord |}.

(** The splines from wavelength to pixel of the order, not shifted. *)
Definition wave2pixlist : list Spline :=
  match wave2pix_splines Collab.iuv_spline Example.wavegrid (Np.arange 10)
  with
  | Some splines => splines
  | None => []
  end.

(** A later iteration, entered with the first line flagged. *)
Definition flagged_state : IterState :=
  {| sys_rv := zero; num_to_converge := 2;
     lines := with_mask_keep Example.start [false; true];
     rv_final := [NaN; NaN]; stddev_nsig := NaN;
     rv_mean := NaN; bulk_error := NaN |}.

Definition third_iteration : option IterState :=
  iterate Collab.sqrt Collab.nanstd Collab.estimate_sigma
    Collab.odd_ratio_mean Collab.doppler_shift Collab.iuv_spline
    Example.params splines [flux] Example.wavegrid Example.blaze zero
    [2%nat] flagged_state.

End Cases.

(* ================================================================== *)
(** * Properties *)
(* ================================================================== *)

(** ** The reference line table *)

Section RefTableProperties.

Variable iuv_spline :
  list float -> list float -> option Z -> option Z -> option Spline.

Lemma map2_map_map {A B C D} (f : B -> C -> D) (g : A -> B) (h : A -> C)
    (l : list A) :
  Np.map2 f (map g l) (map h l) = map (fun x => f (g x) (h x)) l.
Proof.
  induction l as [|x l IH]; simpl; [reflexivity|].
  now rewrite IH.
Qed.

Lemma good_mask_map (mask_table : MaskTable) (min_wave max_wave : float) :
  good_mask mask_table min_wave max_wave
  = map (fun l => Float.gtb l min_wave && Float.ltb l max_wave)
      (ll_mask_s mask_table).
Proof. unfold good_mask. apply map2_map_map. Qed.

Lemma bool_index_fst {A B} (f : A -> bool) (l : list A) (w : list B) :
  List.length w = List.length l ->
  Np.bool_index l (map f l)
  = map fst (filter (fun e => f (fst e)) (combine l w)).
Proof.
  revert w; induction l as [|x l IH]; intros [|y w] Hlen; simpl in *;
    try reflexivity; try discriminate.
  injection Hlen as Hlen.
  destruct (f x); simpl; now rewrite (IH w Hlen).
Qed.

Lemma bool_index_snd {A B} (f : A -> bool) (l : list A) (w : list B) :
  List.length w = List.length l ->
  Np.bool_index w (map f l)
  = map snd (filter (fun e => f (fst e)) (combine l w)).
Proof.
  revert w; induction l as [|x l IH]; intros [|y w] Hlen; simpl in *;
    try reflexivity; try discriminate.
  injection Hlen as Hlen.
  destruct (f x); simpl; now rewrite (IH w Hlen).
Qed.

Lemma count_map_combine {A B} (f : A -> bool) (l : list A) (w : list B) :
  List.length w = List.length l ->
  Np.count (map f l)
  = Z.of_nat (List.length (filter (fun e => f (fst e)) (combine l w))).
Proof.
  unfold Np.count. intros Hlen. f_equal.
  revert w Hlen; induction l as [|x l IH]; intros [|y w] Hlen; simpl in *;
    try reflexivity; try discriminate.
  injection Hlen as Hlen.
  destruct (f x); simpl; now rewrite (IH w Hlen).
Qed.

Lemma removelast_map {A B} (f : A -> B) (l : list A) :
  removelast (map f l) = map f (removelast l).
Proof.
  induction l as [|x [|y l] IH]; simpl in *; try reflexivity.
  now rewrite IH.
Qed.

Lemma removelast_length {A} (l : list A) :
  List.length (removelast l) = (List.length l - 1)%nat.
Proof.
  induction l as [|x [|y l] IH]; simpl in *; try reflexivity.
  rewrite IH. lia.
Qed.

Lemma consecutive_pairs_length (order_num : Z)
    (entries : list (float * float)) :
  List.length (consecutive_pairs order_num entries)
  = (List.length entries - 1)%nat.
Proof.
  induction entries as [|[c1 w1] [|[c2 w2] rest] IH]; simpl in *;
    try reflexivity.
  rewrite IH. lia.
Qed.

Lemma zip_consecutive (order_num : Z) (entries : list (float * float)) :
  zip_lines (List.repeat order_num (List.length entries - 1))
    (map fst (removelast entries)) (map fst (tl entries))
    (map snd (removelast entries))
  = consecutive_pairs order_num entries.
Proof.
  induction entries as [|[c1 w1] [|[c2 w2] rest] IH]; try reflexivity.
  change (consecutive_pairs order_num ((c1, w1) :: (c2, w2) :: rest))
    with ((order_num, c1, c2, w1)
          :: consecutive_pairs order_num ((c2, w2) :: rest)).
  rewrite <- IH.
  cbn [List.length Nat.sub removelast tl map fst snd].
  rewrite Nat.sub_0_r. reflexivity.
Qed.

Lemma zip_lines_app (o1 o2 : list Z) (s1 s2 e1 e2 w1 w2 : list float) :
  List.length s1 = List.length o1 ->
  List.length e1 = List.length o1 ->
  List.length w1 = List.length o1 ->
  zip_lines (o1 ++ o2) (s1 ++ s2) (e1 ++ e2) (w1 ++ w2)
  = zip_lines o1 s1 e1 w1 ++ zip_lines o2 s2 e2 w2.
Proof.
  revert s1 e1 w1; induction o1 as [|o o1 IH];
    intros [|s s1] [|e e1] [|w w1] Hs He Hw; simpl in *;
    try discriminate; try reflexivity.
  rewrite IH by congruence. reflexivity.
Qed.

Lemma zip_lines_length (o : list Z) (s e w : list float) :
  List.length s = List.length o ->
  List.length e = List.length o ->
  List.length w = List.length o ->
  List.length (zip_lines o s e w) = List.length o.
Proof.
  revert s e w; induction o as [|x o IH];
    intros [|s0 s] [|e0 e] [|w0 w] Hs He Hw; simpl in *;
    try discriminate; try reflexivity.
  f_equal. apply IH; congruence.
Qed.

Lemma extend_aligned (a b : RefVectors) :
  aligned a -> aligned b -> aligned (extend a b).
Proof.
  intros (Ha1 & Ha2 & Ha3) (Hb1 & Hb2 & Hb3).
  unfold aligned, extend; simpl.
  rewrite !length_app. repeat split; congruence.
Qed.

Lemma extend_lines (a b : RefVectors) :
  aligned a ->
  vector_lines (extend a b) = vector_lines a ++ vector_lines b.
Proof.
  intros (Ha1 & Ha2 & Ha3). unfold vector_lines, extend; simpl.
  now apply zip_lines_app.
Qed.

Lemma min_max_nonempty (wave_ord : list float) :
  wave_ord <> [] ->
  exists min_wave max_wave,
    Np.min wave_ord = Some min_wave /\ Np.max wave_ord = Some max_wave.
Proof.
  destruct wave_ord as [|x rest]; [congruence|].
  intros _. simpl. eauto.
Qed.

(** What one order appends: the consecutive pairs of its surviving
    entries. *)
Lemma order_lines_pairs (mask_table : MaskTable) (order_num : Z)
    (wave_ord : list float) :
  List.length (w_mask mask_table) = List.length (ll_mask_s mask_table) ->
  wave_ord <> [] ->
  surviving mask_table wave_ord = []
  \/ iuv_spline wave_ord (Np.arange (List.length wave_ord)) None None
     <> None ->
  exists v,
    order_lines iuv_spline mask_table order_num wave_ord = Some v
    /\ aligned v
    /\ vector_lines v
       = consecutive_pairs order_num (surviving mask_table wave_ord).
Proof.
  intros Hlen Hne Hspline.
  destruct (min_max_nonempty wave_ord Hne) as (lo & hi & Hlo & Hhi).
  unfold order_lines, surviving in *. rewrite Hlo, Hhi in *.
  rewrite good_mask_map.
  set (f := fun l : float => Float.gtb l lo && Float.ltb l hi).
  rewrite (count_map_combine f _ _ Hlen).
  rewrite (bool_index_fst f _ _ Hlen), (bool_index_snd f _ _ Hlen).
  change (fun e : float * float => f (fst e)) with (strictly_inside lo hi)
    in *.
  generalize dependent
    (filter (strictly_inside lo hi)
       (combine (ll_mask_s mask_table) (w_mask mask_table))).
  intros entries Hspline.
  destruct (Nat.eq_dec (List.length entries) 0) as [Hz | Hnz].
  - destruct entries; [|discriminate]. simpl.
    exists empty_vectors. repeat split; reflexivity.
  - assert (Hpos : (Z.of_nat (List.length entries) >? 0) = true) by lia.
    rewrite Hpos. clear Hpos.
    unfold Np.repeat.
    assert (Hn : (Z.of_nat (List.length entries) - 1 <? 0) = false) by lia.
    rewrite Hn. clear Hn.
    replace (Z.to_nat (Z.of_nat (List.length entries) - 1))
      with (List.length entries - 1)%nat by lia.
    destruct Hspline as [Hnil | Hok]; [subst entries; now elim Hnz|].
    destruct (iuv_spline wave_ord (Np.arange (List.length wave_ord))
                None None) as [xspline|]; [|congruence].
    eexists. split; [reflexivity|].
    unfold aligned, vector_lines; simpl.
    rewrite !removelast_map.
    replace (tl (map fst entries)) with (map fst (tl entries))
      by (destruct entries; reflexivity).
    split.
    + rewrite !length_map, repeat_length, removelast_length.
      repeat split; try reflexivity.
      destruct entries; simpl; lia.
    + apply zip_consecutive.
Qed.

Lemma order_loop_lines (mask_table : MaskTable)
    (wavegrid : list (list float)) :
  List.length (w_mask mask_table) = List.length (ll_mask_s mask_table) ->
  (forall wave_ord, In wave_ord wavegrid ->
     wave_ord <> []
     /\ (surviving mask_table wave_ord = []
         \/ iuv_spline wave_ord (Np.arange (List.length wave_ord)) None None
            <> None)) ->
  forall order_num acc,
    aligned acc ->
    exists v,
      order_loop iuv_spline mask_table order_num wavegrid acc = Some v
      /\ aligned v
      /\ vector_lines v
         = vector_lines acc ++ lines_from mask_table order_num wavegrid.
Proof.
  intros Hlen. induction wavegrid as [|wave_ord rest IH];
    intros Hrows order_num acc Hacc; simpl.
  - exists acc. rewrite app_nil_r. auto.
  - destruct (Hrows wave_ord (or_introl eq_refl)) as [Hne Hs].
    destruct (order_lines_pairs mask_table order_num wave_ord Hlen Hne Hs)
      as (v & Hv & Hal & Hlines).
    rewrite Hv.
    destruct (IH (fun w Hw => Hrows w (or_intror Hw)) (order_num + 1)
                (extend acc v) (extend_aligned _ _ Hacc Hal))
      as (r & Hr & Hral & Hrl).
    exists r. repeat split; try assumption; try apply Hral.
    rewrite Hrl, extend_lines, Hlines, app_assoc by assumption.
    reflexivity.
Qed.

(** C9.  On the build path of [make_ref_dict] (no table on disk), when
    the mask table is well formed, every order of the wave grid has at
    least one pixel and the pixel spline of every order with surviving
    mask entries can be built: the table is returned, and its lines
    (order, wave start, wave end, weight) are, order after order, the
    pairs of consecutive mask entries whose centre lies strictly between
    the minimum and the maximum wavelength of the order, each with the
    current order index and the weight of the first entry of the pair.  An
    order with [n] such entries contributes [max (n - 1) 0] lines: none,
    and no error, when [n = 0]. *)
Theorem make_ref_dict_consecutive_pairs :
  forall (loaded : RefDict) (wavegrid : list (list float))
         (mask_table : MaskTable),
    List.length (w_mask mask_table) = List.length (ll_mask_s mask_table) ->
    (forall wave_ord, In wave_ord wavegrid ->
       wave_ord <> []
       /\ (surviving mask_table wave_ord = []
           \/ iuv_spline wave_ord (Np.arange (List.length wave_ord))
                None None <> None)) ->
    exists rd,
      make_ref_dict iuv_spline false loaded wavegrid mask_table = Some rd
      /\ table_lines rd = lines_from mask_table 0 wavegrid
      /\ List.length (ORDER rd) = List.length (table_lines rd)
      /\ List.length (WAVE_START rd) = List.length (table_lines rd)
      /\ List.length (WAVE_END rd) = List.length (table_lines rd)
      /\ List.length (WEIGHT_LINE rd) = List.length (table_lines rd)
      /\ forall order_num wave_ord,
           Z.of_nat
             (List.length
                (consecutive_pairs order_num
                   (surviving mask_table wave_ord)))
           = Z.max
               (Z.of_nat (List.length (surviving mask_table wave_ord)) - 1)
               0.
Proof.
  intros loaded wavegrid mask_table Hlen Hrows.
  destruct (order_loop_lines mask_table wavegrid Hlen Hrows 0 empty_vectors)
    as (v & Hv & (Hs & He & Hw) & Hlines).
  { repeat split. }
  unfold make_ref_dict. rewrite Hv.
  eexists. split; [reflexivity|].
  unfold table_lines; simpl.
  change (zip_lines (v_order v) (v_wave_start v) (v_wave_end v)
            (v_weight_line v)) with (vector_lines v).
  assert (Hzl : List.length (vector_lines v) = List.length (v_order v))
    by (apply zip_lines_length; assumption).
  split; [rewrite Hlines; reflexivity|].
  do 4 (split; [congruence|]).
  intros order_num wave_ord. rewrite consecutive_pairs_length. lia.
Qed.

End RefTableProperties.

(** ** The Bouchy estimator *)






















Section BouchyProperties.

Variable sqrt : float -> float.


End BouchyProperties.



(** ** The noise model *)

Section NoiseProperties.

Variable estimate_sigma : list float -> float.
Variable iuv_spline :
  list float -> list float -> option Z -> option Z -> option Spline.

Lemma nan_if_zero_idem (s : float) :
  nan_if_zero (nan_if_zero s) = nan_if_zero s.
Proof.
  unfold nan_if_zero. destruct (Float.eqb s zero) eqn:E; [reflexivity|].
  now rewrite E.
Qed.

Lemma update_app {A} (done pend : list A) (p v : A) :
  Py.update (done ++ p :: pend) (List.length done) v = done ++ v :: pend.
Proof. induction done as [|x done IH]; simpl; congruence. Qed.

Lemma box_sigma_window (npoints ncols : Z) (residuals done pend : list float)
    (p : float) (index : Z) :
  box_sigma estimate_sigma npoints ncols residuals (done ++ p :: pend)
    (List.length done) index
  = map nan_if_zero done
    ++ window_sigma estimate_sigma npoints ncols residuals index
    :: map nan_if_zero pend.
Proof.
  unfold box_sigma, window_sigma, zero_to_nan.
  rewrite update_app.
  change (fun s => if Float.eqb s zero then NaN else s) with nan_if_zero.
  rewrite map_app. cbn [map]. unfold nan_if_zero at 2.
  replace (if index - npoints <? 0 then 0 else index - npoints)
    with (Z.max 0 (index - npoints))
    by (destruct (Z.ltb_spec (index - npoints) 0); lia).
  replace (if index + npoints >? ncols then ncols else index + npoints)
    with (Z.min ncols (index + npoints))
    by (rewrite Z.gtb_ltb;
        destruct (Z.ltb_spec ncols (index + npoints)); lia).
  reflexivity.
Qed.

(** The sigma array after the loop over the boxes: the sigma of every
    box, a zero replaced by NaN. *)
Lemma box_loop_windows (npoints ncols : Z) (residuals : list float) :
  forall (rest : list Z) (done pend : list float),
    List.length pend = List.length rest ->
    Forall (fun s => nan_if_zero s = s) done ->
    Forall (fun s => nan_if_zero s = NaN) pend ->
    fold_left
      (fun sigma '(it, index) =>
         box_sigma estimate_sigma npoints ncols residuals sigma it index)
      (combine (seq (List.length done) (List.length rest)) rest)
      (done ++ pend)
    = done ++ map (window_sigma estimate_sigma npoints ncols residuals) rest.
Proof.
  induction rest as [|index rest IH]; intros done [|p pend] Hlen Hdone Hpend;
    simpl in Hlen; try discriminate.
  - reflexivity.
  - injection Hlen as Hlen. cbn [List.length seq combine fold_left map].
    rewrite box_sigma_window.
    replace (map nan_if_zero done) with done.
    2:{ clear - Hdone. induction Hdone as [|x l Hx Hl IHl]; simpl;
        [reflexivity|]. now rewrite Hx, <- IHl. }
    set (w := window_sigma estimate_sigma npoints ncols residuals index).
    change (done ++ w :: map nan_if_zero pend)
      with (done ++ [w] ++ map nan_if_zero pend).
    rewrite app_assoc.
    replace (S (List.length done)) with (List.length (done ++ [w]))
      by (rewrite length_app; simpl; lia).
    rewrite IH.
    + rewrite <- app_assoc. reflexivity.
    + now rewrite length_map.
    + apply Forall_app. split; [assumption|].
      constructor; [|constructor].
      unfold w, window_sigma. apply nan_if_zero_idem.
    + inversion Hpend as [|? ? _ Htl]; subst.
      clear - Htl. induction Htl as [|x l Hx Hl IHl]; simpl; constructor.
      * now rewrite Hx.
      * assumption.
Qed.

Lemma box_sigmas_windows (npoints ncols : Z) (residuals : list float)
    (indices : list Z) :
  box_sigmas estimate_sigma npoints ncols residuals indices
  = map (window_sigma estimate_sigma npoints ncols residuals) indices.
Proof.
  unfold box_sigmas.
  apply (box_loop_windows npoints ncols residuals indices []
           (map (fun _ => zero) indices)).
  - now rewrite length_map.
  - constructor.
  - induction indices; simpl; constructor; [reflexivity|assumption].
Qed.

Lemma arange_step_defined (stop step : Z) :
  step <> 0 -> exists indices, arange_step stop step = Some indices.
Proof.
  intros H. unfold arange_step.
  destruct (Z.eqb_spec step 0); [contradiction|].
  destruct ((step <? 0) || (stop <=? 0)); eauto.
Qed.

(** Arrays of one length are combined entry by entry. *)
Lemma broadcast2_same_length {A B C} (f : A -> B -> C)
    (xs : list A) (ys : list B) :
  List.length xs = List.length ys ->
  Np.broadcast2 f xs ys = Some (Np.map2 f xs ys).
Proof.
  intros H. unfold Np.broadcast2. now rewrite H, Nat.eqb_refl.
Qed.

(** A row takes an array of its own width as it is. *)
Lemma assign_row_same_width {A} (width : nat) (v : list A) :
  List.length v = width -> Np.assign_row width v = Some v.
Proof.
  intros H. unfold Np.assign_row. now rewrite H, Nat.eqb_refl.
Qed.

(** The row of an order with fewer than three valid boxes. *)
Lemma noise_order_unknown (npoints ncols : Z)
    (spectrum_ord model_ord : list float) :
  npoints <> 0 ->
  List.length spectrum_ord = Z.to_nat ncols ->
  List.length model_ord = Z.to_nat ncols ->
  valid_windows estimate_sigma npoints ncols spectrum_ord model_ord < 3 ->
  noise_order estimate_sigma iuv_spline npoints ncols spectrum_ord model_ord
  = Some (Np.full (Z.to_nat ncols) NaN).
Proof.
  intros Hstep Hs Hm Hfew. unfold noise_order, valid_windows in *.
  rewrite broadcast2_same_length by congruence.
  destruct (arange_step_defined ncols npoints Hstep) as (indices & Hi).
  rewrite Hi in *. rewrite box_sigmas_windows, map_map.
  destruct (Z.gtb_spec
              (Np.count
                 (map (fun x =>
                         Float.isfinite
                           (window_sigma estimate_sigma npoints ncols
                              (Np.map2 sub spectrum_ord model_ord) x))
                    indices)) 2); [lia|].
  apply assign_row_same_width. unfold Np.full.
  rewrite repeat_length. congruence.
Qed.

Lemma noise_orders_unknown (npoints ncols : Z) :
  npoints <> 0 ->
  forall spectrum model : list (list float),
    Forall2 (fun s m : list float =>
               List.length s = Z.to_nat ncols
               /\ List.length m = Z.to_nat ncols) spectrum model ->
    (forall s m, In (s, m) (combine spectrum model) ->
       valid_windows estimate_sigma npoints ncols s m < 3
       \/ noise_order estimate_sigma iuv_spline npoints ncols s m <> None) ->
    exists rms,
      noise_orders estimate_sigma iuv_spline npoints ncols spectrum model
      = Some rms
      /\ List.length rms = List.length spectrum
      /\ forall i s m,
           nth_error spectrum i = Some s ->
           nth_error model i = Some m ->
           valid_windows estimate_sigma npoints ncols s m < 3 ->
           nth_error rms i = Some (Np.full (Z.to_nat ncols) NaN).
Proof.
  intros Hstep spectrum model Hshape.
  induction Hshape as [|s m spectrum model [Hws Hwm] Hshape IH];
    intros Hrows.
  - exists []. repeat split. intros [|i] ? ? H; discriminate.
  - destruct (IH (fun s' m' H => Hrows s' m' (or_intror H)))
      as (rows & Hrowsok & Hrl & Hnan).
    assert (Hrow : exists row,
               noise_order estimate_sigma iuv_spline npoints ncols s m
               = Some row).
    { destruct (Hrows s m (or_introl eq_refl)) as [Hfew | Hok].
      - eexists. now apply noise_order_unknown.
      - destruct (noise_order estimate_sigma iuv_spline npoints ncols s m);
          [eauto|congruence]. }
    destruct Hrow as (row & Hrow).
    exists (row :: rows). cbn [noise_orders]. rewrite Hrow, Hrowsok.
    split; [reflexivity|]. split; [simpl; congruence|].
    intros [|i] s' m' Hs Hm Hfew; simpl in *.
    + injection Hs as <-. injection Hm as <-.
      rewrite (noise_order_unknown npoints ncols s m Hstep Hws Hwm Hfew)
        in Hrow.
      congruence.
    + now apply (Hnan i s' m').
Qed.

(** C10.  [estimate_noise_model] on a spectrum and a model of one shape
    (as many orders, and in every order of both as many pixels as
    [model.shape[1]]), with a box size that is not zero, when the spline
    of every order with three valid boxes or more can be built: the
    function returns, and the row of every order in which fewer than
    three boxes have a finite sigma (a zero sigma counting as missing) is
    NaN at every pixel. *)
Theorem estimate_noise_model_unknown_rms :
  forall (spectrum model : list (list float)) (npoints : Z),
    npoints <> 0 ->
    one_shape spectrum model ->
    (forall s m, In (s, m) (combine spectrum model) ->
       valid_windows estimate_sigma npoints (shape1 model) s m < 3
       \/ noise_order estimate_sigma iuv_spline npoints (shape1 model) s m
          <> None) ->
    exists rms,
      estimate_noise_model estimate_sigma iuv_spline spectrum model npoints
      = Some rms
      /\ List.length rms = List.length spectrum
      /\ forall i s m,
           nth_error spectrum i = Some s ->
           nth_error model i = Some m ->
           valid_windows estimate_sigma npoints (shape1 model) s m < 3 ->
           nth_error rms i
           = Some (Np.full (Z.to_nat (shape1 model)) NaN)
           /\ Forall (fun x => Float.isnan x = true)
                (Np.full (Z.to_nat (shape1 model)) NaN).
Proof.
  intros spectrum model npoints Hstep Hshape Hrows.
  destruct (noise_orders_unknown npoints (shape1 model) Hstep spectrum model
              Hshape Hrows) as (rms & Hrms & Hl & Hnan).
  exists rms. unfold estimate_noise_model.
  split; [assumption|]. split; [assumption|].
  intros i s m Hs Hm Hfew. split; [now apply (Hnan i s m)|].
  unfold Np.full. apply Forall_forall. intros x Hx.
  apply repeat_spec in Hx. now subst.
Qed.

End NoiseProperties.

(** One order of ten pixels has a single box. *)
Lemma estimate_noise_model_unknown_rms_example :
  exists rms,
    estimate_noise_model Collab.estimate_sigma Collab.iuv_spline
      [Example.flux] (model Example.models) 100
    = Some rms
    /\ List.length rms = 1%nat
    /\ forall i s m,
         nth_error [Example.flux] i = Some s ->
         nth_error (model Example.models) i = Some m ->
         valid_windows Collab.estimate_sigma 100
           (shape1 (model Example.models)) s m < 3 ->
         nth_error rms i = Some (Np.full 10 NaN)
         /\ Forall (fun x => Float.isnan x = true) (Np.full 10 NaN).
Proof.
  apply (estimate_noise_model_unknown_rms Collab.estimate_sigma
           Collab.iuv_spline [Example.flux] (model Example.models) 100).
  - discriminate.
  - repeat constructor.
  - intros s m [H | []]. injection H as <- <-. left. vm_compute. reflexivity.
Defined.

(** The table of the example, built from its mask. *)
Lemma make_ref_dict_consecutive_pairs_example :
  exists rd,
    make_ref_dict Collab.iuv_spline false Example.table Example.wavegrid
      Example.mask_table = Some rd
    /\ table_lines rd = lines_from Example.mask_table 0 Example.wavegrid
    /\ List.length (ORDER rd) = List.length (table_lines rd)
    /\ List.length (WAVE_START rd) = List.length (table_lines rd)
    /\ List.length (WAVE_END rd) = List.length (table_lines rd)
    /\ List.length (WEIGHT_LINE rd) = List.length (table_lines rd)
    /\ forall order_num wave_ord,
         Z.of_nat
           (List.length
              (consecutive_pairs order_num
                 (surviving Example.mask_table wave_ord)))
         = Z.max
             (Z.of_nat
                (List.length (surviving Example.mask_table wave_ord)) - 1)
             0.
Proof.
  apply (make_ref_dict_consecutive_pairs Collab.iuv_spline Example.table
           Example.wavegrid Example.mask_table).
  - reflexivity.
  - intros wave_ord [<- | []]. split; [discriminate|].
    right. vm_compute. discriminate.
Defined.

(** ** The engine, whatever the collaborators *)

Section EngineProperties.

Variable sqrt : float -> float.
Variable nanmedian : list float -> float.
Variable nanstd : list float -> float.
Variable estimate_sigma : list float -> float.
Variable odd_ratio_mean : list float -> list float -> float * float.
Variable doppler_shift : list float -> float -> list float.
Variable lowpassfilter : list float -> Z -> list float.
Variable iuv_spline :
  list float -> list float -> option Z -> option Z -> option Spline.
Variable chi2_cdf : float -> Z -> float.
Variable rough_ccf_rv :
  list (list float) -> list (list float) -> list float -> list float
  -> float * float.

(** Case analysis on every step of a computation that returned. *)
Ltac returned H :=
  repeat match type of H with
         | match ?x with _ => _ end = Some _ =>
             destruct x eqn:?; try discriminate H
         end.

(** The high-pass of one order subtracts the filtered wave grid. *)
Lemma highpass_orders_row (hp_width : float) (sci_ord wave_ord : list float)
    (sci_data wavegrid : list (list float)) (width : Z)
    (rest : list (list float)) :
  get_velo_scale nanmedian wave_ord hp_width = Some width ->
  highpass_orders nanmedian lowpassfilter hp_width sci_data wavegrid
  = Some rest ->
  highpass_orders nanmedian lowpassfilter hp_width (sci_ord :: sci_data)
    (wave_ord :: wavegrid)
  = Some (Np.map2 Float.sub sci_ord (lowpassfilter wave_ord width) :: rest).
Proof. intros Hw Hr. cbn [highpass_orders]. now rewrite Hw, Hr. Qed.

(** In the second iteration no flagged line is skipped. *)
Lemma skip_flagged_second_iteration (mask_keep : list bool) (line_it : nat) :
  skip_flagged 1 mask_keep line_it = Some false.
Proof. reflexivity. Qed.

Ltac step H :=
  match type of H with
  | match ?x with _ => _ end = Some _ =>
      destruct x eqn:?; try discriminate H
  end.

(** The fit of a line never writes the third-order shifts. *)
Lemma fit_window_third_order (iteration line_it : nat) (order_num : Z)
    (ww_ord : list float) (rows : OrderRows) (wave_start wave_end : float)
    (x_start x_end : Z) (st st' : LineState) :
  fit_window sqrt nanstd iteration line_it order_num ww_ord rows wave_start
    wave_end x_start x_end st = Some st' ->
  dddv st' = dddv st /\ dddvrms st' = dddvrms st.
Proof.
  unfold fit_window. intros H. returned H.
  injection H as <-. split; reflexivity.
Qed.

Lemma fit_line_third_order (params : Params) (iteration : nat)
    (sci_data : list (list float)) (models : Models)
    (rms blaze : list (list float)) (wave2pixlist : list Spline)
    (st st' : LineState) (line_it : nat) :
  fit_line sqrt nanstd params iteration sci_data models rms blaze
    wave2pixlist st line_it = Some st' ->
  dddv st' = dddv st /\ dddvrms st' = dddvrms st.
Proof.
  unfold fit_line. intros H. returned H;
    try (injection H as <-; split; reflexivity).
  all: match goal with
       | E : (if ?c then _ else Some ?s) = Some ?l |- _ =>
           assert (Hl : dddv l = dddv s /\ dddvrms l = dddvrms s)
             by (destruct c; returned E; injection E as <-;
                 split; reflexivity);
           clear E
       end.
  all: destruct Hl as [Hl1 Hl2].
  all: try (injection H as <-; split; assumption).
  all: apply fit_window_third_order in H; destruct H; split; congruence.
Qed.

Lemma line_loop_third_order (params : Params) (iteration : nat)
    (sci_data : list (list float)) (models : Models)
    (rms blaze : list (list float)) (wave2pixlist : list Spline)
    (lines : list nat) :
  forall st st',
    line_loop sqrt nanstd params iteration sci_data models rms blaze
      wave2pixlist lines st = Some st' ->
    dddv st' = dddv st /\ dddvrms st' = dddvrms st.
Proof.
  induction lines as [|line_it rest IH]; intros st st' H; cbn in H.
  - injection H as <-. split; reflexivity.
  - destruct (fit_line sqrt nanstd params iteration sci_data models rms
                blaze wave2pixlist st line_it) as [st1|] eqn:E;
      [|discriminate].
    apply fit_line_third_order in E. apply IH in H.
    destruct E, H. split; congruence.
Qed.

Lemma iteration_body_third_order (params : Params) (splines : Splines)
    (sci_data wavegrid blaze : list (list float)) (berv : float)
    (iteration : nat) (st st' : IterState) :
  iteration_body sqrt nanstd estimate_sigma odd_ratio_mean doppler_shift
    iuv_spline params splines sci_data wavegrid blaze berv iteration st
  = Some st' ->
  dddv (lines st') = dddv (lines st)
  /\ dddvrms (lines st') = dddvrms (lines st)
  /\ num_to_converge st' = num_to_converge st + 1
  /\ rv_mean st' = fst (odd_ratio_mean (dv (lines st')) (dvrms (lines st')))
  /\ bulk_error st'
     = snd (odd_ratio_mean (dv (lines st')) (dvrms (lines st')))
  /\ sys_rv st' = (sys_rv st + rv_mean st')%float.
Proof.
  unfold iteration_body. intros H. do 4 step H.
  match goal with
  | E : line_loop _ _ _ _ _ _ _ _ _ _ _ = Some ?ls |- _ =>
      apply line_loop_third_order in E; cbn in E; destruct E;
      unfold velocity_update in H;
      destruct (odd_ratio_mean (dv ls) (dvrms ls)) as [mean err] eqn:Eorm
  end.
  injection H as <-. cbn. rewrite Eorm. cbn.
  repeat split; assumption.
Qed.

(** The loop stops at the first iteration that meets the convergence
    test, or when the iterations run out; either way it counts the
    iterations it ran. *)
Lemma iterate_third_order (params : Params) (splines : Splines)
    (sci_data wavegrid blaze : list (list float)) (berv : float)
    (iterations : list nat) :
  forall st st',
    iterate sqrt nanstd estimate_sigma odd_ratio_mean doppler_shift
      iuv_spline params splines sci_data wavegrid blaze berv iterations st
    = Some st' ->
    dddv (lines st') = dddv (lines st)
    /\ dddvrms (lines st') = dddvrms (lines st)
    /\ num_to_converge st <= num_to_converge st'
       <= num_to_converge st + Z.of_nat (List.length iterations)
    /\ (num_to_converge st'
        < num_to_converge st + Z.of_nat (List.length iterations) ->
        converged params st' = true).
Proof.
  induction iterations as [|iteration rest IH]; intros st st' H;
    cbn [iterate] in H.
  - injection H as <-. cbn. repeat split; lia.
  - step H.
    match goal with
    | E : iteration_body _ _ _ _ _ _ _ _ _ _ _ _ _ _ = Some ?s |- _ =>
        apply iteration_body_third_order in E;
        destruct E as (E1 & E2 & E3 & _); rename s into st1
    end.
    destruct (converged params st1) eqn:Ec.
    + injection H as <-. cbn [List.length].
      repeat split; try assumption; try lia. intros _. exact Ec.
    + apply IH in H. destruct H as (H1 & H2 & H3 & H4).
      cbn [List.length]. repeat split; try congruence; try lia.
      intros Hlt. apply H4. lia.
Qed.

(** What [compute_rv] returns in the third-order columns and in the
    reset flag. *)
Lemma compute_rv_outputs (params : Params) (sci_iteration : Z)
    (sci_data : list (list float)) (mjdate berv : float)
    (wavegrid : list (list float)) (splines : Splines)
    (ref_table0 : RefDict) (blaze : list (list float))
    (systemic_all mjdate_all : list float) (ccf_ewidth : option float)
    (reset_rv : bool) (table : RefTable) (outputs : Outputs) :
  compute_rv sqrt nanmedian nanstd estimate_sigma odd_ratio_mean
    doppler_shift lowpassfilter iuv_spline chi2_cdf rough_ccf_rv params
    sci_iteration sci_data mjdate berv wavegrid splines ref_table0 blaze
    systemic_all mjdate_all ccf_ewidth reset_rv = Some (table, outputs) ->
  DDDV table = Np.full (List.length (WAVE_START ref_table0)) NaN
  /\ DDDVRMS table = Np.full (List.length (WAVE_START ref_table0)) NaN
  /\ RESET_RV outputs
     = (NUM_ITERATIONS outputs >=? COMPUTE_RV_MAX_N_GOOD_ITERS params)
  /\ 0 <= NUM_ITERATIONS outputs
     <= Z.of_nat (COMPUTE_RV_N_ITERATIONS params).
Proof.
  unfold compute_rv, fit_exposure. intros H.
  destruct (highpass_orders _ _ _ _ _) as [hp|]; [|discriminate].
  destruct (initial_velocity _ _ _ _ _ _ _ _ _ _) as [[first ew]|];
    [|discriminate].
  match type of H with
  | context [iterate ?a ?b ?c ?d ?e ?f ?g ?h ?i ?j ?k ?l ?m ?n] =>
      destruct (iterate a b c d e f g h i j k l m n) as [st|] eqn:E;
      [|discriminate]
  end.
  apply iterate_third_order in E. cbn in E.
  destruct E as (E1 & E2 & E3 & _).
  cbn in H.
  destruct (Py.set_item systemic_all _ _); [|discriminate].
  destruct (Py.set_item mjdate_all _ _); [|discriminate].
  injection H as <- <-. cbn. rewrite length_seq in E3.
  repeat split; try assumption; try reflexivity; lia.
Qed.

End EngineProperties.

(** ** The fit of one line *)

Lemma update_length {A} (l : list A) (k : nat) (x : A) :
  List.length (Py.update l k x) = List.length l.
Proof.
  revert k; induction l as [|y l IH]; intros [|k]; simpl; try reflexivity.
  now rewrite IH.
Qed.

Lemma update_twice {A} (l : list A) (k : nat) (x y : A) :
  Py.update (Py.update l k x) k y = Py.update l k y.
Proof.
  revert k; induction l as [|z l IH]; intros [|k]; simpl; try reflexivity.
  now rewrite IH.
Qed.

(** Two entries written, then written again: the first values are
    lost. *)
Lemma overwritten {A B T} (a : list A) (b : list B) (i : Z)
    (v v' v2 : A) (w w' w2 : B) (K : list A -> list B -> option T) :
  (a1 <- Py.set_item a i v ;; b1 <- Py.set_item b i w ;;
   a2 <- Py.set_item a1 i v2 ;; b2 <- Py.set_item b1 i w2 ;; K a2 b2)
  = (a1 <- Py.set_item a i v' ;; b1 <- Py.set_item b i w' ;;
     a2 <- Py.set_item a1 i v2 ;; b2 <- Py.set_item b1 i w2 ;; K a2 b2).
Proof.
  unfold Py.set_item.
  destruct (Py.norm_index (Z.of_nat (List.length a)) i) as [k|] eqn:Ea;
    [|reflexivity].
  destruct (Py.norm_index (Z.of_nat (List.length b)) i) as [j|] eqn:Eb;
    [|reflexivity].
  rewrite !update_length, Ea, Eb, !update_twice. reflexivity.
Qed.

(** The second derivative of the model has no effect on the fit of a
    line: what the estimator gives with it is overwritten by what it
    gives with the third derivative. *)
Lemma fit_window_ignores_second (sqrt : float -> float)
    (nanstd : list float -> float) (iteration line_it : nat)
    (order_num : Z) (ww_ord : list float) (rows : OrderRows)
    (dd : list float) (wave_start wave_end : float) (x_start x_end : Z)
    (st : LineState) :
  fit_window sqrt nanstd iteration line_it order_num ww_ord
    (with_second rows dd) wave_start wave_end x_start x_end st
  = fit_window sqrt nanstd iteration line_it order_num ww_ord rows
      wave_start wave_end x_start x_end st.
Proof.
  unfold fit_window.
  cbn [with_second sci_ord rms_ord model_ord dmodel_ord ddmodel_ord
         dddmodel_ord blaze_ord].
  destruct (edge_weights ww_ord wave_start wave_end x_start x_end)
    as [[wm ww]|]; [|reflexivity].
  destruct (Py.set_item (nwavegrid st) order_num ww); [|reflexivity].
  destruct (Py.get_item (blaze_ord rows) ((x_start + x_end) / 2));
    [|reflexivity].
  destruct (Py.set_item (MEANXPIX (ref_table st)) _ _); [|reflexivity].
  destruct (Py.set_item (MEANBLAZE (ref_table st)) _ _); [|reflexivity].
  destruct (Py.set_item (dv st) _ _); [|reflexivity].
  destruct (Py.set_item (dvrms st) _ _); [|reflexivity].
  apply overwritten.
Qed.

Lemma set_item_head {A} (l l' : list A) (v : A) :
  Py.set_item l 0 v = Some l' -> tl l' = tl l.
Proof.
  unfold Py.set_item, Py.norm_index. destruct l as [|x l]; cbn.
  - discriminate.
  - intros H. injection H as <-. reflexivity.
Qed.

(** Whatever the line, the block of the edge weights writes the first
    entry of the mask only: every other entry, the last one included,
    keeps the weight 1. *)
Lemma edge_weights_tail (ww_ord : list float) (wave_start wave_end : float)
    (x_start x_end : Z) (weight_mask ww_ord' : list float) :
  edge_weights ww_ord wave_start wave_end x_start x_end
  = Some (weight_mask, ww_ord') ->
  tl weight_mask = List.repeat one (Z.to_nat (x_end - x_start + 1) - 1).
Proof.
  unfold edge_weights. intros H.
  destruct (ones (x_end - x_start + 1)) as [w0|] eqn:E0; [|discriminate].
  assert (Hw0 : tl w0
                = List.repeat one (Z.to_nat (x_end - x_start + 1) - 1)).
  { unfold ones in E0. destruct (x_end - x_start + 1 <? 0); [discriminate|].
    injection E0 as <-. destruct (Z.to_nat (x_end - x_start + 1)); simpl;
      [reflexivity|]. now rewrite Nat.sub_0_r. }
  repeat match type of H with
         | match ?x with _ => _ end = Some _ =>
             destruct x eqn:?; try discriminate H
         end; injection H as <- <-.
  all: match goal with
       | E : (if ?c then _ else _) = Some (?l, _) |- _ =>
           assert (Hl : tl l = tl w0)
             by (destruct c;
                 repeat match type of E with
                        | match ?x with _ => _ end = Some _ =>
                            destruct x eqn:?; try discriminate E
                        end;
                 injection E as <- <-;
                 [eapply set_item_head; eassumption | reflexivity])
       end.
  all: repeat match goal with
              | E : Py.set_item _ 0 _ = Some _ |- _ =>
                  apply set_item_head in E
              end; congruence.
Qed.

(** ** The engine on the example *)

(** C1.  On the order of the example, with the high-pass width of 223
    km/s, the pixel width is 3 and the high-pass that [compute_rv] applies
    before its iteration loop leaves the flux minus the low-pass filter of
    the wave grid of the order; this is not the flux minus the low-pass
    filter of the flux. *)
Theorem highpass_orders_filters_wave_grid :
  get_velo_scale Collab.nanmedian Example.wave_ord
    (HP_WIDTH Example.params * of_Z 1000)%float = Some 3
  /\ highpass_orders Collab.nanmedian Collab.lowpassfilter
       (HP_WIDTH Example.params * of_Z 1000)%float [Example.flux]
       Example.wavegrid
     = Some [Np.map2 Float.sub Example.flux
               (Collab.lowpassfilter Example.wave_ord 3)]
  /\ highpass_orders Collab.nanmedian Collab.lowpassfilter
       (HP_WIDTH Example.params * of_Z 1000)%float [Example.flux]
       Example.wavegrid
     <> Some [Np.map2 Float.sub Example.flux
                (Collab.lowpassfilter Example.flux 3)].
Proof.
  split; [|split].
  - vm_compute. reflexivity.
  - vm_compute. reflexivity.
  - vm_compute. discriminate.
Qed.

(** The threshold only selects the ratios that enter [stddev_nsig]. *)
Lemma thresholded_ratios (threshold : float) (dv dvrms : list float) :
  filter (fun n => (Float.abs n <? threshold)%float)
    (filter Float.isfinite (Np.map2 Float.div dv dvrms))
  = map (fun line => (fst line / snd line)%float)
      (passing_lines threshold dv dvrms).
Proof.
  unfold passing_lines.
  revert dvrms; induction dv as [|d dv IH]; intros [|e dvrms];
    try reflexivity.
  cbn [Np.map2 combine filter]. unfold passes at 1. cbn [fst snd].
  destruct (Float.isfinite (d / e)) eqn:Ef; cbn [filter andb].
  - destruct (Float.abs (d / e) <? threshold)%float; cbn [map fst snd];
      now rewrite IH.
  - apply IH.
Qed.

(** C2, as the code has it.  In the velocity update of an iteration the
    sigma threshold selects only the ratios [dv / dvrms] from which
    [stddev_nsig] is estimated; the update [rv_mean] and its bulk error
    are the robust mean [odd_ratio_mean] of the shifts and errors of all
    the lines, and [rv_mean] is added to the trial velocity. *)
Theorem velocity_update_threshold_scope :
  forall (estimate_sigma : list float -> float)
         (odd_ratio_mean : list float -> list float -> float * float)
         (params : Params) (dv dvrms : list float) (sys_rv berv : float),
    velocity_update estimate_sigma odd_ratio_mean params dv dvrms sys_rv
      berv
    = (estimate_sigma
         (map (fun line => (fst line / snd line)%float)
            (passing_lines (COMPUTE_LINE_NSIG_THRES params) dv dvrms)),
       fst (odd_ratio_mean dv dvrms),
       snd (odd_ratio_mean dv dvrms),
       map (fun d => (d + sys_rv - berv)%float) dv,
       (sys_rv + fst (odd_ratio_mean dv dvrms))%float).
Proof.
  intros estimate_sigma odd_ratio_mean params shifts errors velocity berv.
  unfold velocity_update. rewrite thresholded_ratios.
  destruct (odd_ratio_mean shifts errors). reflexivity.
Qed.

(** C2, as stated, fails.  Three lines at 100 sigma, or three lines at
    200 sigma, with the threshold of 8 sigma: no line passes the
    threshold in either set, and the velocity update is still the robust
    mean of the three lines, whatever the estimator.  So the two updates
    differ although the same lines (none) pass the threshold: with any
    estimator that returns [v] for three lines at [v] with one error they
    are 100 and 200, as they are with the robust mean that stands for
    [mp.odd_ratio_mean]. *)
Lemma velocity_update_reads_rejected_lines :
  passing_lines (COMPUTE_LINE_NSIG_THRES Example.params) Example.shifts
    Example.shift_errors = []
  /\ passing_lines (COMPUTE_LINE_NSIG_THRES Example.params) Example.shifts'
       Example.shift_errors = []
  /\ (forall (estimate_sigma : list float -> float)
             (odd_ratio_mean : list float -> list float -> float * float)
             (sys_rv berv : float),
        rv_mean_of
          (velocity_update estimate_sigma odd_ratio_mean Example.params
             Example.shifts Example.shift_errors sys_rv berv)
        = fst (odd_ratio_mean Example.shifts Example.shift_errors)
        /\ rv_mean_of
             (velocity_update estimate_sigma odd_ratio_mean Example.params
                Example.shifts' Example.shift_errors sys_rv berv)
           = fst (odd_ratio_mean Example.shifts' Example.shift_errors))
  /\ (forall (estimate_sigma : list float -> float)
             (odd_ratio_mean : list float -> list float -> float * float)
             (sys_rv berv : float),
        (forall v e : float, fst (odd_ratio_mean [v; v; v] [e; e; e]) = v) ->
        rv_mean_of
          (velocity_update estimate_sigma odd_ratio_mean Example.params
             Example.shifts Example.shift_errors sys_rv berv)
        = of_Z 100
        /\ rv_mean_of
             (velocity_update estimate_sigma odd_ratio_mean Example.params
                Example.shifts' Example.shift_errors sys_rv berv)
           = of_Z 200)
  /\ rv_mean_of
       (velocity_update Collab.estimate_sigma Collab.odd_ratio_mean
          Example.params Example.shifts Example.shift_errors zero zero)
     = of_Z 100
  /\ rv_mean_of
       (velocity_update Collab.estimate_sigma Collab.odd_ratio_mean
          Example.params Example.shifts' Example.shift_errors zero zero)
     = of_Z 200.
Proof.
  assert (Hmean :
            forall (estimate_sigma : list float -> float)
                   (odd_ratio_mean :
                      list float -> list float -> float * float)
                   (shifts errors : list float) (velocity berv : float),
              rv_mean_of
                (velocity_update estimate_sigma odd_ratio_mean
                   Example.params shifts errors velocity berv)
              = fst (odd_ratio_mean shifts errors)).
  { intros. unfold velocity_update, rv_mean_of.
    destruct (odd_ratio_mean shifts errors). reflexivity. }
  split; [vm_compute; reflexivity|].
  split; [vm_compute; reflexivity|].
  split; [intros; split; apply Hmean|].
  split.
  - intros estimate_sigma odd_ratio_mean sys_rv berv Hsame.
    rewrite !Hmean. split; apply Hsame.
  - split; vm_compute; reflexivity.
Qed.

(** C3.  The flag is set as soon as the number of iterations reaches the
    maximum deemed good: with a maximum of 8, an exposure that used 8
    iterations leaves [RESET_RV] true, and only 7 or fewer leave it
    false. *)
Theorem needs_reset_at_max_good_iterations :
  (forall (params : Params) (num_to_converge : Z),
     needs_reset params num_to_converge = false
     <-> num_to_converge < COMPUTE_RV_MAX_N_GOOD_ITERS params)
  /\ COMPUTE_RV_MAX_N_GOOD_ITERS Example.params = 8
  /\ needs_reset Example.params 8 = true
  /\ needs_reset Example.params 7 = false.
Proof.
  split; [|repeat split].
  intros params n. unfold needs_reset. rewrite Z.geb_leb.
  destruct (Z.leb_spec (COMPUTE_RV_MAX_N_GOOD_ITERS params) n);
    split; intros; try lia; try discriminate; reflexivity.
Qed.

(** C4.  With the archive of the example (entries at MJD 59000 and 59010,
    a third one not filled) and an exposure at MJD 59000.5, the seed is
    the velocity of the entry at 59010, for which the signed difference
    [mjdate - mjdate_all] is least, while the entry nearest in time is the
    one at 59000. *)
Theorem initial_velocity_least_signed_difference :
  forall (rough_ccf_rv :
            list (list float) -> list (list float) -> list float
            -> list float -> float * float)
         (wavegrid sci_data : list (list float)) (ccf_ewidth : option float),
    initial_velocity rough_ccf_rv Example.params false ccf_ewidth wavegrid
      sci_data Example.table Example.mjdate Example.systemic_all
      Example.mjdate_all
    = Some (of_Z 200, ccf_ewidth)
    /\ argmin (map (fun m => (Example.mjdate - m)%float) Example.mjdate_all)
       = Some 1
    /\ argmin
         (map (fun m => Float.abs (Example.mjdate - m)) Example.mjdate_all)
       = Some 0
    /\ Py.get_item Example.systemic_all 0 = Some (of_Z 100).
Proof.
  intros. repeat split; vm_compute; reflexivity.
Qed.

(** C5.  On the example the first line spans one pixel, fewer than the
    minimum of 3: the first iteration flags it in the keep mask and fits
    it all the same, and the second iteration (index 1) fits it again;
    only from the third iteration on is it skipped.  Its shift in the
    table is the fitted value, not NaN. *)
Theorem flagged_line_fitted_in_second_iteration :
  exists first second third : LineState,
    Example.lines_of_iteration Example.models 0 Example.start = Some first
    /\ mask_keep first = [false; true]
    /\ fit_log first = [(0, 0); (0, 1)]%nat
    /\ Example.lines_of_iteration Example.models 1 first = Some second
    /\ mask_keep second = [false; true]
    /\ fit_log second = [(0, 0); (0, 1); (1, 0); (1, 1)]%nat
    /\ Example.lines_of_iteration Example.models 2 second = Some third
    /\ fit_log third = [(0, 0); (0, 1); (1, 0); (1, 1); (2, 1)]%nat
    /\ map Float.isfinite (dv third) = [true; true].
Proof.
  destruct (Example.lines_of_iteration Example.models 0 Example.start)
    as [first|] eqn:E1; [|vm_compute in E1; discriminate].
  destruct (Example.lines_of_iteration Example.models 1 first)
    as [second|] eqn:E2;
    [|vm_compute in E1; injection E1 as <-; vm_compute in E2; discriminate].
  destruct (Example.lines_of_iteration Example.models 2 second)
    as [third|] eqn:E3;
    [|vm_compute in E1; injection E1 as <-;
      vm_compute in E2; injection E2 as <-;
      vm_compute in E3; discriminate].
  exists first, second, third.
  vm_compute in E1; injection E1 as <-.
  vm_compute in E2; injection E2 as <-.
  vm_compute in E3; injection E3 as <-.
  repeat split; vm_compute; reflexivity.
Qed.

(** C6.  For the second line of the example, whose window of pixels 2 to
    8 extends past both of its boundaries, the weight mask that
    [compute_rv] builds has the overlap of the last pixel in its first
    entry and 1 in its last entry, and the wave grid of the order has
    pixel 3 overwritten by pixel 2; the weights of the document are 1/4
    for the first pixel and 1/2 for the last. *)
Theorem edge_weights_first_entry_and_grid :
  edge_weights Example.wave_ord (Example.q 500275 100) (Example.q 50075 10)
    2 8
  = Some ([Example.q 1 2; one; one; one; one; one; one],
          Py.update Example.wave_ord 3 (of_Z 5002))
  /\ overlap_weights Example.wave_ord (Example.q 500275 100)
       (Example.q 50075 10) 2 8
     = Some [Example.q 1 4; one; one; one; one; one; Example.q 1 2]
  /\ Py.update Example.wave_ord 3 (of_Z 5002) <> Example.wave_ord.
Proof.
  split; [|split].
  - vm_compute. reflexivity.
  - vm_compute. reflexivity.
  - vm_compute. discriminate.
Qed.

(** C8.  After the loop over the lines of the example, [dddv] and
    [dddvrms] are still NaN for every line, and [ddv] and [ddvrms] hold
    the estimate made with the third derivative: they are what [dv] and
    [dvrms] become when the third derivative is put in the place of the
    first, and they do not change when the second derivative of the model
    is set to zero. *)
Theorem third_order_shift_stored_as_second :
  option_map (fun st => (dddv st, dddvrms st))
    (Example.lines_of_iteration Example.models 0 Example.start)
  = Some ([NaN; NaN], [NaN; NaN])
  /\ option_map (fun st => (ddv st, ddvrms st))
       (Example.lines_of_iteration Example.models 0 Example.start)
     = option_map (fun st => (dv st, dvrms st))
         (Example.lines_of_iteration Example.third_as_first 0 Example.start)
  /\ option_map (fun st => (ddv st, ddvrms st))
       (Example.lines_of_iteration Example.models 0 Example.start)
     = option_map (fun st => (ddv st, ddvrms st))
         (Example.lines_of_iteration Example.without_second 0
            Example.start)
  /\ option_map (fun st => map Float.isfinite (ddv st))
       (Example.lines_of_iteration Example.models 0 Example.start)
     = Some [true; true].
Proof. repeat split; vm_compute; reflexivity. Qed.

(* ================================================================== *)
(** * Further properties of the code *)
(* ================================================================== *)

(** ** Arrays and floats *)

Ltac returned H :=
  repeat match type of H with
         | match ?x with _ => _ end = Some _ =>
             destruct x eqn:?; try discriminate H
         end.

Ltac step H :=
  match type of H with
  | match ?x with _ => _ end = Some _ =>
      destruct x eqn:?; try discriminate H
  end.

Lemma nth_error_map2 {A B C} (f : A -> B -> C) (a : list A) (b : list B)
    (i : nat) (z : C) :
  nth_error (Np.map2 f a b) i = Some z ->
  exists x y, nth_error a i = Some x /\ nth_error b i = Some y /\ z = f x y.
Proof.
  revert b i; induction a as [|x a IH]; intros [|y b] [|i] H; simpl in H;
    try discriminate.
  - injection H as <-. exists x, y. auto.
  - apply IH in H. exact H.
Qed.

Lemma map2_length {A B C} (f : A -> B -> C) (a : list A) (b : list B) :
  List.length (Np.map2 f a b) = Nat.min (List.length a) (List.length b).
Proof.
  revert b; induction a as [|x a IH]; intros [|y b]; simpl; try reflexivity.
  now rewrite IH.
Qed.

Lemma map2_app {A B C} (f : A -> B -> C) (a1 a2 : list A) (b1 b2 : list B) :
  List.length b1 = List.length a1 ->
  Np.map2 f (a1 ++ a2) (b1 ++ b2) = Np.map2 f a1 b1 ++ Np.map2 f a2 b2.
Proof.
  revert b1; induction a1 as [|x a1 IH]; intros [|y b1] H; simpl in *;
    try discriminate; try reflexivity.
  rewrite IH by congruence. reflexivity.
Qed.

Lemma Forall_bool_index {A} (P : A -> Prop) (a : list A) (mask : list bool) :
  (forall i x, nth_error a i = Some x -> nth_error mask i = Some true -> P x) ->
  Forall P (Np.bool_index a mask).
Proof.
  revert mask; induction a as [|x a IH]; intros [|b mask] H; simpl;
    try constructor.
  assert (Hrest : Forall P (Np.bool_index a mask)).
  { apply IH. intros i y Hy Hm. exact (H (S i) y Hy Hm). }
  destruct b; [constructor|]; try assumption.
  exact (H 0%nat x eq_refl eq_refl).
Qed.

Lemma bool_index_length {A} (a : list A) (mask : list bool) :
  (List.length mask <= List.length a)%nat ->
  List.length (Np.bool_index a mask)
  = List.length (filter (fun b => b) mask).
Proof.
  revert mask; induction a as [|x a IH]; intros [|b mask] H; simpl in *;
    try reflexivity; try lia.
  destruct b; simpl; rewrite IH by lia; reflexivity.
Qed.

Lemma bool_index_none {A} (a : list A) (mask : list bool) :
  Forall (fun b => b = false) mask -> Np.bool_index a mask = [].
Proof.
  intros H; revert a; induction H as [|b mask -> _ IH]; intros [|x a];
    simpl; auto.
Qed.

Lemma map2_andb_none (m : list bool) (other : list bool) :
  Forall (fun b => b = false) m ->
  Forall (fun b => b = false) (Np.map2 andb m other).
Proof.
  intros H; revert other; induction H as [|b m -> _ IH]; intros [|y other];
    simpl; constructor; auto.
Qed.

Lemma bool_index_same_length {A B} (a : list A) (b : list B)
    (mask : list bool) :
  List.length a = List.length b ->
  List.length (Np.bool_index a mask) = List.length (Np.bool_index b mask).
Proof.
  revert b mask; induction a as [|x a IH]; intros [|y b] [|m mask] H;
    simpl in *; try discriminate; try reflexivity.
  destruct m; simpl; rewrite (IH b mask) by congruence; reflexivity.
Qed.

Lemma Forall_eq_repeat {A} (v : A) (l : list A) :
  Forall (fun x => x = v) l -> l = List.repeat v (List.length l).
Proof. induction 1 as [|x l -> _ IH]; simpl; congruence. Qed.

Lemma set_item_nat {A} (l l' : list A) (k : nat) (v : A) :
  Py.set_item l (Z.of_nat k) v = Some l' -> l' = Py.update l k v.
Proof.
  unfold Py.set_item, Py.norm_index.
  destruct ((0 <=? Z.of_nat k) && (Z.of_nat k <? Z.of_nat (List.length l))).
  - rewrite Nat2Z.id. congruence.
  - replace (Z.of_nat k <? 0) with false by (symmetry; apply Z.ltb_ge; lia).
    discriminate.
Qed.

(** An assignment at a position counted from the start succeeds only
    inside the array. *)
Lemma set_item_in_range {A} (l l' : list A) (k : nat) (v : A) :
  Py.set_item l (Z.of_nat k) v = Some l' -> (k < List.length l)%nat.
Proof.
  unfold Py.set_item, Py.norm_index.
  destruct ((0 <=? Z.of_nat k) && (Z.of_nat k <? Z.of_nat (List.length l)))
    eqn:E.
  - intros _. apply andb_true_iff in E. destruct E as [_ E].
    apply Z.ltb_lt in E. lia.
  - replace (Z.of_nat k <? 0) with false by (symmetry; apply Z.ltb_ge; lia).
    discriminate.
Qed.

Lemma set_item_length {A} (l l' : list A) (i : Z) (v : A) :
  Py.set_item l i v = Some l' -> List.length l' = List.length l.
Proof.
  unfold Py.set_item. destruct (Py.norm_index _ _); [|discriminate].
  intros H. injection H as <-. apply update_length.
Qed.

(** A slice that lies inside the array has [stop - start] entries. *)
Lemma slice_length {A} (a : list A) (start stop : Z) :
  0 <= start -> start <= stop -> stop <= Z.of_nat (List.length a) ->
  List.length (Py.slice a start stop) = Z.to_nat (stop - start).
Proof.
  intros H0 H1 H2. unfold Py.slice, Py.clip.
  replace (start <? 0) with false by (symmetry; apply Z.ltb_ge; lia).
  replace (stop <? 0) with false by (symmetry; apply Z.ltb_ge; lia).
  rewrite !Z.min_l by lia.
  rewrite length_firstn, length_skipn. lia.
Qed.

Lemma nth_error_update_other {A} (l : list A) (k j : nat) (v : A) :
  j <> k -> nth_error (Py.update l k v) j = nth_error l j.
Proof.
  revert k j; induction l as [|x l IH]; intros [|k] [|j] H; simpl;
    try reflexivity; try congruence.
  apply IH. congruence.
Qed.

Lemma nth_error_update_same {A} (l : list A) (k : nat) (v : A) :
  (k < List.length l)%nat -> nth_error (Py.update l k v) k = Some v.
Proof.
  revert k; induction l as [|x l IH]; intros [|k] H; simpl in *;
    try lia; try reflexivity.
  apply IH. lia.
Qed.

Lemma update_flag (mask : list bool) (k j : nat) :
  nth_error mask j = Some false ->
  nth_error (Py.update mask k false) j = Some false.
Proof.
  intros H. destruct (Nat.eq_dec j k) as [-> | Hne].
  - apply nth_error_update_same. apply nth_error_Some. congruence.
  - now rewrite nth_error_update_other.
Qed.

Lemma sub_finite (x y : float) :
  Float.isfinite (x - y) = true ->
  Float.isfinite x = true /\ Float.isfinite y = true.
Proof. destruct x as [a|[]|], y as [b|[]|]; cbn; auto. Qed.

Lemma mul_nan (x : float) : (x * NaN)%float = NaN.
Proof. destruct x; reflexivity. Qed.

Lemma add_nan (x : float) : (x + NaN)%float = NaN.
Proof. destruct x; reflexivity. Qed.

Lemma sum_from_nan (a : list float) : fold_left Float.add a NaN = NaN.
Proof. induction a as [|x a IH]; simpl; [reflexivity|exact IH]. Qed.

Lemma sum_with_nan (a1 a2 : list float) : Np.sum (a1 ++ NaN :: a2) = NaN.
Proof.
  unfold Np.sum. rewrite fold_left_app. cbn [fold_left].
  rewrite add_nan. apply sum_from_nan.
Qed.

Lemma nansum_skips_nan (a1 a2 : list float) :
  nansum (a1 ++ NaN :: a2) = nansum (a1 ++ a2).
Proof. unfold nansum. rewrite !filter_app. reflexivity. Qed.

Lemma ltb_lt (a b : Q) : (Fin a <? Fin b)%float = true <-> (a < b)%Q.
Proof.
  cbn [Float.ltb]. rewrite negb_true_iff. split.
  - intros H. apply Qnot_le_lt. intros Hle.
    apply Qle_bool_iff in Hle. congruence.
  - intros H. destruct (Qle_bool b a) eqn:E; [|reflexivity].
    apply Qle_bool_iff in E. apply Qle_not_lt in E. contradiction.
Qed.

Lemma ltb_trans (x y z : float) :
  (x <? y)%float = true -> (y <? z)%float = true -> (x <? z)%float = true.
Proof.
  destruct x as [a|[]|], y as [b|[]|], z as [c|[]|];
    cbn [Float.ltb andb negb]; intros H1 H2;
    try discriminate; try reflexivity; try assumption.
  apply ltb_lt in H1, H2. apply ltb_lt. eapply Qlt_trans; eassumption.
Qed.

(** ** get_velo_scale *)

(** X1.  Whenever [get_velo_scale] returns, the width it returns is odd,
    and the wave vector had at least two samples ([np.gradient] raises on
    fewer). *)
Theorem get_velo_scale_odd :
  forall (nanmedian : list float -> float) (wave_vector : list float)
         (hp_width : float) (width : Z),
    get_velo_scale nanmedian wave_vector hp_width = Some width ->
    width mod 2 = 1 /\ (2 <= List.length wave_vector)%nat.
Proof.
  intros nanmedian wave_vector hp_width width H.
  unfold get_velo_scale in H.
  destruct (gradient wave_vector) as [dwave|] eqn:Eg; [|discriminate].
  destruct (Float.to_int _) as [w|]; [|discriminate].
  injection H as <-. split.
  - destruct (Z.eqb_spec (w mod 2) 0) as [E|E].
    + rewrite Z.add_mod, E by lia. reflexivity.
    + pose proof (Z.mod_pos_bound w 2). lia.
  - unfold gradient in Eg.
    destruct wave_vector as [|x0 [|x1 rest]]; try discriminate.
    simpl. lia.
Qed.

(** The order of the example and a width of 223 km/s. *)
Lemma get_velo_scale_odd_example :
  get_velo_scale Collab.nanmedian Example.wave_ord (of_Z 223000) = Some 3
  /\ 3 mod 2 = 1 /\ (2 <= List.length Example.wave_ord)%nat.
Proof.
  assert (H : get_velo_scale Collab.nanmedian Example.wave_ord (of_Z 223000)
              = Some 3) by (vm_compute; reflexivity).
  split; [exact H|].
  exact (get_velo_scale_odd Collab.nanmedian Example.wave_ord (of_Z 223000)
           3 H).
Defined.

(** ** get_scaling_ratio *)

(** X2.  When no pixel is finite in both spectra, [get_scaling_ratio]
    returns NaN (given that the square root of NaN is NaN): the first
    ratio is 0/0 and the five refinements keep it. *)
Theorem get_scaling_ratio_no_common_pixel :
  forall (sqrt : float -> float) (estimate_sigma : list float -> float)
         (spectrum1 spectrum2 : list float),
    sqrt NaN = NaN ->
    Forall (fun b => b = false) (finite_both spectrum1 spectrum2) ->
    get_scaling_ratio sqrt estimate_sigma spectrum1 spectrum2 = NaN.
Proof.
  intros sqrt estimate_sigma spectrum1 spectrum2 Hsqrt Hnone.
  unfold get_scaling_ratio.
  rewrite !bool_index_none
    by (apply map2_andb_none; apply map2_andb_none; exact Hnone).
  change (nansum [] / nansum [])%float with NaN. rewrite Hsqrt.
  generalize (seq 0 5). intros l. induction l as [|i l IH]; simpl;
    [reflexivity|exact IH].
Qed.

Lemma get_scaling_ratio_no_common_pixel_example :
  Collab.sqrt NaN = NaN
  /\ Forall (fun b => b = false) (finite_both [NaN; of_Z 1] [of_Z 2; NaN])
  /\ get_scaling_ratio Collab.sqrt Collab.estimate_sigma [NaN; of_Z 1]
       [of_Z 2; NaN] = NaN.
Proof.
  assert (H1 : Collab.sqrt NaN = NaN) by reflexivity.
  assert (H2 : Forall (fun b => b = false)
                 (finite_both [NaN; of_Z 1] [of_Z 2; NaN]))
    by (repeat constructor).
  split; [exact H1|]. split; [exact H2|].
  exact (get_scaling_ratio_no_common_pixel Collab.sqrt Collab.estimate_sigma
           [NaN; of_Z 1] [of_Z 2; NaN] H1 H2).
Defined.

(** ** estimate_noise_model *)

(** X3.  The statement [sigma[sigma == 0] = np.nan] sits inside the loop
    over the boxes, where it also hits the entries not yet computed; the
    array the loop leaves is nevertheless the one that marking the zeros
    once after the loop would give: for each box the sigma of the
    residuals between [max(0, index - npoints)] and
    [min(ncols, index + npoints)], with a zero replaced by NaN. *)
Theorem zero_sigma_marked_in_the_loop :
  forall (estimate_sigma : list float -> float) (npoints ncols : Z)
         (residuals : list float) (indices : list Z),
    box_sigmas estimate_sigma npoints ncols residuals indices
    = zero_to_nan
        (map (fun index =>
                estimate_sigma
                  (Py.slice residuals (Z.max 0 (index - npoints))
                     (Z.min ncols (index + npoints))))
           indices).
Proof.
  intros. rewrite box_sigmas_windows. unfold zero_to_nan.
  rewrite map_map. reflexivity.
Qed.

Lemma count_le_length (mask : list bool) :
  Np.count mask <= Z.of_nat (List.length mask).
Proof.
  unfold Np.count. apply inj_le. apply filter_length_le.
Qed.

Lemma arange_step_few (stop step : Z) :
  0 < step -> stop <= 2 * step ->
  exists indices,
    arange_step stop step = Some indices /\ (List.length indices <= 2)%nat.
Proof.
  intros Hs Hle. unfold arange_step.
  destruct (Z.eqb_spec step 0); [lia|].
  destruct ((step <? 0) || (stop <=? 0)) eqn:E.
  - exists []. split; [reflexivity|simpl; lia].
  - eexists. split; [reflexivity|].
    rewrite length_map, length_seq.
    assert ((stop + step - 1) / step < 3)
      by (apply Z.div_lt_upper_bound; lia).
    lia.
Qed.

Lemma noise_order_few_pixels (estimate_sigma : list float -> float)
    (iuv_spline :
       list float -> list float -> option Z -> option Z -> option Spline)
    (npoints ncols : Z) (spectrum_ord model_ord : list float) :
  0 < npoints -> ncols <= 2 * npoints ->
  List.length spectrum_ord = Z.to_nat ncols ->
  List.length model_ord = Z.to_nat ncols ->
  noise_order estimate_sigma iuv_spline npoints ncols spectrum_ord model_ord
  = Some (Np.full (Z.to_nat ncols) NaN).
Proof.
  intros Hs Hle Hws Hwm. apply noise_order_unknown; [lia|assumption..|].
  unfold valid_windows.
  destruct (arange_step_few ncols npoints Hs Hle) as (indices & -> & Hl).
  match goal with
  | |- Np.count ?m < 3 => pose proof (count_le_length m) as Hc
  end.
  rewrite length_map in Hc. lia.
Qed.

(** X4.  When the orders have at most [2 * npoints] pixels there are at
    most two boxes, never the three that the spline of the noise needs:
    on a spectrum and a model of one shape (as many orders, and in every
    order of both as many pixels as [model.shape[1]]),
    [estimate_noise_model] returns NaN for every pixel of every order,
    whatever the values of the spectrum and of the model. *)
Theorem estimate_noise_model_few_pixels :
  forall (estimate_sigma : list float -> float)
         (iuv_spline :
            list float -> list float -> option Z -> option Z
            -> option Spline)
         (spectrum model : list (list float)) (npoints : Z),
    0 < npoints ->
    shape1 model <= 2 * npoints ->
    one_shape spectrum model ->
    estimate_noise_model estimate_sigma iuv_spline spectrum model npoints
    = Some (map (fun _ => Np.full (Z.to_nat (shape1 model)) NaN) spectrum).
Proof.
  intros estimate_sigma iuv_spline spectrum model npoints Hs Hle.
  unfold estimate_noise_model, one_shape. generalize (shape1 model) Hle.
  intros ncols Hn Hshape. clear Hle.
  induction Hshape as [|s m spectrum model [Hws Hwm] Hshape IH];
    [reflexivity|].
  cbn [noise_orders map].
  rewrite (noise_order_few_pixels _ _ _ _ _ _ Hs Hn Hws Hwm).
  rewrite IH. reflexivity.
Qed.

(** The order of ten pixels with the default of 100 points. *)
Lemma estimate_noise_model_few_pixels_example :
  0 < 100
  /\ shape1 (model Example.models) <= 2 * 100
  /\ one_shape [Example.flux] (model Example.models)
  /\ estimate_noise_model Collab.estimate_sigma Collab.iuv_spline
       [Example.flux] (model Example.models) 100
     = Some [Np.full 10 NaN].
Proof.
  assert (H1 : 0 < 100) by lia.
  assert (H2 : shape1 (model Example.models) <= 2 * 100)
    by (vm_compute; discriminate).
  assert (H3 : one_shape [Example.flux] (model Example.models))
    by (repeat constructor).
  split; [exact H1|]. split; [exact H2|]. split; [exact H3|].
  exact (estimate_noise_model_few_pixels Collab.estimate_sigma
           Collab.iuv_spline [Example.flux] (model Example.models) 100
           H1 H2 H3).
Defined.

(** ** bouchy_equation_line *)

(** X5.  A pixel where the derivative of the model is NaN does not count
    in the value that [bouchy_equation_line] returns (both sums skip it),
    but it makes the error that is returned with it [1 / sqrt(NaN)]: the
    sum under the square root is a plain [np.sum]. *)
Theorem bouchy_equation_line_nan_pixel :
  forall (sqrt : float -> float) (d1 d2 diff1 diff2 : list float)
         (x mean_rms : float),
    List.length diff1 = List.length d1 ->
    fst (bouchy_equation_line sqrt (d1 ++ NaN :: d2) (diff1 ++ x :: diff2)
           mean_rms)
    = fst (bouchy_equation_line sqrt (d1 ++ d2) (diff1 ++ diff2) mean_rms)
    /\ snd (bouchy_equation_line sqrt (d1 ++ NaN :: d2)
              (diff1 ++ x :: diff2) mean_rms)
       = (one / sqrt NaN)%float.
Proof.
  intros sqrt d1 d2 diff1 diff2 x mean_rms Hlen.
  unfold bouchy_equation_line; cbn [fst snd]. split.
  - rewrite !map2_app by congruence. cbn [Np.map2].
    rewrite mul_nan, nansum_skips_nan.
    rewrite !map_app. cbn [map].
    change (Float.sqr NaN) with NaN. rewrite nansum_skips_nan.
    reflexivity.
  - rewrite !map_app. cbn [map].
    replace (one / Float.sqr (mean_rms / NaN))%float with NaN
      by (destruct mean_rms; reflexivity).
    rewrite sum_with_nan. reflexivity.
Qed.

Lemma bouchy_equation_line_nan_pixel_example :
  List.length [of_Z 3] = List.length [of_Z 2]
  /\ fst (bouchy_equation_line Collab.sqrt ([of_Z 2] ++ NaN :: [of_Z 1])
            ([of_Z 3] ++ of_Z 7 :: [of_Z 5]) one)
     = fst (bouchy_equation_line Collab.sqrt ([of_Z 2] ++ [of_Z 1])
              ([of_Z 3] ++ [of_Z 5]) one)
  /\ snd (bouchy_equation_line Collab.sqrt ([of_Z 2] ++ NaN :: [of_Z 1])
            ([of_Z 3] ++ of_Z 7 :: [of_Z 5]) one)
     = (one / Collab.sqrt NaN)%float.
Proof.
  split; [reflexivity|].
  exact (bouchy_equation_line_nan_pixel Collab.sqrt [of_Z 2] [of_Z 1]
           [of_Z 3] [of_Z 5] (of_Z 7) one eq_refl).
Defined.

(** ** make_ref_dict *)

Section TableInvariants.

Variable iuv_spline :
  list float -> list float -> option Z -> option Z -> option Spline.

(** An order that [order_lines] handled has a pixel, and either no
    surviving mask entry or a spline. *)
Lemma order_lines_returned (mask_table : MaskTable) (order_num : Z)
    (wave_ord : list float) (v : RefVectors) :
  List.length (w_mask mask_table) = List.length (ll_mask_s mask_table) ->
  order_lines iuv_spline mask_table order_num wave_ord = Some v ->
  wave_ord <> []
  /\ (surviving mask_table wave_ord = []
      \/ iuv_spline wave_ord (Np.arange (List.length wave_ord)) None None
         <> None).
Proof.
  intros Hlen H. unfold order_lines, surviving in *.
  destruct wave_ord as [|x rest]; [discriminate|].
  split; [discriminate|].
  cbn [Np.min Np.max] in *.
  set (lo := fold_left Np.min2 rest x) in *.
  set (hi := fold_left Np.max2 rest x) in *.
  rewrite good_mask_map in H.
  rewrite (count_map_combine
             (fun l => Float.gtb l lo && Float.ltb l hi) _ _ Hlen) in H.
  change (fun e : float * float =>
            Float.gtb (fst e) lo && Float.ltb (fst e) hi)
    with (strictly_inside lo hi) in H.
  destruct (filter (strictly_inside lo hi)
              (combine (ll_mask_s mask_table) (w_mask mask_table)))
    as [|e entries]; [left; reflexivity|right].
  rewrite (proj2 (Z.gtb_lt _ _)) in H by (cbn [List.length]; lia).
  destruct (Np.repeat _ _); [|discriminate].
  destruct (iuv_spline (x :: rest) _ None None); [discriminate|discriminate].
Qed.

Lemma order_loop_returned (mask_table : MaskTable)
    (wavegrid : list (list float)) :
  List.length (w_mask mask_table) = List.length (ll_mask_s mask_table) ->
  forall order_num acc v,
    order_loop iuv_spline mask_table order_num wavegrid acc = Some v ->
    forall wave_ord, In wave_ord wavegrid ->
      wave_ord <> []
      /\ (surviving mask_table wave_ord = []
          \/ iuv_spline wave_ord (Np.arange (List.length wave_ord)) None
               None <> None).
Proof.
  intros Hlen. induction wavegrid as [|w rest IH];
    intros order_num acc v H wave_ord Hin; [destruct Hin|].
  cbn [order_loop] in H.
  destruct (order_lines iuv_spline mask_table order_num w) as [l|] eqn:E;
    [|discriminate].
  destruct Hin as [<- | Hin].
  - exact (order_lines_returned _ _ _ _ Hlen E).
  - exact (IH _ _ _ H wave_ord Hin).
Qed.

(** The lines of a table that [make_ref_dict] built. *)
Lemma built_table_lines (loaded rd : RefDict) (wavegrid : list (list float))
    (mask_table : MaskTable) :
  List.length (w_mask mask_table) = List.length (ll_mask_s mask_table) ->
  make_ref_dict iuv_spline false loaded wavegrid mask_table = Some rd ->
  table_lines rd = lines_from mask_table 0 wavegrid.
Proof.
  intros Hlen H. unfold make_ref_dict in H.
  destruct (order_loop iuv_spline mask_table 0 wavegrid empty_vectors)
    as [v|] eqn:E; [|discriminate].
  destruct (order_loop_lines iuv_spline mask_table wavegrid Hlen
              (order_loop_returned _ _ Hlen _ _ _ E) 0 empty_vectors)
    as (v' & Hv' & _ & Hlines).
  { repeat split. }
  rewrite E in Hv'. injection Hv' as <-.
  injection H as <-. exact Hlines.
Qed.

Lemma In_consecutive_pairs (order_num : Z) (entries : list (float * float))
    (line : ReferenceLine) :
  In line (consecutive_pairs order_num entries) ->
  exists c1 w1 c2 w2,
    line = (order_num, c1, c2, w1)
    /\ In (c1, w1) entries /\ In (c2, w2) entries.
Proof.
  induction entries as [|[c1 w1] [|[c2 w2] rest] IH];
    [intros [] | intros [] |].
  change (consecutive_pairs order_num ((c1, w1) :: (c2, w2) :: rest))
    with ((order_num, c1, c2, w1)
          :: consecutive_pairs order_num ((c2, w2) :: rest)).
  intros [<- | Hin].
  - exists c1, w1, c2, w2. repeat split; simpl; auto.
  - destruct (IH Hin) as (a & b & c & d & -> & H1 & H2).
    exists a, b, c, d. repeat split; right; assumption.
Qed.

Lemma lines_from_in_range (mask_table : MaskTable) :
  forall (rest before : list (list float)) (line : ReferenceLine),
    In line (lines_from mask_table (Z.of_nat (List.length before)) rest) ->
    line_in_range (before ++ rest) line.
Proof.
  induction rest as [|wave_ord rest IH]; intros before line Hin;
    [destruct Hin|].
  cbn [lines_from] in Hin. apply in_app_or in Hin.
  destruct Hin as [Hin | Hin].
  - apply In_consecutive_pairs in Hin.
    destruct Hin as (c1 & w1 & c2 & w2 & -> & H1 & H2).
    unfold surviving in H1, H2.
    destruct (Np.min wave_ord) as [lo|] eqn:Elo; [|destruct H1].
    destruct (Np.max wave_ord) as [hi|] eqn:Ehi; [|destruct H1].
    apply filter_In in H1. apply filter_In in H2.
    destruct H1 as [_ H1], H2 as [_ H2].
    unfold strictly_inside, Float.gtb in H1, H2. cbn [fst] in H1, H2.
    apply andb_prop in H1. apply andb_prop in H2.
    unfold line_in_range. split; [lia|].
    exists wave_ord, lo, hi. rewrite Nat2Z.id.
    rewrite nth_error_app2 by lia. rewrite Nat.sub_diag.
    repeat split; tauto.
  - replace (before ++ wave_ord :: rest)
      with ((before ++ [wave_ord]) ++ rest)
      by (rewrite <- app_assoc; reflexivity).
    apply IH.
    replace (Z.of_nat (List.length (before ++ [wave_ord])))
      with (Z.of_nat (List.length before) + 1)
      by (rewrite length_app; simpl; lia).
    exact Hin.
Qed.

(** X6.  Every line of a table that [make_ref_dict] builds belongs to an
    order of the wave grid and starts and ends strictly between the least
    and the greatest wavelength of that order. *)
Theorem make_ref_dict_lines_in_range :
  forall (loaded rd : RefDict) (wavegrid : list (list float))
         (mask_table : MaskTable),
    List.length (w_mask mask_table) = List.length (ll_mask_s mask_table) ->
    make_ref_dict iuv_spline false loaded wavegrid mask_table = Some rd ->
    Forall (line_in_range wavegrid) (table_lines rd).
Proof.
  intros loaded rd wavegrid mask_table Hlen H.
  rewrite (built_table_lines _ _ _ _ Hlen H).
  apply Forall_forall. intros line Hin.
  exact (lines_from_in_range mask_table wavegrid [] line Hin).
Qed.

Lemma ascending_below_rest (centres weights : list float) :
  ascending centres = true -> below_rest (combine centres weights).
Proof.
  revert weights; induction centres as [|c centres IH]; intros [|w weights] H;
    simpl; auto.
  assert (Hrest : ascending centres = true).
  { destruct centres; [reflexivity|]. cbn [ascending] in H.
    apply andb_prop in H. tauto. }
  specialize (IH weights Hrest). split; [|exact IH].
  intros e' Hin.
  destruct centres as [|c' centres]; [destruct weights; destruct Hin|].
  destruct weights as [|w' weights]; [destruct Hin|].
  cbn [ascending] in H. apply andb_prop in H. destruct H as [Hc _].
  cbn [combine] in Hin, IH. destruct Hin as [<- | Hin]; [exact Hc|].
  cbn [fst]. eapply ltb_trans; [exact Hc|].
  destruct IH as [IH _]. exact (IH e' Hin).
Qed.

Lemma below_rest_filter (f : float * float -> bool)
    (entries : list (float * float)) :
  below_rest entries -> below_rest (filter f entries).
Proof.
  induction entries as [|e rest IH]; intros H; simpl; auto.
  destruct H as [He Hrest]. destruct (f e); simpl; auto.
  split; [|auto]. intros e' Hin. apply filter_In in Hin. apply He. tauto.
Qed.

Lemma consecutive_pairs_ascending (order_num : Z)
    (entries : list (float * float)) (line : ReferenceLine) :
  below_rest entries ->
  In line (consecutive_pairs order_num entries) ->
  let '(_, wave_start, wave_end, _) := line in
  (wave_start <? wave_end)%float = true.
Proof.
  induction entries as [|[c1 w1] [|[c2 w2] rest] IH];
    [intros _ [] | intros _ [] |].
  change (consecutive_pairs order_num ((c1, w1) :: (c2, w2) :: rest))
    with ((order_num, c1, c2, w1)
          :: consecutive_pairs order_num ((c2, w2) :: rest)).
  intros [H1 H2] [<- | Hin].
  - exact (H1 (c2, w2) (or_introl eq_refl)).
  - exact (IH H2 Hin).
Qed.

(** X7.  When the mask is sorted by increasing wavelength, every line of
    the table that [make_ref_dict] builds starts below its end. *)
Theorem make_ref_dict_start_below_end :
  forall (loaded rd : RefDict) (wavegrid : list (list float))
         (mask_table : MaskTable),
    List.length (w_mask mask_table) = List.length (ll_mask_s mask_table) ->
    ascending (ll_mask_s mask_table) = true ->
    make_ref_dict iuv_spline false loaded wavegrid mask_table = Some rd ->
    Forall (fun line : ReferenceLine =>
              let '(_, wave_start, wave_end, _) := line in
              (wave_start <? wave_end)%float = true)
      (table_lines rd).
Proof.
  intros loaded rd wavegrid mask_table Hlen Hasc H.
  rewrite (built_table_lines _ _ _ _ Hlen H). clear H.
  apply Forall_forall. generalize 0.
  induction wavegrid as [|wave_ord rest IH]; intros order_num line Hin;
    [destruct Hin|].
  cbn [lines_from] in Hin. apply in_app_or in Hin.
  destruct Hin as [Hin | Hin]; [|exact (IH _ _ Hin)].
  refine (consecutive_pairs_ascending order_num _ line _ Hin).
  unfold surviving.
  destruct (Np.min wave_ord); [|exact I].
  destruct (Np.max wave_ord); [|exact I].
  apply below_rest_filter. now apply ascending_below_rest.
Qed.

End TableInvariants.

(** The table of the example, built from its mask. *)
Lemma make_ref_dict_lines_in_range_example :
  make_ref_dict Collab.iuv_spline false Example.table Example.wavegrid
    Example.mask_table = Some Example.table
  /\ Forall (line_in_range Example.wavegrid) (table_lines Example.table).
Proof.
  assert (H : make_ref_dict Collab.iuv_spline false Example.table
                Example.wavegrid Example.mask_table = Some Example.table)
    by (vm_compute; reflexivity).
  split; [exact H|].
  exact (make_ref_dict_lines_in_range Collab.iuv_spline Example.table
           Example.table Example.wavegrid Example.mask_table eq_refl H).
Defined.

Lemma make_ref_dict_start_below_end_example :
  ascending (ll_mask_s Example.mask_table) = true
  /\ Forall (fun line : ReferenceLine =>
               let '(_, wave_start, wave_end, _) := line in
               (wave_start <? wave_end)%float = true)
       (table_lines Example.table).
Proof.
  assert (Ha : ascending (ll_mask_s Example.mask_table) = true)
    by (vm_compute; reflexivity).
  assert (H : make_ref_dict Collab.iuv_spline false Example.table
                Example.wavegrid Example.mask_table = Some Example.table)
    by (vm_compute; reflexivity).
  split; [exact Ha|].
  exact (make_ref_dict_start_below_end Collab.iuv_spline Example.table
           Example.table Example.wavegrid Example.mask_table eq_refl Ha H).
Defined.

(** ** spline_template *)

Lemma gradient_interior_length (a : list float) :
  List.length (gradient_interior a) = (List.length a - 2)%nat.
Proof.
  assert (H : forall n (l : list float), (List.length l <= n)%nat ->
            List.length (gradient_interior l) = (List.length l - 2)%nat).
  { induction n as [|n IH]; intros [|a0 [|a1 [|a2 l]]] Hl;
      try reflexivity; cbn [List.length] in Hl; try lia.
    change (gradient_interior (a0 :: a1 :: a2 :: l))
      with (((a2 - a0) / of_Z 2)%float
            :: gradient_interior (a1 :: a2 :: l)).
    cbn [List.length]. rewrite (IH (a1 :: a2 :: l)) by (cbn; lia).
    cbn [List.length]. lia. }
  exact (H (List.length a) a (le_n _)).
Qed.

Lemma gradient_length (a g : list float) :
  gradient a = Some g -> List.length g = List.length a.
Proof.
  unfold gradient. pose proof (gradient_interior_length a) as Hgi.
  set (gi := gradient_interior a) in *. clearbody gi.
  destruct a as [|x0 [|x1 rest]]; try discriminate.
  destruct (rev (x0 :: x1 :: rest)) as [|xn [|xm r]]; try discriminate.
  intros H. injection H as <-.
  cbn [List.length] in *. rewrite length_app. cbn [List.length]. lia.
Qed.

Section TemplateProperties.

Variable log : float -> float.
Variable nanmedian : list float -> float.
Variable doppler_shift : list float -> float -> list float.
Variable lowpassfilter : list float -> Z -> list float.

(** X8.  The points through which [spline_template] draws its splines
    are finite and aligned: the flux as loaded, the high-passed flux and
    its three derivatives hold finite values only, and these five vectors
    and the mask have as many entries as the shifted wave grid (given a
    template with one flux per wavelength and a Doppler shift that keeps
    the number of samples). *)
Theorem template_points_finite_and_aligned :
  forall (hp_width : float) (twave flux : list float) (systemic_vel : float)
         (points : TemplatePoints),
    List.length flux = List.length twave ->
    (forall wave velocity,
       List.length (doppler_shift wave velocity) = List.length wave) ->
    template_points log nanmedian doppler_shift lowpassfilter hp_width
      twave flux systemic_vel = Some points ->
    Forall (fun x => Float.isfinite x = true) (t_flux0 points)
    /\ Forall (fun x => Float.isfinite x = true) (t_flux points)
    /\ Forall (fun x => Float.isfinite x = true) (t_dflux points)
    /\ Forall (fun x => Float.isfinite x = true) (t_ddflux points)
    /\ Forall (fun x => Float.isfinite x = true) (t_dddflux points)
    /\ List.length (t_flux0 points) = List.length (t_wave points)
    /\ List.length (t_flux points) = List.length (t_wave points)
    /\ List.length (t_dflux points) = List.length (t_wave points)
    /\ List.length (t_ddflux points) = List.length (t_wave points)
    /\ List.length (t_dddflux points) = List.length (t_wave points)
    /\ List.length (t_mask points) = List.length (t_wave points).
Proof.
  intros hp_width twave flux systemic_vel points Hlen Hshift H.
  unfold template_points in H. returned H. injection H as <-.
  cbn [t_wave t_flux0 t_flux t_dflux t_ddflux t_dddflux t_mask].
  match goal with
  | |- context [Np.bool_index flux ?v] => set (valid := v)
  end.
  set (tflux := Np.map2 Float.sub flux (lowpassfilter flux z)) in *.
  assert (Hvalid : forall i, nth_error valid i = Some true ->
            nth_error (map Float.isfinite tflux) i = Some true
            /\ nth_error (map Float.isfinite l0) i = Some true
            /\ nth_error (map Float.isfinite l1) i = Some true
            /\ nth_error (map Float.isfinite l2) i = Some true).
  { intros i Hi. unfold valid in Hi.
    apply nth_error_map2 in Hi. destruct Hi as (a & b & Ha & Hb & Hab).
    apply nth_error_map2 in Ha. destruct Ha as (a1 & a2 & Ha1 & Ha2 & ->).
    apply nth_error_map2 in Hb. destruct Hb as (b1 & b2 & Hb1 & Hb2 & ->).
    destruct a1, a2, b1, b2; try discriminate. auto. }
  assert (Hfin : forall (a : list float) i x,
            nth_error a i = Some x ->
            nth_error (map Float.isfinite a) i = Some true ->
            Float.isfinite x = true).
  { intros a i x Hx Hm. rewrite nth_error_map, Hx in Hm. cbn in Hm.
    congruence. }
  assert (Hvl : (List.length valid <= List.length tflux)%nat
                /\ (List.length valid <= List.length l0)%nat
                /\ (List.length valid <= List.length l1)%nat
                /\ (List.length valid <= List.length l2)%nat).
  { unfold valid. rewrite !map2_length, !length_map. lia. }
  assert (Htl : (List.length tflux <= List.length flux)%nat)
    by (unfold tflux; rewrite map2_length; lia).
  split; [|split; [|split; [|split; [|split]]]].
  - apply Forall_bool_index. intros i x Hx Hi.
    destruct (Hvalid i Hi) as (Ht & _).
    rewrite nth_error_map in Ht.
    destruct (nth_error tflux i) as [t|] eqn:Et; [|discriminate].
    unfold tflux in Et. apply nth_error_map2 in Et.
    destruct Et as (f & lp & Hf & _ & ->). cbn in Ht.
    assert (f = x) by congruence. subst f.
    injection Ht as Ht. exact (proj1 (sub_finite _ _ Ht)).
  - apply Forall_bool_index. intros i x Hx Hi.
    exact (Hfin _ _ _ Hx (proj1 (Hvalid i Hi))).
  - apply Forall_bool_index. intros i x Hx Hi.
    exact (Hfin _ _ _ Hx (proj1 (proj2 (Hvalid i Hi)))).
  - apply Forall_bool_index. intros i x Hx Hi.
    exact (Hfin _ _ _ Hx (proj1 (proj2 (proj2 (Hvalid i Hi))))).
  - apply Forall_bool_index. intros i x Hx Hi.
    exact (Hfin _ _ _ Hx (proj2 (proj2 (proj2 (Hvalid i Hi))))).
  - rewrite Hshift, !bool_index_length; rewrite ?length_map; lia.
Qed.

(** X9.  The mask of valid points that [spline_template] hands to its
    last spline is 1 everywhere: it is [isfinite(tflux)] read at the
    points where [tflux] and its derivatives are finite. *)
Theorem template_points_mask_all_ones :
  forall (hp_width : float) (twave flux : list float) (systemic_vel : float)
         (points : TemplatePoints),
    template_points log nanmedian doppler_shift lowpassfilter hp_width
      twave flux systemic_vel = Some points ->
    t_mask points = List.repeat one (List.length (t_mask points)).
Proof.
  intros hp_width twave flux systemic_vel points H.
  unfold template_points in H. returned H. injection H as <-.
  cbn [t_mask]. apply Forall_eq_repeat. apply Forall_bool_index.
  intros i x Hx Hi.
  apply nth_error_map2 in Hi. destruct Hi as (a & b & Ha & _ & Hab).
  apply nth_error_map2 in Ha. destruct Ha as (a1 & a2 & Ha1 & _ & ->).
  destruct a1; [|destruct a2; discriminate].
  rewrite nth_error_map in Hx, Ha1.
  destruct (nth_error _ i) as [t|]; [|discriminate].
  cbn in Hx, Ha1. injection Ha1 as Ha1. rewrite Ha1 in Hx. congruence.
Qed.

End TemplateProperties.

(** A template of twelve samples with one flux missing. *)
Lemma template_points_finite_and_aligned_example :
  exists points,
    template_points Cases.log Collab.nanmedian Collab.doppler_shift
      Collab.lowpassfilter (of_Z 223000) Cases.twave Cases.tflux (of_Z 100)
    = Some points
    /\ List.length (t_wave points) = 5%nat
    /\ Forall (fun x => Float.isfinite x = true) (t_flux0 points)
    /\ Forall (fun x => Float.isfinite x = true) (t_flux points)
    /\ Forall (fun x => Float.isfinite x = true) (t_dflux points)
    /\ Forall (fun x => Float.isfinite x = true) (t_ddflux points)
    /\ Forall (fun x => Float.isfinite x = true) (t_dddflux points)
    /\ List.length (t_flux0 points) = List.length (t_wave points)
    /\ List.length (t_flux points) = List.length (t_wave points)
    /\ List.length (t_dflux points) = List.length (t_wave points)
    /\ List.length (t_ddflux points) = List.length (t_wave points)
    /\ List.length (t_dddflux points) = List.length (t_wave points)
    /\ List.length (t_mask points) = List.length (t_wave points).
Proof.
  destruct (template_points Cases.log Collab.nanmedian Collab.doppler_shift
              Collab.lowpassfilter (of_Z 223000) Cases.twave Cases.tflux
              (of_Z 100)) as [points|] eqn:E.
  - exists points. split; [reflexivity|]. split.
    + vm_compute in E. injection E as <-. reflexivity.
    + apply (template_points_finite_and_aligned Cases.log Collab.nanmedian
               Collab.doppler_shift Collab.lowpassfilter (of_Z 223000)
               Cases.twave Cases.tflux (of_Z 100) points eq_refl).
      * intros wave velocity. apply length_map.
      * exact E.
  - vm_compute in E. discriminate E.
Defined.

Lemma template_points_mask_all_ones_example :
  exists points,
    template_points Cases.log Collab.nanmedian Collab.doppler_shift
      Collab.lowpassfilter (of_Z 223000) Cases.twave Cases.tflux (of_Z 100)
    = Some points
    /\ List.length (t_mask points) = 5%nat
    /\ t_mask points = List.repeat one (List.length (t_mask points)).
Proof.
  destruct (template_points Cases.log Collab.nanmedian Collab.doppler_shift
              Collab.lowpassfilter (of_Z 223000) Cases.twave Cases.tflux
              (of_Z 100)) as [points|] eqn:E.
  - exists points. split; [reflexivity|]. split.
    + vm_compute in E. injection E as <-. reflexivity.
    + exact (template_points_mask_all_ones Cases.log Collab.nanmedian
               Collab.doppler_shift Collab.lowpassfilter (of_Z 223000)
               Cases.twave Cases.tflux (of_Z 100) points E).
  - vm_compute in E. discriminate E.
Defined.

(** ** rough_ccf_rv *)

Lemma isfinite_rows_select (sci_data : list (list float)) :
  selects_finite sci_data (map (map Float.isfinite) sci_data).
Proof.
  intros k m Hm. rewrite nth_error_map in Hm.
  destruct (nth_error sci_data k) as [s|]; [|discriminate].
  injection Hm as <-. exists s. split; [reflexivity|].
  intros i Hi. rewrite nth_error_map in Hi.
  destruct (nth_error s i) as [x|]; [|discriminate].
  injection Hi as Hi. eauto.
Qed.

Lemma and_isfinite_rows_select (sci_data : list (list float))
    (mask : list (list bool)) :
  selects_finite sci_data
    (Np.map2 (Np.map2 andb) mask (map (map Float.isfinite) sci_data)).
Proof.
  intros k m Hm. apply nth_error_map2 in Hm.
  destruct Hm as (m0 & f & _ & Hf & ->).
  destruct (isfinite_rows_select sci_data k f Hf) as (s & Hs & Hfin).
  exists s. split; [assumption|]. intros i Hi.
  apply nth_error_map2 in Hi. destruct Hi as (a & b & _ & Hb & Hab).
  apply Hfin. destruct a, b; try discriminate. exact Hb.
Qed.

Lemma ccf_mask_selects (wavegrid sci_data : list (list float)) :
  selects_finite sci_data (ccf_mask wavegrid sci_data).
Proof.
  unfold ccf_mask. destruct (1 <? List.length wavegrid)%nat.
  - apply and_isfinite_rows_select.
  - apply isfinite_rows_select.
Qed.

Lemma selected_finite (sci_data : list (list float))
    (mask : list (list bool)) :
  selects_finite sci_data mask ->
  Forall (fun x => Float.isfinite x = true) (bool_index2 sci_data mask).
Proof.
  unfold bool_index2.
  revert mask; induction sci_data as [|s sci_data IH]; intros [|m mask] H;
    cbn [Np.map2 List.concat]; try constructor.
  apply Forall_app. split.
  - destruct (H 0%nat m eq_refl) as (s' & Hs' & Hfin).
    injection Hs' as <-. apply Forall_bool_index. intros i x Hx Hi.
    destruct (Hfin i Hi) as (x' & Hx' & Hf). congruence.
  - apply IH. intros k m' Hm'. exact (H (S k) m' Hm').
Qed.

Lemma selected_same_length (wavegrid sci_data : list (list float))
    (mask : list (list bool)) :
  Forall2 (fun w s => List.length w = List.length s) wavegrid sci_data ->
  List.length (bool_index2 wavegrid mask)
  = List.length (bool_index2 sci_data mask).
Proof.
  unfold bool_index2. intros H; revert mask.
  induction H as [|w s wavegrid sci_data Hws _ IH]; intros [|m mask];
    cbn [Np.map2 List.concat]; try reflexivity.
  rewrite !length_app, (bool_index_same_length w s m Hws), IH. reflexivity.
Qed.

(** X10.  The samples through which [rough_ccf_rv] draws the spline of
    the science data are aligned and finite: as many wavelengths as
    fluxes, and no flux that is NaN or infinite (for a wave grid and
    science data of one shape). *)
Theorem ccf_samples_finite_and_aligned :
  forall wavegrid sci_data : list (list float),
    Forall2 (fun w s => List.length w = List.length s) wavegrid sci_data ->
    List.length (fst (ccf_samples wavegrid sci_data))
    = List.length (snd (ccf_samples wavegrid sci_data))
    /\ Forall (fun x => Float.isfinite x = true)
         (snd (ccf_samples wavegrid sci_data)).
Proof.
  intros wavegrid sci_data Hshape. unfold ccf_samples; cbn [fst snd]. split.
  - now apply selected_same_length.
  - apply selected_finite. apply ccf_mask_selects.
Qed.

(** Two orders of five pixels, one flux missing. *)
Lemma ccf_samples_finite_and_aligned_example :
  Forall2 (fun w s => List.length w = List.length s) Cases.two_orders
    Cases.two_fluxes
  /\ List.length (fst (ccf_samples Cases.two_orders Cases.two_fluxes))
     = List.length (snd (ccf_samples Cases.two_orders Cases.two_fluxes))
  /\ Forall (fun x => Float.isfinite x = true)
       (snd (ccf_samples Cases.two_orders Cases.two_fluxes)).
Proof.
  assert (H2 : Forall2 (fun w s => List.length w = List.length s)
                 Cases.two_orders Cases.two_fluxes)
    by (repeat constructor).
  split; [exact H2|].
  exact (ccf_samples_finite_and_aligned Cases.two_orders Cases.two_fluxes H2).
Defined.

Lemma map2_all_true {A B} (f : A -> B -> bool) (a : list A) (b : list B) :
  List.length a = List.length b ->
  (forall x y, In x a -> In y b -> f x y = true) ->
  Np.map2 f a b = map (fun _ => true) a.
Proof.
  revert b; induction a as [|x a IH]; intros [|y b] Hlen H; simpl in *;
    try discriminate; try reflexivity.
  rewrite (H x y) by auto. rewrite IH; auto.
Qed.

Lemma andb_all_true {A} (a : list A) :
  Np.map2 andb (map (fun _ => true) a) (map (fun _ => true) a)
  = map (fun _ => true) a.
Proof. induction a as [|x a IH]; simpl; congruence. Qed.

Lemma mask_previous_separated (n : nat) :
  forall (rows : list (list float)) (previous : list float),
    List.length previous = n ->
    Forall (fun r => List.length r = n) rows ->
    separated (previous :: rows) ->
    mask_previous previous rows (all_true rows) = all_true rows.
Proof.
  induction rows as [|row rows IH]; intros previous Hp Hrows Hsep;
    [reflexivity|].
  inversion Hrows as [|? ? Hr Hrest]; subst.
  cbn [all_true map mask_previous]. cbn [separated] in Hsep.
  destruct Hsep as [Hlt Hsep].
  rewrite (map2_all_true Float.gtb row (rev previous)).
  - rewrite andb_all_true. f_equal. apply IH; auto.
  - rewrite length_rev. congruence.
  - intros x y Hx Hy. apply in_rev in Hy. unfold Float.gtb. auto.
Qed.

Lemma not_in_next_separated (n : nat) :
  forall rows : list (list float),
    Forall (fun r => List.length r = n) rows ->
    separated rows ->
    not_in_next rows (all_true rows) = all_true rows.
Proof.
  induction rows as [|row [|next rows] IH]; intros Hrows Hsep;
    try reflexivity.
  inversion Hrows as [|? ? Hr Hrest]; subst.
  inversion Hrest as [|? ? Hn _]; subst.
  destruct Hsep as [Hlt Hsep].
  change (not_in_next (row :: next :: rows) (all_true (row :: next :: rows)))
    with (Np.map2 andb (map (fun _ => true) row)
            (Np.map2 Float.ltb row (rev next))
          :: not_in_next (next :: rows) (all_true (next :: rows))).
  rewrite (map2_all_true Float.ltb row (rev next)).
  - rewrite andb_all_true, IH by assumption. reflexivity.
  - rewrite length_rev. congruence.
  - intros x y Hx Hy. apply in_rev in Hy. auto.
Qed.

Lemma and_all_true (wavegrid sci_data : list (list float)) :
  Forall2 (fun w s => List.length w = List.length s) wavegrid sci_data ->
  Np.map2 (Np.map2 andb) (all_true wavegrid)
    (map (map Float.isfinite) sci_data)
  = map (map Float.isfinite) sci_data.
Proof.
  induction 1 as [|w s wavegrid sci_data Hws _ IH]; [reflexivity|].
  cbn [all_true map Np.map2]. fold (all_true wavegrid). rewrite IH.
  f_equal. clear IH. revert s Hws.
  induction w as [|x w IHw]; intros [|y s] Hws; simpl in *;
    try discriminate; try reflexivity.
  rewrite IHw by congruence. reflexivity.
Qed.

(** X11.  When the orders do not overlap (every wavelength of an order
    below every wavelength of the next), the two loops of [rough_ccf_rv]
    that discard overlapping pixels discard nothing: the samples are all
    the pixels with a finite flux, order after order. *)
Theorem ccf_samples_separated_orders :
  forall (wavegrid sci_data : list (list float)) (n : nat),
    Forall (fun w => List.length w = n) wavegrid ->
    Forall2 (fun w s => List.length w = List.length s) wavegrid sci_data ->
    separated wavegrid ->
    ccf_samples wavegrid sci_data
    = (bool_index2 wavegrid (map (map Float.isfinite) sci_data),
       bool_index2 sci_data (map (map Float.isfinite) sci_data)).
Proof.
  intros wavegrid sci_data n Hrect Hshape Hsep.
  unfold ccf_samples, ccf_mask.
  destruct (1 <? List.length wavegrid)%nat; [|reflexivity].
  fold (all_true wavegrid).
  assert (Hprev : not_in_previous wavegrid (all_true wavegrid)
                  = all_true wavegrid).
  { destruct wavegrid as [|first rows]; [reflexivity|].
    inversion Hrect; subst.
    cbn [all_true map not_in_previous]. fold (all_true rows).
    now rewrite (mask_previous_separated (List.length first)). }
  rewrite Hprev, (not_in_next_separated n), and_all_true by assumption.
  reflexivity.
Qed.

Lemma ccf_samples_separated_orders_example :
  Forall (fun w => List.length w = 5%nat) Cases.two_orders
  /\ Forall2 (fun w s => List.length w = List.length s) Cases.two_orders
       Cases.two_fluxes
  /\ separated Cases.two_orders
  /\ ccf_samples Cases.two_orders Cases.two_fluxes
     = (bool_index2 Cases.two_orders
          (map (map Float.isfinite) Cases.two_fluxes),
        bool_index2 Cases.two_fluxes
          (map (map Float.isfinite) Cases.two_fluxes)).
Proof.
  assert (H1 : Forall (fun w => List.length w = 5%nat) Cases.two_orders)
    by (repeat constructor).
  assert (H2 : Forall2 (fun w s => List.length w = List.length s)
                 Cases.two_orders Cases.two_fluxes)
    by (repeat constructor).
  assert (H3 : separated Cases.two_orders).
  { split; [|exact I]. intros x y Hx Hy. cbn in Hx, Hy.
    repeat (destruct Hx as [<- | Hx]; [
      repeat (destruct Hy as [<- | Hy]; [reflexivity|]); destruct Hy |]).
    destruct Hx. }
  split; [exact H1|]. split; [exact H2|]. split; [exact H3|].
  exact (ccf_samples_separated_orders Cases.two_orders Cases.two_fluxes 5
           H1 H2 H3).
Defined.

(** X12.  With an empty range of velocities (a maximum not above the
    minimum, for a step that is not negative) [rough_ccf_rv] raises: the
    grid of velocities is empty, or the step is zero. *)
Theorem rough_ccf_rv_empty_range :
  forall (nanmedian : list float -> float)
         (doppler_shift : list float -> float -> list float)
         (iuv_spline :
            list float -> list float -> option Z -> option Z
            -> option Spline)
         (curve_fit :
            list float -> list float -> list float -> option (list float))
         (params : CcfParams) (rv_min rv_max rv_step : Q)
         (wavegrid sci_data : list (list float))
         (wave_mask weight_line : list float),
    ROUGH_CCF_MIN_RV params = Fin rv_min ->
    ROUGH_CCF_MAX_RV params = Fin rv_max ->
    ROUGH_CCF_RV_STEP params = Fin rv_step ->
    (rv_max <= rv_min)%Q ->
    (0 <= rv_step)%Q ->
    rough_ccf_rv nanmedian doppler_shift iuv_spline curve_fit params
      wavegrid sci_data wave_mask weight_line = None.
Proof.
  intros nanmedian doppler_shift iuv_spline curve_fit params rv_min rv_max
    rv_step wavegrid sci_data wave_mask weight_line Hmin Hmax Hstep Hle Hs.
  unfold rough_ccf_rv. destruct (ccf_samples wavegrid sci_data) as [w s].
  destruct (iuv_spline w s (Some 1) (Some 1)); [|reflexivity].
  rewrite Hmin, Hmax, Hstep. unfold arange_float.
  destruct (Qeq_bool rv_step 0) eqn:Ez; [reflexivity|].
  assert (Hn : Z.to_nat (Qceiling ((rv_max - rv_min) / rv_step)) = 0%nat).
  { assert (Hpos : (0 < rv_step)%Q).
    { apply Qle_lteq in Hs. destruct Hs as [Hs | Hs]; [exact Hs|].
      symmetry in Hs. apply Qeq_bool_iff in Hs. congruence. }
    assert (Hq : ((rv_max - rv_min) / rv_step <= 0)%Q).
    { apply Qle_shift_div_r; [exact Hpos|]. rewrite Qmult_0_l.
      unfold Qminus. rewrite <- (Qplus_opp_r rv_min).
      apply Qplus_le_l. exact Hle. }
    pose proof (Qceiling_resp_le _ _ Hq) as Hc.
    change (Qceiling 0) with 0 in Hc. lia. }
  rewrite Hn. reflexivity.
Qed.

Lemma rough_ccf_rv_empty_range_example :
  (1000 <= 1000)%Q /\ (0 <= 500)%Q
  /\ rough_ccf_rv Collab.nanmedian Collab.doppler_shift Collab.iuv_spline
       Cases.curve_fit Cases.empty_range Cases.two_orders Cases.two_fluxes
       [of_Z 5002] [one] = None.
Proof.
  assert (H1 : (1000 <= 1000)%Q) by (apply Qle_refl).
  assert (H2 : (0 <= 500)%Q) by (vm_compute; discriminate).
  split; [exact H1|]. split; [exact H2|].
  exact (rough_ccf_rv_empty_range Collab.nanmedian Collab.doppler_shift
           Collab.iuv_spline Cases.curve_fit Cases.empty_range 1000 1000 500
           Cases.two_orders Cases.two_fluxes [of_Z 5002] [one]
           eq_refl eq_refl eq_refl H1 H2).
Defined.

(** ** The models of an iteration *)

(** A product with a mask is NaN where the mask is. *)
Lemma masked_product (values validity : list float) (ones : list float)
    (amp : float) (i : nat) (v : float) :
  nth_error validity i = Some v ->
  (v <? literal_0_99)%float = true ->
  (i < List.length
         (map (fun m => (m * amp)%float)
            (Np.map2 Float.mul values
               (Np.map2 (fun m (s : bool) => if s then NaN else m) ones
                  (map (fun m => (m <? literal_0_99)%float)
                     validity)))))%nat ->
  nth_error
    (map (fun m => (m * amp)%float)
       (Np.map2 Float.mul values
          (Np.map2 (fun m (s : bool) => if s then NaN else m) ones
             (map (fun m => (m <? literal_0_99)%float) validity)))) i
  = Some NaN.
Proof.
  intros Hv Hlow Hi. apply nth_error_Some in Hi.
  match goal with
  | |- nth_error ?l i = _ =>
      destruct (nth_error l i) as [x|] eqn:Ex; [|congruence]
  end.
  clear Hi. rewrite nth_error_map in Ex.
  match type of Ex with
  | option_map _ (nth_error ?l i) = _ =>
      destruct (nth_error l i) as [y|] eqn:Ey; [|discriminate]
  end.
  cbn in Ex. injection Ex as <-.
  apply nth_error_map2 in Ey. destruct Ey as (p & m & _ & Hm & ->).
  apply nth_error_map2 in Hm. destruct Hm as (o & s & _ & Hs & ->).
  rewrite nth_error_map, Hv in Hs. cbn in Hs. injection Hs as <-.
  rewrite Hlow. destruct p; reflexivity.
Qed.

(** X13.  A pixel of an order where the mask spline of the template is
    below the literal [0.99] (the binary64 number [0x1.fae147ae147aep-1],
    which is less than 99/100) at the shifted wavelength is NaN in the
    model of that order, whatever the template, the blaze and the
    amplitude. *)
Theorem model_order_masked_pixels :
  forall (sqrt : float -> float) (estimate_sigma : list float -> float)
         (doppler_shift : list float -> float -> list float)
         (splines : Splines) (velocity : float)
         (wave_row blaze_ord sci_ord : list float) (i : nat)
         (validity : float),
    nth_error
      (spline_mask splines (doppler_shift wave_row (Float.opp velocity))) i
    = Some validity ->
    (validity <? literal_0_99)%float = true ->
    (i < List.length
           (fst (fst (fst (model_order sqrt estimate_sigma doppler_shift
                             splines velocity wave_row blaze_ord
                             sci_ord)))))%nat ->
    nth_error
      (fst (fst (fst (model_order sqrt estimate_sigma doppler_shift splines
                        velocity wave_row blaze_ord sci_ord)))) i
    = Some NaN.
Proof.
  intros sqrt estimate_sigma doppler_shift splines velocity wave_row
    blaze_ord sci_ord i validity Hv Hlow Hi.
  exact (masked_product _ _ _ _ i validity Hv Hlow Hi).
Qed.

(** The last pixel of the order of the example lies beyond the valid
    range of the template. *)
Lemma model_order_masked_pixels_example :
  nth_error
    (spline_mask Cases.splines
       (Collab.doppler_shift Example.wave_ord (Float.opp zero))) 9
  = Some zero
  /\ nth_error
       (fst (fst (fst (model_order Collab.sqrt Collab.estimate_sigma
                         Collab.doppler_shift Cases.splines zero
                         Example.wave_ord (map (fun _ => one) Example.wave_ord)
                         Cases.flux)))) 9
     = Some NaN.
Proof.
  assert (H : nth_error
                (spline_mask Cases.splines
                   (Collab.doppler_shift Example.wave_ord (Float.opp zero)))
                9 = Some zero) by (vm_compute; reflexivity).
  split; [exact H|].
  apply (model_order_masked_pixels Collab.sqrt Collab.estimate_sigma
           Collab.doppler_shift Cases.splines zero Example.wave_ord
           (map (fun _ => one) Example.wave_ord) Cases.flux 9 zero H).
  - reflexivity.
  - vm_compute. apply le_n.
Defined.

(** ** The fit of a line *)

(** The weight mask has one entry per pixel of the window. *)
Lemma edge_weights_length (ww_ord : list float) (wave_start wave_end : float)
    (x_start x_end : Z) (weight_mask ww_ord' : list float) :
  edge_weights ww_ord wave_start wave_end x_start x_end
  = Some (weight_mask, ww_ord') ->
  0 <= x_end - x_start + 1
  /\ List.length weight_mask = Z.to_nat (x_end - x_start + 1).
Proof.
  unfold edge_weights, ones. intros H.
  destruct (x_end - x_start + 1 <? 0) eqn:En; [discriminate|].
  apply Z.ltb_ge in En. split; [exact En|].
  repeat match goal with
         | E : match ?x with _ => _ end = Some _ |- _ =>
             destruct x eqn:?; try discriminate E
         | E : Some _ = Some _ |- _ => injection E; clear E; intros; subst
         end.
  all: repeat match goal with
         | E : Py.set_item _ _ _ = Some ?l |- context [List.length ?l] =>
             rewrite (set_item_length _ _ _ _ E)
         end.
  all: apply repeat_length.
Qed.

Section LineInvariants.

Variable sqrt : float -> float.
Variable nanstd : list float -> float.

Ltac updates :=
  repeat match goal with
         | E : Py.set_item _ (Z.of_nat _) _ = Some _ |- _ =>
             apply set_item_nat in E; subst
         end.

(** X14.  The number of pixels that the fit of a line records in
    [NPIXLINE] is the width of its window, [x_end - x_start + 1], when the
    window lies inside the rows of the order. *)
Theorem fit_window_pixel_count :
  forall (iteration line_it : nat) (order_num : Z) (ww_ord : list float)
         (rows : OrderRows) (wave_start wave_end : float)
         (x_start x_end : Z) (st st' : LineState),
    0 <= x_start ->
    x_end + 1 <= Z.of_nat (List.length (sci_ord rows)) ->
    x_end + 1 <= Z.of_nat (List.length (model_ord rows)) ->
    fit_window sqrt nanstd iteration line_it order_num ww_ord rows
      wave_start wave_end x_start x_end st = Some st' ->
    nth_error (NPIXLINE (ref_table st')) line_it
    = Some (x_end - x_start + 1).
Proof.
  intros iteration line_it order_num ww_ord rows wave_start wave_end
    x_start x_end st st' H0 Hs Hm H.
  unfold fit_window in H.
  destruct (edge_weights ww_ord wave_start wave_end x_start x_end)
    as [[weight_mask ww]|] eqn:Ew; [|discriminate].
  apply edge_weights_length in Ew. destruct Ew as [Hn Hw].
  returned H. injection H as <-.
  cbn [ref_table with_diagnostics NPIXLINE].
  match goal with
  | E : Py.set_item (NPIXLINE _) _ _ = Some _ |- _ =>
      pose proof (set_item_in_range _ _ _ _ E) as Hin;
      apply set_item_nat in E; subst
  end.
  rewrite nth_error_update_same by exact Hin. f_equal.
  rewrite !map2_length, !slice_length, Hw by lia.
  replace (x_end + 1 - x_start) with (x_end - x_start + 1) by lia.
  rewrite !Nat.min_id. lia.
Qed.

Lemma fit_window_step (iteration line_it : nat) (order_num : Z)
    (ww_ord : list float) (rows : OrderRows) (wave_start wave_end : float)
    (x_start x_end : Z) (st st' : LineState) :
  fit_window sqrt nanstd iteration line_it order_num ww_ord rows wave_start
    wave_end x_start x_end st = Some st' ->
  layout st' = layout st
  /\ mask_keep st' = mask_keep st
  /\ forall j, j <> line_it -> line_arrays st' j = line_arrays st j.
Proof.
  unfold fit_window. intros H. returned H. injection H as <-. updates.
  unfold layout, line_arrays, geometry.
  cbn [mask_keep dv dvrms ddv ddvrms dddv dddvrms ref_table with_diagnostics
         ORDER WAVE_START WAVE_END WEIGHT_LINE XPIX AMP_CONTINUUM
         CHI2_VALID_CDF MEANXPIX MEANBLAZE RMSRATIO NPIXLINE CHI2].
  rewrite !update_length. split; [reflexivity|]. split; [reflexivity|].
  intros j Hj. rewrite !nth_error_update_other by exact Hj. reflexivity.
Qed.

(** X15.  The body of the loop over the lines writes the entries of its
    own line only: for every other line the flag, the shifts, their
    errors and the diagnostics in the table are what they were. *)
Theorem fit_line_writes_one_line :
  forall (params : Params) (iteration : nat) (sci_data : list (list float))
         (models : Models) (rms blaze : list (list float))
         (wave2pixlist : list Spline) (st st' : LineState) (line_it : nat),
    fit_line sqrt nanstd params iteration sci_data models rms blaze
      wave2pixlist st line_it = Some st' ->
    forall j, j <> line_it -> line_arrays st' j = line_arrays st j.
Proof.
  intros params iteration sci_data models rms blaze wave2pixlist st st'
    line_it H j Hj.
  unfold fit_line in H. returned H;
    try (injection H as <-; reflexivity).
  all: match goal with
       | E : (if ?c then _ else Some ?s) = Some ?l |- _ =>
           assert (Hl : line_arrays l j = line_arrays s j)
             by (destruct c; returned E; injection E as <-; updates;
                 unfold line_arrays; cbn [mask_keep with_mask_keep dv dvrms
                   ddv ddvrms dddv dddvrms ref_table];
                 rewrite ?nth_error_update_other by exact Hj; reflexivity);
           clear E
       end.
  all: try (injection H as <-; exact Hl).
  all: apply fit_window_step in H; destruct H as (_ & _ & H);
    rewrite (H j Hj); exact Hl.
Qed.

Lemma fit_line_step (params : Params) (iteration : nat)
    (sci_data : list (list float)) (models : Models)
    (rms blaze : list (list float)) (wave2pixlist : list Spline)
    (st st' : LineState) (line_it : nat) :
  fit_line sqrt nanstd params iteration sci_data models rms blaze
    wave2pixlist st line_it = Some st' ->
  layout st' = layout st /\ flags_kept st st'.
Proof.
  intros H. unfold fit_line in H. returned H;
    try (injection H as <-; split; [reflexivity|intros j Hj; exact Hj]).
  all: match goal with
       | E : (if ?c then _ else Some ?s) = Some ?l |- _ =>
           assert (Hl : layout l = layout s /\ flags_kept s l)
             by (destruct c; returned E; injection E as <-; updates;
                 (split; [unfold layout; cbn [mask_keep with_mask_keep dv
                            dvrms ddv ddvrms dddv dddvrms ref_table];
                          rewrite ?update_length; reflexivity
                         |intros j Hj; cbn [mask_keep with_mask_keep];
                          try apply update_flag; exact Hj]));
           clear E
       end.
  all: try (injection H as <-; exact Hl).
  all: apply fit_window_step in H; destruct H as (H1 & H2 & _);
    destruct Hl as [Hl1 Hl2]; split; [congruence|].
  all: intros j Hj; rewrite H2; apply Hl2; exact Hj.
Qed.

Lemma line_loop_step (params : Params) (iteration : nat)
    (sci_data : list (list float)) (models : Models)
    (rms blaze : list (list float)) (wave2pixlist : list Spline)
    (lines : list nat) :
  forall st st',
    line_loop sqrt nanstd params iteration sci_data models rms blaze
      wave2pixlist lines st = Some st' ->
    layout st' = layout st /\ flags_kept st st'.
Proof.
  induction lines as [|line_it rest IH]; intros st st' H;
    cbn [line_loop] in H.
  - injection H as <-. split; [reflexivity|intros j Hj; exact Hj].
  - destruct (fit_line sqrt nanstd params iteration sci_data models rms
                blaze wave2pixlist st line_it) as [st1|] eqn:E;
      [|discriminate].
    apply fit_line_step in E. apply IH in H.
    destruct E as [E1 E2], H as [H1 H2]. split; [congruence|].
    intros j Hj. apply H2, E2, Hj.
Qed.

End LineInvariants.

(** The second line of the example: pixels 2 to 8. *)
Lemma fit_window_pixel_count_example :
  exists st',
    fit_window Collab.sqrt Collab.nanstd 0 1 0 Example.wave_ord Cases.rows
      (Example.q 500275 100) (Example.q 50075 10) 2 8 Example.start
    = Some st'
    /\ nth_error (NPIXLINE (ref_table st')) 1 = Some (8 - 2 + 1).
Proof.
  destruct (fit_window Collab.sqrt Collab.nanstd 0 1 0 Example.wave_ord
              Cases.rows (Example.q 500275 100) (Example.q 50075 10) 2 8
              Example.start) as [st'|] eqn:E.
  - exists st'. split; [reflexivity|].
    apply (fit_window_pixel_count Collab.sqrt Collab.nanstd 0 1 0
             Example.wave_ord Cases.rows (Example.q 500275 100)
             (Example.q 50075 10) 2 8 Example.start st').
    + lia.
    + vm_compute. discriminate.
    + vm_compute. discriminate.
    + exact E.
  - vm_compute in E. discriminate E.
Defined.

(** The fit of the second line of the example leaves the first alone. *)
Lemma fit_line_writes_one_line_example :
  exists st',
    fit_line Collab.sqrt Collab.nanstd Example.params 0 [Example.flux]
      Example.models Example.rms Example.blaze Cases.wave2pixlist
      Example.start 1 = Some st'
    /\ line_arrays st' 0 = line_arrays Example.start 0
    /\ line_arrays st' 1 <> line_arrays Example.start 1.
Proof.
  destruct (fit_line Collab.sqrt Collab.nanstd Example.params 0
              [Example.flux] Example.models Example.rms Example.blaze
              Cases.wave2pixlist Example.start 1) as [st'|] eqn:E.
  - exists st'. split; [reflexivity|]. split.
    + apply (fit_line_writes_one_line Collab.sqrt Collab.nanstd
               Example.params 0 [Example.flux] Example.models Example.rms
               Example.blaze Cases.wave2pixlist Example.start st' 1 E).
      discriminate.
    + vm_compute in E. injection E as <-. vm_compute. discriminate.
  - vm_compute in E. discriminate E.
Defined.

(** ** The iteration loop *)

Section LoopInvariants.

Variable sqrt : float -> float.
Variable nanstd : list float -> float.
Variable estimate_sigma : list float -> float.
Variable odd_ratio_mean : list float -> list float -> float * float.
Variable doppler_shift : list float -> float -> list float.
Variable iuv_spline :
  list float -> list float -> option Z -> option Z -> option Spline.

Lemma iteration_body_step (params : Params) (splines : Splines)
    (sci_data wavegrid blaze : list (list float)) (berv : float)
    (iteration : nat) (st st' : IterState) :
  iteration_body sqrt nanstd estimate_sigma odd_ratio_mean doppler_shift
    iuv_spline params splines sci_data wavegrid blaze berv iteration st
  = Some st' ->
  layout (lines st') = layout (lines st)
  /\ flags_kept (lines st) (lines st').
Proof.
  unfold iteration_body. intros H. do 4 step H.
  match goal with
  | E : line_loop _ _ _ _ _ _ _ _ _ _ _ = Some ?ls |- _ =>
      apply line_loop_step in E; destruct E as [E1 E2]
  end.
  destruct (velocity_update _ _ _ _ _ _ _) as [[[[sd mean] err] final] new].
  injection H as <-. cbn [lines]. split; assumption.
Qed.

Lemma iterate_step (params : Params) (splines : Splines)
    (sci_data wavegrid blaze : list (list float)) (berv : float)
    (iterations : list nat) :
  forall st st',
    iterate sqrt nanstd estimate_sigma odd_ratio_mean doppler_shift
      iuv_spline params splines sci_data wavegrid blaze berv iterations st
    = Some st' ->
    layout (lines st') = layout (lines st)
    /\ flags_kept (lines st) (lines st').
Proof.
  induction iterations as [|iteration rest IH]; intros st st' H;
    cbn [iterate] in H.
  - injection H as <-. split; [reflexivity|intros j Hj; exact Hj].
  - step H.
    match goal with
    | E : iteration_body _ _ _ _ _ _ _ _ _ _ _ _ _ _ = Some ?s |- _ =>
        apply iteration_body_step in E; destruct E as [E1 E2];
        destruct (converged params s)
    end.
    + injection H as <-. split; assumption.
    + apply IH in H. destruct H as [H1 H2]. split; [congruence|].
      intros j Hj. apply H2, E2, Hj.
Qed.

(** X16.  The iteration loop of [compute_rv] leaves the layout of the
    table alone: the columns ORDER, WAVE_START, WAVE_END, WEIGHT_LINE,
    XPIX, AMP_CONTINUUM and CHI2_VALID_CDF are what they were, and every
    array with one entry per line keeps its size. *)
Theorem iterate_keeps_table_layout :
  forall (params : Params) (splines : Splines)
         (sci_data wavegrid blaze : list (list float)) (berv : float)
         (iterations : list nat) (st st' : IterState),
    iterate sqrt nanstd estimate_sigma odd_ratio_mean doppler_shift
      iuv_spline params splines sci_data wavegrid blaze berv iterations st
    = Some st' ->
    layout (lines st') = layout (lines st).
Proof. intros. eapply iterate_step. eassumption. Qed.

(** X17.  The iteration loop never clears a flag: a line flagged in the
    keep mask as too narrow stays flagged in every later iteration. *)
Theorem iterate_keeps_flags :
  forall (params : Params) (splines : Splines)
         (sci_data wavegrid blaze : list (list float)) (berv : float)
         (iterations : list nat) (st st' : IterState),
    iterate sqrt nanstd estimate_sigma odd_ratio_mean doppler_shift
      iuv_spline params splines sci_data wavegrid blaze berv iterations st
    = Some st' ->
    forall line_it,
      nth_error (mask_keep (lines st)) line_it = Some false ->
      nth_error (mask_keep (lines st')) line_it = Some false.
Proof.
  intros params splines sci_data wavegrid blaze berv iterations st st' H.
  exact (proj2 (iterate_step _ _ _ _ _ _ _ _ _ H)).
Qed.

(** X18.  The iteration loop runs at least once and at most once per
    requested iteration, and counts what it ran; when it ran fewer than
    requested it stopped because the convergence test held for the state
    it returns. *)
Theorem iterate_counts_and_stops :
  forall (params : Params) (splines : Splines)
         (sci_data wavegrid blaze : list (list float)) (berv : float)
         (iterations : list nat) (st st' : IterState),
    iterations <> [] ->
    iterate sqrt nanstd estimate_sigma odd_ratio_mean doppler_shift
      iuv_spline params splines sci_data wavegrid blaze berv iterations st
    = Some st' ->
    num_to_converge st + 1 <= num_to_converge st'
    /\ num_to_converge st'
       <= num_to_converge st + Z.of_nat (List.length iterations)
    /\ (num_to_converge st'
        < num_to_converge st + Z.of_nat (List.length iterations) ->
        converged params st' = true).
Proof.
  intros params splines sci_data wavegrid blaze berv iterations st st' Hne H.
  pose proof (iterate_third_order _ _ _ _ _ _ _ _ _ _ _ _ _ _ _ H)
    as (_ & _ & Hb & Hc).
  split; [|split; [lia|exact Hc]].
  destruct iterations as [|iteration rest]; [congruence|].
  cbn [iterate] in H. step H.
  match goal with
  | E : iteration_body _ _ _ _ _ _ _ _ _ _ _ _ _ _ = Some ?s |- _ =>
      apply iteration_body_third_order in E;
      destruct E as (_ & _ & E3 & _); destruct (converged params s)
  end.
  - injection H as <-. lia.
  - apply iterate_third_order in H. lia.
Qed.

End LoopInvariants.

(** One iteration on the order of the example. *)
Lemma iterate_keeps_table_layout_example :
  exists st',
    Cases.one_iteration = Some st'
    /\ layout (lines st') = layout (lines Cases.first_state).
Proof.
  unfold Cases.one_iteration.
  destruct (iterate _ _ _ _ _ _ _ _ _ _ _ _ _ _) as [st'|] eqn:E.
  - exists st'. split; [reflexivity|].
    exact (iterate_keeps_table_layout Collab.sqrt Collab.nanstd
             Collab.estimate_sigma Collab.odd_ratio_mean Collab.doppler_shift
             Collab.iuv_spline Example.params Cases.splines [Cases.flux]
             Example.wavegrid Example.blaze zero [0%nat] Cases.first_state
             st' E).
  - vm_compute in E. discriminate E.
Defined.

(** A third iteration entered with the first line flagged. *)
Lemma iterate_keeps_flags_example :
  exists st',
    Cases.third_iteration = Some st'
    /\ nth_error (mask_keep (lines Cases.flagged_state)) 0 = Some false
    /\ nth_error (mask_keep (lines st')) 0 = Some false.
Proof.
  unfold Cases.third_iteration.
  destruct (iterate _ _ _ _ _ _ _ _ _ _ _ _ _ _) as [st'|] eqn:E.
  - exists st'. split; [reflexivity|]. split; [reflexivity|].
    exact (iterate_keeps_flags Collab.sqrt Collab.nanstd
             Collab.estimate_sigma Collab.odd_ratio_mean Collab.doppler_shift
             Collab.iuv_spline Example.params Cases.splines [Cases.flux]
             Example.wavegrid Example.blaze zero [2%nat] Cases.flagged_state
             st' E 0%nat eq_refl).
  - vm_compute in E. discriminate E.
Defined.

Lemma iterate_counts_and_stops_example :
  exists st',
    Cases.one_iteration = Some st'
    /\ num_to_converge Cases.first_state + 1 <= num_to_converge st'
    /\ num_to_converge st'
       <= num_to_converge Cases.first_state
          + Z.of_nat (List.length [0%nat])
    /\ (num_to_converge st'
        < num_to_converge Cases.first_state
          + Z.of_nat (List.length [0%nat]) ->
        converged Example.params st' = true).
Proof.
  unfold Cases.one_iteration.
  destruct (iterate _ _ _ _ _ _ _ _ _ _ _ _ _ _) as [st'|] eqn:E.
  - exists st'. split; [reflexivity|].
    apply (iterate_counts_and_stops Collab.sqrt Collab.nanstd
             Collab.estimate_sigma Collab.odd_ratio_mean Collab.doppler_shift
             Collab.iuv_spline Example.params Cases.splines [Cases.flux]
             Example.wavegrid Example.blaze zero [0%nat] Cases.first_state
             st').
    + discriminate.
    + exact E.
  - vm_compute in E. discriminate E.
Defined.
